(** * lite-llm: hardware prober, metrics sampler and inference-server client

    A shallow embedding of the Go packages [internal/system] (checker.go),
    [monitor] (the performance sampler) and [internal/ollama] (client.go),
    together with the properties the specification states about them.

    Conventions.
    - A Go [string] is a Rocq [string] (a sequence of bytes).
    - A Go [int]/[int64] is a [Z] kept in range by [wrap64]; a [uint64] is a
      [Z] kept in range by [wrapU64].
    - A function returning [(v, err)] returns a pair whose second component is
      an [option] (with [None] for Go's [nil]).
    - The operating system, the file system and the HTTP transport are
      explicit arguments: records of functions answering each call.  A
      command or a file answers the same way each time it is asked within
      one probe or one sample.
    - Strings are read as UTF-8 where the library does: white space is that
      of [unicode.IsSpace].
    - A [bufio.Scanner] has its default buffer: it reads lines of fewer
      than 65536 bytes and stops for good at a longer one. *)

From Stdlib Require Import ZArith QArith List String Ascii Bool Lia DecimalString.
Import ListNotations.
Open Scope string_scope.
Open Scope Z_scope.

Set Implicit Arguments.

(* ================================================================== *)
(** * Go runtime and standard-library functions used by the program   *)
(* ================================================================== *)

(** ** Machine integers *)

Definition wrap64 (z : Z) : Z := (z + 2^63) mod 2^64 - 2^63.
Definition wrapU64 (z : Z) : Z := z mod 2^64.
Definition maxInt64 : Z := 2^63 - 1.
Definition minInt64 : Z := - 2^63.
Definition maxUint64 : Z := 2^64 - 1.

(** ** Bytes *)

Definition byte (n : nat) : ascii := ascii_of_nat n.
Definition LF : string := String (byte 10) "".

(** The six ASCII white-space characters. *)
Definition isSpace (c : ascii) : bool :=
  let n := nat_of_ascii c in
  (((9 <=? n) && (n <=? 13)) || (n =? 32))%nat.

(** The width in bytes of the white-space character at the front of [s],
    0 when there is none, after [unicode.IsSpace]: the six ASCII ones and
    the UTF-8 encodings of U+0085, U+00A0, U+1680, U+2000 to U+200A, U+2028,
    U+2029, U+202F, U+205F and U+3000. *)
Definition spaceWidth (s : string) : nat :=
  match s with
  | EmptyString => 0
  | String c s1 =>
      if isSpace c then 1
      else
        let b0 := nat_of_ascii c in
        match s1 with
        | EmptyString => 0
        | String c1 s2 =>
            let b1 := nat_of_ascii c1 in
            if ((b0 =? 194) && ((b1 =? 133) || (b1 =? 160)))%nat then 2
            else
              match s2 with
              | EmptyString => 0
              | String c2 _ =>
                  let b2 := nat_of_ascii c2 in
                  if (((b0 =? 225) && (b1 =? 154) && (b2 =? 128))
                      || ((b0 =? 226) && (b1 =? 128)
                          && (((128 <=? b2) && (b2 <=? 138))
                              || (b2 =? 168) || (b2 =? 169) || (b2 =? 175)))
                      || ((b0 =? 226) && (b1 =? 129) && (b2 =? 159))
                      || ((b0 =? 227) && (b1 =? 128) && (b2 =? 128)))%nat
                  then 3 else 0
              end
        end
  end.

Definition isDigit (c : ascii) : bool :=
  let n := nat_of_ascii c in ((48 <=? n) && (n <=? 57))%nat.

Definition digitVal (c : ascii) : Z := Z.of_nat (nat_of_ascii c) - 48.

Definition toLower (c : ascii) : ascii :=
  let n := nat_of_ascii c in
  if ((65 <=? n) && (n <=? 90))%nat then ascii_of_nat (n + 32) else c.

(** One step of case-insensitive matching of the ASCII pattern byte [p]
    against the front of [s], as Go's simple Unicode case folding does it:
    besides the two ASCII cases, [s] also folds to U+017F (bytes C5 BF) and
    [k] to U+212A (bytes E2 84 AA). *)
Definition foldStep (p : ascii) (s : string) : option string :=
  match s with
  | String c s' =>
      if Ascii.eqb (toLower c) (toLower p) then Some s'
      else
        match s' with
        | String c1 s1 =>
            if (Ascii.eqb (toLower p) "s" && Ascii.eqb c (byte 197)
                && Ascii.eqb c1 (byte 191))%bool then Some s1
            else
              match s1 with
              | String c2 s2 =>
                  if (Ascii.eqb (toLower p) "k" && Ascii.eqb c (byte 226)
                      && Ascii.eqb c1 (byte 132) && Ascii.eqb c2 (byte 170))%bool
                  then Some s2 else None
              | EmptyString => None
              end
        | EmptyString => None
        end
  | EmptyString => None
  end.

(** [foldPrefix pat s]: [s] starts with [pat] up to case; the rest of [s]. *)
Fixpoint foldPrefix (pat s : string) : option string :=
  match pat with
  | EmptyString => Some s
  | String p pat' =>
      match foldStep p s with
      | Some rest => foldPrefix pat' rest
      | None => None
      end
  end.

(** Every suffix of [s], longest first (the start positions of a search). *)
Fixpoint tails (s : string) : list string :=
  s :: match s with
       | EmptyString => []
       | String _ s' => tails s'
       end.

Definition isSome {A} (o : option A) : bool :=
  match o with Some _ => true | None => false end.

(** ** Package strings *)

Module strings.

Definition HasPrefix (s p : string) : bool := prefix p s.

Fixpoint Contains (s sub : string) : bool :=
  prefix sub s ||
  match s with
  | EmptyString => false
  | String _ s' => Contains s' sub
  end.

Definition HasSuffix (s suf : string) : bool :=
  (length suf <=? length s)%nat &&
  (substring (length s - length suf) (length suf) s =? suf)%string.

Definition TrimSuffix (s suf : string) : string :=
  if HasSuffix s suf then substring 0 (length s - length suf) s else s.

(** Drops the white space at the front; [skip] bytes of the character just
    found are still to be dropped. *)
Fixpoint trimLeftAux (skip : nat) (s : string) : string :=
  match s with
  | EmptyString => EmptyString
  | String _ s' =>
      match skip with
      | S k => trimLeftAux k s'
      | O =>
          match spaceWidth s with
          | O => s
          | S k => trimLeftAux k s'
          end
      end
  end.

Definition TrimLeftSpace (s : string) : string := trimLeftAux 0 s.

(** Cuts [s] where what is left is white space only. *)
Fixpoint TrimRightSpace (s : string) : string :=
  match s with
  | EmptyString => EmptyString
  | String c s' =>
      match TrimLeftSpace s with
      | EmptyString => EmptyString
      | _ => String c (TrimRightSpace s')
      end
  end.

(** [strings.TrimSpace] *)
Definition TrimSpace (s : string) : string := TrimRightSpace (TrimLeftSpace s).

(** [strings.Split s sep] for a non-empty [sep]: [skip] bytes of the
    separator just found are still to be dropped, [cur] is the piece
    being read. *)
Fixpoint splitAux (sep : string) (skip : nat) (cur s : string) : list string :=
  match s with
  | EmptyString => [cur]
  | String c s' =>
      match skip with
      | S k => splitAux sep k cur s'
      | O =>
          if prefix sep s
          then cur :: splitAux sep (length sep - 1) EmptyString s'
          else splitAux sep 0 (cur ++ String c EmptyString) s'
      end
  end.

Definition Split (s sep : string) : list string := splitAux sep 0 EmptyString s.

(** [strings.Fields]: the maximal runs of bytes between white space;
    [skip] bytes of the white-space character just found are still to be
    dropped, [cur] is the field being read. *)
Fixpoint fieldsAux (skip : nat) (cur s : string) : list string :=
  match s with
  | EmptyString => match cur with EmptyString => [] | _ => [cur] end
  | String c s' =>
      match skip with
      | S k => fieldsAux k cur s'
      | O =>
          match spaceWidth s with
          | O => fieldsAux 0 (cur ++ String c EmptyString) s'
          | S k =>
              match cur with
              | EmptyString => fieldsAux k EmptyString s'
              | _ => cur :: fieldsAux k EmptyString s'
              end
          end
      end
  end.

Definition Fields (s : string) : list string := fieldsAux 0 EmptyString s.

Fixpoint Join (elems : list string) (sep : string) : string :=
  match elems with
  | [] => EmptyString
  | [e] => e
  | e :: rest => e ++ sep ++ Join rest sep
  end.

End strings.

(** ** Package strconv *)

Module strconv.

Inductive NumError : Type := ErrSyntax | ErrRange.

(** The digit loop of [ParseUint(s, 10, 64)]: the first bad byte is a
    syntax error, the first step that leaves the 64-bit range a range
    error (with the largest value). *)
Fixpoint parseDigits (n : Z) (s : string) : Z * option NumError :=
  match s with
  | EmptyString => (n, None)
  | String c s' =>
      if isDigit c then
        let n1 := 10 * n + digitVal c in
        if n1 >? maxUint64 then (maxUint64, Some ErrRange)
        else parseDigits n1 s'
      else (0, Some ErrSyntax)
  end.

Definition ParseUint (s : string) : Z * option NumError :=
  match s with
  | EmptyString => (0, Some ErrSyntax)
  | _ => parseDigits 0 s
  end.

(** [ParseInt(s, 10, 64)]: an optional sign, then [ParseUint]; out of
    range values are clamped and reported. *)
Definition ParseInt (s : string) : Z * option NumError :=
  match s with
  | EmptyString => (0, Some ErrSyntax)
  | String c s' =>
      let neg := Ascii.eqb c "-" in
      let digits := if (Ascii.eqb c "+" || neg)%bool then s' else s in
      match ParseUint digits with
      | (_, Some ErrSyntax) => (0, Some ErrSyntax)
      | (un, _) =>
          if (negb neg && (un >=? 2^63))%bool then (maxInt64, Some ErrRange)
          else if (neg && (un >? 2^63))%bool then (minInt64, Some ErrRange)
          else (if neg then - un else un, None)
      end
  end.

(** [Atoi] is [ParseInt(s, 10, 0)] with a 64-bit [int]. *)
Definition Atoi (s : string) : Z * option NumError := ParseInt s.

(** [Itoa], and the verb [%d] of [fmt.Sprintf]. *)
Definition Itoa (z : Z) : string := NilZero.string_of_int (Z.to_int z).

End strconv.

(** ** Package bufio: the tokens of a [Scanner] with the default
    [ScanLines] split function (lines without their end-of-line marker; a
    final line needs no newline) and the default buffer: at a line of
    [MaxScanTokenSize] bytes or more, [Scan] returns false and nothing
    after it is read. *)

Module bufio.

Definition MaxScanTokenSize : Z := 64 * 1024.

Definition dropCR (s : string) : string := strings.TrimSuffix s (String (byte 13) "").

(** The bytes of a line before its newline do not fit the buffer. *)
Definition tooLong (line : string) : bool :=
  MaxScanTokenSize <=? Z.of_nat (String.length line).

Fixpoint scanAux (cur s : string) : list string :=
  match s with
  | EmptyString =>
      match cur with
      | EmptyString => []
      | _ => if tooLong cur then [] else [dropCR cur]
      end
  | String c s' =>
      if Ascii.eqb c (byte 10)
      then if tooLong cur then [] else dropCR cur :: scanAux EmptyString s'
      else scanAux (cur ++ String c EmptyString) s'
  end.

Definition ScanLines (content : string) : list string := scanAux EmptyString content.

End bufio.

(** ** Package regexp: the three patterns of the program

    The patterns are matched by direct search: [tails] enumerates the start
    positions from the left, [dotTails] the positions that [.*] can reach
    (a dot does not cross a newline). *)

Module regexp.

Fixpoint dotTails (s : string) : list string :=
  s :: match s with
       | EmptyString => []
       | String c s' => if Ascii.eqb c (byte 10) then [] else dotTails s'
       end.

Fixpoint firstSome {A B} (f : A -> option B) (l : list A) : option B :=
  match l with
  | [] => None
  | x :: rest => match f x with Some y => Some y | None => firstSome f rest end
  end.

Definition foldAnyOf (alts : list string) (s : string) : bool :=
  existsb (fun a => isSome (foldPrefix a s)) alts.

(** An unanchored match of [(?i)(h1|...|hm).*(t1|...|tn)]. *)
Definition matchHeadThenTail (heads tls : list string) (line : string) : bool :=
  existsb
    (fun t =>
       existsb
         (fun h =>
            match foldPrefix h t with
            | Some rest => existsb (foldAnyOf tls) (dotTails rest)
            | None => false
            end)
         heads)
    (tails line).

(** [(?i)NVIDIA.*(GeForce|RTX|GTX|Tesla|Quadro)] *)
Definition nvidiaRegex_MatchString : string -> bool :=
  matchHeadThenTail ["NVIDIA"] ["GeForce"; "RTX"; "GTX"; "Tesla"; "Quadro"].

(** [(?i)(AMD|ATI).*(Radeon|RX|Ellesmere|Polaris)] *)
Definition amdRegex_MatchString : string -> bool :=
  matchHeadThenTail ["AMD"; "ATI"] ["Radeon"; "RX"; "Ellesmere"; "Polaris"].

Fixpoint spanDigits (s : string) : string * string :=
  match s with
  | EmptyString => (EmptyString, EmptyString)
  | String c s' =>
      if isDigit c
      then let (d, r) := spanDigits s' in (String c d, r)
      else (EmptyString, s)
  end.

(** [(\d+)([MG])B] at the front of [u], case-insensitively.  Only the
    longest run of digits can be followed by a letter. *)
Definition memTail (u : string) : option (string * string) :=
  match spanDigits u with
  | (EmptyString, _) => None
  | (d, String m r) =>
      if (Ascii.eqb (toLower m) "m" || Ascii.eqb (toLower m) "g")%bool
      then match foldStep "B" r with
           | Some _ => Some (d, String m EmptyString)
           | None => None
           end
      else None
  | (_, EmptyString) => None
  end.

(** [FindStringSubmatch] of [(?i)memory.*?(\d+)([MG])B]: the two groups of
    the leftmost match, the lazy [.*?] taking the shortest skip. *)
Definition memRegex_FindStringSubmatch (line : string) : option (string * string) :=
  firstSome
    (fun t =>
       match foldPrefix "memory" t with
       | Some rest => firstSome memTail (dotTails rest)
       | None => None
       end)
    (tails line).

End regexp.

(* ================================================================== *)
(** * Package system (internal/system/checker.go)                     *)
(* ================================================================== *)

Module system.

Import strings.

Record SystemInfo : Type := {
  HasDocker : bool;
  HasROCm : bool;
  HasNVIDIA : bool;
  HasAMDGPU : bool;
  GPUMemory : Z;          (* in MB *)
  SystemMemory : Z;       (* in MB *)
  GPUModel : string;
  GPUType : string;       (* "nvidia", "amd", or "unknown" *)
  KernelVersion : string
}.

(** What the program asks of the host: [Run] is [exec.Command(...).Run()]
    returning no error, [Output] the standard output of
    [exec.Command(...).Output()] ([None] on error), [ReadDir] the entry
    names of a directory, [ReadFile] the content of a file (also for
    [os.Open]), [Stat] whether [os.Stat] succeeds. *)
Record OS : Type := {
  Run : string -> list string -> bool;
  Output : string -> list string -> option string;
  ReadDir : string -> option (list string);
  ReadFile : string -> option string;
  Stat : string -> bool
}.

Section Checker.

Variable os : OS.

Definition checkDocker : bool := Run os "docker" ["--version"].

(** The inner loop over the lines after the VGA line. *)
Fixpoint scanMemory (window : list string) : Z :=
  match window with
  | [] => 0
  | l :: rest =>
      if (TrimSpace l =? "")%string then 0
      else
        match regexp.memRegex_FindStringSubmatch l with
        | Some (digits, unit) =>
            let size := fst (strconv.Atoi digits) in
            if (unit =? "G")%string then wrap64 (size * 1024) else size
        | None => scanMemory rest
        end
  end.

Definition modelOf (line : string) : string :=
  match Split line ": " with
  | _ :: p1 :: _ => TrimSpace p1
  | _ => ""
  end.

(** The outer loop over the lines of [lspci -v]; [j] runs over the lines
    [i+1 .. i+19]. *)
Fixpoint scanGPU (re : string -> bool) (lines : list string) : bool * string * Z :=
  match lines with
  | [] => (false, "", 0)
  | line :: rest =>
      if Contains line "VGA compatible controller" && re line
      then (true, modelOf line, scanMemory (firstn 19 rest))
      else scanGPU re rest
  end.

Definition getNVIDIAMemoryFromSMI : Z :=
  match Output os "nvidia-smi"
          ["--query-gpu=memory.total"; "--format=csv,noheader,nounits"] with
  | None => 8192
  | Some output =>
      match strconv.Atoi (TrimSpace output) with
      | (mem, None) => mem
      | _ => 8192
      end
  end.

(** The values [checkNVIDIAGPU] returns; the warning it logs on the first
    branch is [checker.lspciLog]. *)
Definition checkNVIDIAGPU : bool * string * Z :=
  match Output os "lspci" ["-v"] with
  | None => (false, "", 0)
  | Some output =>
      let '(hasNVIDIA, gpuModel, memory) :=
        scanGPU regexp.nvidiaRegex_MatchString (Split output LF) in
      let memory :=
        if hasNVIDIA && (memory =? 0) then getNVIDIAMemoryFromSMI else memory in
      (hasNVIDIA, gpuModel, memory)
  end.

Fixpoint vramOfCards (files : list string) : Z :=
  match files with
  | [] => 8192
  | name :: rest =>
      if HasPrefix name "card" && negb (Contains name "-") then
        match ReadFile os ("/sys/class/drm/" ++ name ++ "/device/mem_info_vram_total") with
        | Some data =>
            match strconv.ParseInt (TrimSpace data) with
            | (size, None) => Z.quot size (1024 * 1024)
            | _ => vramOfCards rest
            end
        | None => vramOfCards rest
        end
      else vramOfCards rest
  end.

Definition getGPUMemoryAlternative : Z :=
  match ReadDir os "/sys/class/drm" with
  | None => 0
  | Some files => vramOfCards files
  end.

(** The values [checkAMDGPU] returns; the warning it logs on the first
    branch is [checker.lspciLog]. *)
Definition checkAMDGPU : bool * string * Z :=
  match Output os "lspci" ["-v"] with
  | None => (false, "", 0)
  | Some output =>
      let '(hasAMD, gpuModel, memory) :=
        scanGPU regexp.amdRegex_MatchString (Split output LF) in
      let memory :=
        if hasAMD && (memory =? 0) then getGPUMemoryAlternative else memory in
      (hasAMD, gpuModel, memory)
  end.

Fixpoint rocminfoAt (paths : list string) : option bool :=
  match paths with
  | [] => None
  | path :: rest => if Stat os path then Some (Run os path []) else rocminfoAt rest
  end.

Definition checkROCm : bool :=
  match rocminfoAt ["/opt/rocm/bin/rocminfo"; "/usr/bin/rocminfo"] with
  | Some ok => ok
  | None =>
      match Output os "lsmod" [] with
      | None => false
      | Some output => Contains output "amdgpu"
      end
  end.

Fixpoint memTotalOf (lines : list string) : Z :=
  match lines with
  | [] => 0
  | line :: rest =>
      if HasPrefix line "MemTotal:" then
        match Fields line with
        | _ :: f1 :: _ =>
            match strconv.Atoi f1 with
            | (kb, None) => Z.quot kb 1024
            | _ => memTotalOf rest
            end
        | _ => memTotalOf rest
        end
      else memTotalOf rest
  end.

Definition getSystemMemory : Z :=
  match ReadFile os "/proc/meminfo" with
  | None => 0
  | Some content => memTotalOf (bufio.ScanLines content)
  end.

Definition getKernelVersion : string :=
  match Output os "uname" ["-r"] with
  | None => "unknown"
  | Some output => TrimSpace output
  end.

Definition GetSystemInfo : SystemInfo * option string :=
  let hasDocker := checkDocker in
  let '(hasNVIDIA, nvidiaModel, nvidiaMemory) := checkNVIDIAGPU in
  let '(hasAMDGPU, amdModel, amdMemory) := checkAMDGPU in
  let '(gpuType, gpuModel, gpuMemory) :=
    if hasNVIDIA then ("nvidia", nvidiaModel, nvidiaMemory)
    else if hasAMDGPU then ("amd", amdModel, amdMemory)
    else ("unknown", "", 0) in
  ({| HasDocker := hasDocker;
      HasROCm := checkROCm;
      HasNVIDIA := hasNVIDIA;
      HasAMDGPU := hasAMDGPU;
      GPUMemory := gpuMemory;
      SystemMemory := getSystemMemory;
      GPUModel := gpuModel;
      GPUType := gpuType;
      KernelVersion := getKernelVersion |}, None).

(** The violations [validateRequirements] collects, in order. *)
Definition violations (info : SystemInfo) : list string :=
  (if negb (HasDocker info)
   then ["Docker is not installed or not accessible"] else [])
  ++ (if negb (HasNVIDIA info) && negb (HasAMDGPU info)
      then ["No supported GPU detected (NVIDIA or AMD)"] else [])
  ++ (if GPUMemory info <? 6144
      then ["GPU memory (" ++ strconv.Itoa (GPUMemory info)
            ++ "MB) is below recommended minimum (6GB)"] else [])
  ++ (if SystemMemory info <? 8192
      then ["System memory (" ++ strconv.Itoa (SystemMemory info)
            ++ "MB) is below recommended minimum (8GB)"] else []).

(** The lines [validateRequirements] logs with [logrus.Warn]. *)
Definition warnings (info : SystemInfo) : list string :=
  (if (GPUType info =? "amd")%string && negb (HasROCm info)
   then ["ROCm not detected - AMD GPU acceleration may not work properly";
         "Install ROCm for optimal performance: https://rocm.docs.amd.com/projects/install-on-linux/en/latest/"]
   else [])
  ++ (if (GPUType info =? "nvidia")%string
      then
        if Run os "docker"
             ["run"; "--rm"; "--gpus"; "all"; "nvidia/cuda:11.0-base"; "nvidia-smi"]
        then []
        else ["NVIDIA Container Toolkit not detected - GPU acceleration may not work properly";
              "Install NVIDIA Container Toolkit: https://docs.nvidia.com/datacenter/cloud-native/container-toolkit/install-guide.html"]
      else []).

(** The pair is the log of warnings and the returned error. *)
Definition validateRequirements (info : SystemInfo) : list string * option string :=
  let errors := violations info in
  (warnings info,
   match errors with
   | [] => None
   | _ => Some ("system requirements not met:" ++ LF ++ "  - "
                ++ Join errors (LF ++ "  - "))
   end).

End Checker.

End system.

(* ================================================================== *)
(** * Package monitor (the performance sampler)                       *)
(* ================================================================== *)

Module monitor.

Import strings.

(** A [float64] with its arithmetic idealised: the finite values are exact
    rationals (no rounding), the three special values are kept because
    [strconv.ParseFloat] can return them. *)
Inductive float64 : Type :=
  | Fin (q : Q)
  | PosInf
  | NegInf
  | NaN.

(** [x >= 0] *)
Definition geZero (x : float64) : bool :=
  match x with
  | Fin q => Qle_bool 0 q
  | PosInf => true
  | NegInf | NaN => false
  end.

(** The same value: rationals are compared as fractions. *)
Definition sameValue (x y : float64) : Prop :=
  match x, y with
  | Fin p, Fin q => (p == q)%Q
  | PosInf, PosInf | NegInf, NegInf | NaN, NaN => True
  | _, _ => False
  end.

Inductive error : Type :=
  | PathError (path : string)            (* os.Open failed *)
  | NumError (e : strconv.NumError).

Record PerformanceMetrics : Type := {
  CPUUsage : float64;
  MemoryUsedMB : Z;
  MemoryTotalMB : Z;
  MemoryUsagePercent : float64;
  GPUUsage : float64;
  GPUMemoryUsedMB : Z;
  GPUMemoryTotalMB : Z;
  Timestamp : Z
}.

(** The pseudo-files of the host and its clock. *)
Record Host : Type := {
  ReadFile : string -> option string;
  Now : Z
}.

Section Sampler.

(** [strconv.ParseFloat(s, 64)], [None] on error. *)
Variable ParseFloat : string -> option float64.

Variable host : Host.

(** The loop [for i := 1; i < len(fields); i++] over [fields[i:]], with
    the unsigned 64-bit sum [total] and [idle = fields[4]]. *)
Fixpoint sumFields (i : Z) (fields : list string) (total idle : Z)
  : strconv.NumError + Z * Z :=
  match fields with
  | [] => inr (total, idle)
  | f :: rest =>
      match strconv.ParseUint f with
      | (val, None) =>
          sumFields (i + 1) rest (wrapU64 (total + val)) (if i =? 4 then val else idle)
      | (_, Some e) => inl e
      end
  end.

Definition usageOf (total idle : Z) : float64 :=
  Fin (inject_Z (wrapU64 (total - idle)) / inject_Z total * 100)%Q.

(** The part of [getCPUUsage] after the first line is read. *)
Definition cpuUsageOfLine (line : string) : float64 * option error :=
  let fields := Fields line in
  if ((List.length fields <? 8)%nat || negb (hd "" fields =? "cpu")%string)%bool
  then (Fin 0, None)
  else
    match sumFields 1 (tl fields) 0 0 with
    | inl e => (Fin 0, Some (NumError e))
    | inr (total, idle) =>
        if total =? 0 then (Fin 0, None) else (usageOf total idle, None)
    end.

Definition getCPUUsage : float64 * option error :=
  match ReadFile host "/proc/stat" with
  | None => (Fin 0, Some (PathError "/proc/stat"))
  | Some content =>
      match bufio.ScanLines content with
      | [] => (Fin 0, None)
      | line :: _ => cpuUsageOfLine line
      end
  end.

Record meminfo : Type := {
  memTotal : Z; memFree : Z; memBuffers : Z; memCached : Z
}.

Definition memStep (m : meminfo) (line : string) : meminfo :=
  match Fields line with
  | f0 :: f1 :: _ =>
      let key := TrimSuffix f0 ":" in
      match strconv.Atoi f1 with
      | (value, None) =>
          let mb := Z.quot value 1024 in
          if (key =? "MemTotal")%string then
            {| memTotal := mb; memFree := memFree m;
               memBuffers := memBuffers m; memCached := memCached m |}
          else if (key =? "MemFree")%string then
            {| memTotal := memTotal m; memFree := mb;
               memBuffers := memBuffers m; memCached := memCached m |}
          else if (key =? "Buffers")%string then
            {| memTotal := memTotal m; memFree := memFree m;
               memBuffers := mb; memCached := memCached m |}
          else if (key =? "Cached")%string then
            {| memTotal := memTotal m; memFree := memFree m;
               memBuffers := memBuffers m; memCached := mb |}
          else m
      | _ => m
      end
  | _ => m
  end.

(** Returns [(memUsed, memTotal, err)]; the terms of the difference are
    below [2^53] in size, so it stays in range. *)
Definition getMemoryUsage : Z * Z * option error :=
  match ReadFile host "/proc/meminfo" with
  | None => (0, 0, Some (PathError "/proc/meminfo"))
  | Some content =>
      let m := fold_left memStep (bufio.ScanLines content)
                 {| memTotal := 0; memFree := 0; memBuffers := 0; memCached := 0 |} in
      (memTotal m - memFree m - memBuffers m - memCached m, memTotal m, None)
  end.

Definition getAMDGPUMemory (path : string) : Z :=
  match ReadFile host path with
  | None => 0
  | Some data =>
      match strconv.ParseInt (TrimSpace data) with
      | (value, None) => value
      | _ => 0
      end
  end.

Fixpoint firstUsage (usagePaths : list string) : float64 :=
  match usagePaths with
  | [] => Fin (-1)
  | path :: rest =>
      match ReadFile host path with
      | None => firstUsage rest
      | Some data =>
          match ParseFloat (TrimSpace data) with
          | Some usage => usage
          | None => firstUsage rest
          end
      end
  end.

Definition getAMDGPUUsagePercent : float64 :=
  firstUsage ["/sys/class/drm/card0/device/gpu_busy_percent";
              "/sys/class/drm/card0/device/busy_percent"].

Definition getAMDGPUUsage : float64 * Z * Z :=
  let gpuMemTotal := getAMDGPUMemory "/sys/class/drm/card0/device/mem_info_vram_total" in
  let gpuMemUsed := getAMDGPUMemory "/sys/class/drm/card0/device/mem_info_vram_used" in
  if gpuMemTotal >? 0 then
    let totalMB := Z.quot gpuMemTotal (1024 * 1024) in
    let usedMB := Z.quot gpuMemUsed (1024 * 1024) in
    (getAMDGPUUsagePercent, usedMB, totalMB)
  else (Fin (-1), 0, 0).

(** Each field is the initial value of the struct literal unless the
    matching branch of [GetPerformanceMetrics] assigns it; the warnings of
    the other branches are [sampler.GetPerformanceMetricsLog]. *)
Definition GetPerformanceMetrics : PerformanceMetrics :=
  let (cpuUsage, cpuErr) := getCPUUsage in
  let '(memUsed, memTotal, memErr) := getMemoryUsage in
  let '(gpuUsage, gpuMemUsed, gpuMemTotal) := getAMDGPUUsage in
  let memOK := negb (isSome memErr) in
  {| Timestamp := Now host;
     CPUUsage := if isSome cpuErr then Fin 0 else cpuUsage;
     MemoryUsedMB := if memOK then memUsed else 0;
     MemoryTotalMB := if memOK then memTotal else 0;
     MemoryUsagePercent :=
       if memOK && (memTotal >? 0)
       then Fin (inject_Z memUsed / inject_Z memTotal * 100)%Q
       else Fin 0;
     GPUUsage := if geZero gpuUsage then gpuUsage else Fin (-1);
     GPUMemoryUsedMB := if geZero gpuUsage then gpuMemUsed else 0;
     GPUMemoryTotalMB := if geZero gpuUsage then gpuMemTotal else 0 |}.

End Sampler.

End monitor.

(* ================================================================== *)
(** * Package ollama (internal/ollama/client.go)                      *)
(* ================================================================== *)

Module ollama.

(** A JSON value; a number keeps its literal, an object its members in the
    order of the document, repeated names included.  The request structs
    hold only strings, booleans and such values, so [json.Marshal] cannot
    fail on them and its error branch is left out. *)
#[warnings="-register-all"]
Inductive json : Type :=
  | JNull
  | JBool (b : bool)
  | JNumber (literal : string)
  | JString (s : string)
  | JArray (items : list json)
  | JObject (members : list (string * json)).

(** What [json.Decoder.Decode] finds next in a response body: a complete
    JSON value, or bytes that are not one (a syntax error, or a value cut
    short).  The end of the list is the end of the stream. *)
Inductive chunk : Type :=
  | Doc (j : json)
  | Malformed.

Inductive error : Type :=
  | Unreachable (reason : string)   (* http.Client.Do failed, or the request could not be built *)
  | EOF                             (* io.EOF *)
  | SyntaxError                     (* malformed JSON, io.ErrUnexpectedEOF *)
  | UnmarshalError (field : string) (* a value of the wrong type for a field *)
  | TimeError                       (* the error of time.Time's UnmarshalJSON *)
  | Wrapped (msg : string) (e : error)      (* fmt.Errorf(msg + ": %w", e) *)
  | StatusError (msg : string) (code : Z).  (* fmt.Errorf(msg + ": %d", code) *)

Record Request : Type := {
  Method : string;
  URL : string;
  Header : list (string * string);
  ReqBody : option json
}.

Record Response : Type := {
  StatusCode : Z;
  Body : list chunk
}.

(** [Do] is [http.Client.Do] with the server behind it. *)
Record Client : Type := {
  baseURL : string;
  Do : Request -> error + Response
}.

Record PullProgress : Type := {
  Status : string;
  Digest : string;
  Total : Z;
  Completed : Z
}.

Definition StatusOK : Z := 200.

(** ** The requests sent, as a state *)

Definition Wire (A : Type) : Type := list Request -> A * list Request.

Definition ret {A} (a : A) : Wire A := fun sent => (a, sent).

Definition bind {A B} (m : Wire A) (k : A -> Wire B) : Wire B :=
  fun sent => let (a, sent') := m sent in k a sent'.

Notation "x <- m ;; k" := (bind m (fun x => k))
  (at level 61, m at next level, right associativity).

(** ** Decoding into the structs, by their [json] tags *)

(** [key] names the field tagged [tag]: equal up to case. *)
Definition keyIs (tag key : string) : bool :=
  match foldPrefix tag key with
  | Some EmptyString => true
  | _ => false
  end.

(** [json.Unmarshal] goes through a value in the order of the document.
    A value of the wrong type for its field is recorded, the first one
    only ([savedError]), the field keeps what it has and the decoding goes
    on; the error of a [json.Unmarshaler], here of [time.Time], ends the
    decoding at once.  A [Store A] takes what the variable holds, the
    value and the error recorded so far to what the variable holds
    afterwards and the error recorded then, or to the error that ends the
    decoding. *)
Definition Store (A : Type) : Type :=
  A -> json -> option error -> error + (A * option error).

Definition saveError (e : error) (saved : option error) : option error :=
  match saved with
  | Some _ => saved
  | None => Some e
  end.

(** [null] changes nothing in a string, a number, a boolean or a struct. *)
Definition stringField (tag : string) : Store string :=
  fun old j saved =>
    match j with
    | JNull => inr (old, saved)
    | JString s => inr (s, saved)
    | _ => inr (old, saveError (UnmarshalError tag) saved)
    end.

Definition int64Field (tag : string) : Store Z :=
  fun old j saved =>
    match j with
    | JNull => inr (old, saved)
    | JNumber lit =>
        match strconv.ParseInt lit with
        | (n, None) => inr (n, saved)
        | _ => inr (old, saveError (UnmarshalError tag) saved)
        end
    | _ => inr (old, saveError (UnmarshalError tag) saved)
    end.

Definition boolField (tag : string) : Store bool :=
  fun old j saved =>
    match j with
    | JNull => inr (old, saved)
    | JBool b => inr (b, saved)
    | _ => inr (old, saveError (UnmarshalError tag) saved)
    end.

(** A member that names no field is skipped. *)
Definition skip {A} : Store A := fun old _ saved => inr (old, saved).

(** Storing into the field of a struct read by [get] and written by
    [put]. *)
Definition field {A B} (store : Store B) (get : A -> B) (put : B -> A -> A)
  : Store A :=
  fun old j saved =>
    match store (get old) j saved with
    | inl e => inl e
    | inr (b, saved') => inr (put b old, saved')
    end.

(** The members of an object in turn; [set key] stores the member named
    [key], so that of two members naming the same field the later one
    stays. *)
Fixpoint object {A} (set : string -> Store A) (members : list (string * json))
         (old : A) (saved : option error) : error + (A * option error) :=
  match members with
  | [] => inr (old, saved)
  | (key, v) :: rest =>
      match set key old v saved with
      | inl e => inl e
      | inr (a, saved') => object set rest a saved'
      end
  end.

(** Into a struct: an object fills the fields, [null] changes nothing, any
    other value is of the wrong type. *)
Definition intoStruct {A} (name : string) (set : string -> Store A) : Store A :=
  fun old j saved =>
    match j with
    | JObject members => object set members old saved
    | JNull => inr (old, saved)
    | _ => inr (old, saveError (UnmarshalError name) saved)
    end.

(** The items of an array in turn, each stored into the element that the
    backing array of the slice holds at its index, which is a zero element
    where nothing was stored before. *)
Fixpoint elements {A} (store : Store A) (zero : A) (items : list json)
         (backing : list A) (saved : option error)
  : error + (list A * option error) :=
  match items with
  | [] => inr ([], saved)
  | j :: rest =>
      match store (hd zero backing) j saved with
      | inl e => inl e
      | inr (a, saved') =>
          match elements store zero rest (tl backing) saved' with
          | inl e => inl e
          | inr (l, saved'') => inr (a :: l, saved'')
          end
      end
  end.

(** Into a slice, kept as its elements and the elements its backing array
    holds beyond them.  The slice ends where the array ends, and what an
    earlier, longer array of the same name stored beyond stays in the
    backing array; an empty array makes a new empty slice and [null] a nil
    one. *)
Definition intoSlice {A} (name : string) (store : Store A) (zero : A)
  : Store (list A * list A) :=
  fun old j saved =>
    match j with
    | JArray [] => inr (([], []), saved)
    | JArray items =>
        let backing := (fst old ++ snd old)%list in
        match elements store zero items backing saved with
        | inl e => inl e
        | inr (l, saved') => inr ((l, skipn (List.length items) backing), saved')
        end
    | JNull => inr (([], []), saved)
    | _ => inr (old, saveError (UnmarshalError name) saved)
    end.

(** [json.Unmarshal] into a variable holding [zero]: the error that ended
    the decoding, else the recorded error, else the value. *)
Definition unmarshal {A} (store : Store A) (zero : A) (j : json) : error + A :=
  match store zero j None with
  | inl e => inl e
  | inr (a, Some e) => inl e
  | inr (a, None) => inr a
  end.

Definition zeroPullProgress : PullProgress :=
  {| Status := ""; Digest := ""; Total := 0; Completed := 0 |}.

(** The field a member name selects is the one whose tag it equals up to
    case; the tags of a struct differ from each other also up to case. *)
Definition setPullProgress (key : string) : Store PullProgress :=
  if keyIs "status" key then
    field (stringField "status") Status
          (fun v p => {| Status := v; Digest := Digest p;
                         Total := Total p; Completed := Completed p |})
  else if keyIs "digest" key then
    field (stringField "digest") Digest
          (fun v p => {| Status := Status p; Digest := v;
                         Total := Total p; Completed := Completed p |})
  else if keyIs "total" key then
    field (int64Field "total") Total
          (fun v p => {| Status := Status p; Digest := Digest p;
                         Total := v; Completed := Completed p |})
  else if keyIs "completed" key then
    field (int64Field "completed") Completed
          (fun v p => {| Status := Status p; Digest := Digest p;
                         Total := Total p; Completed := v |})
  else skip.

Definition decodePullProgress : json -> error + PullProgress :=
  unmarshal (intoStruct "PullProgress" setPullProgress) zeroPullProgress.

Section WithTime.

(** [time.Time], its zero value and [time.Parse(time.RFC3339, s)];
    [validURL] tells whether [http.NewRequestWithContext] accepts the
    URL. *)
Variable Time : Type.
Variable zeroTime : Time.
Variable parseRFC3339 : string -> option Time.
Variable validURL : string -> bool.

Record Model : Type := {
  Name : string;
  Size : Z;
  Modified : Time
}.

Record GenerateResponse : Type := {
  GenModel : string;
  GenResponse : string;
  Done : bool;
  CreatedAt : Time
}.

(** [time.Time] decodes itself: [null] changes nothing, a string is
    parsed (the text between its quotes, which is the string when nothing
    in it is escaped), and every failure ends the decoding. *)
Definition timeField : Store Time :=
  fun old j saved =>
    match j with
    | JNull => inr (old, saved)
    | JString s =>
        match parseRFC3339 s with
        | Some t => inr (t, saved)
        | None => inl TimeError
        end
    | _ => inl TimeError
    end.

Definition zeroModel : Model := {| Name := ""; Size := 0; Modified := zeroTime |}.

Definition setModel (key : string) : Store Model :=
  if keyIs "name" key then
    field (stringField "name") Name
          (fun v m => {| Name := v; Size := Size m; Modified := Modified m |})
  else if keyIs "size" key then
    field (int64Field "size") Size
          (fun v m => {| Name := Name m; Size := v; Modified := Modified m |})
  else if keyIs "modified_at" key then
    field timeField Modified
          (fun v m => {| Name := Name m; Size := Size m; Modified := v |})
  else skip.

(** [ListModelsResponse] has the one field [Models], a slice. *)
Definition setListModelsResponse (key : string) : Store (list Model * list Model) :=
  if keyIs "models" key
  then intoSlice "models" (intoStruct "Model" setModel) zeroModel
  else skip.

Definition decodeListModelsResponse (j : json) : error + list Model :=
  match unmarshal (intoStruct "ListModelsResponse" setListModelsResponse) ([], []) j with
  | inl e => inl e
  | inr listResp => inr (fst listResp)
  end.

Definition zeroGenerateResponse : GenerateResponse :=
  {| GenModel := ""; GenResponse := ""; Done := false; CreatedAt := zeroTime |}.

Definition setGenerateResponse (key : string) : Store GenerateResponse :=
  if keyIs "model" key then
    field (stringField "model") GenModel
          (fun v r => {| GenModel := v; GenResponse := GenResponse r;
                         Done := Done r; CreatedAt := CreatedAt r |})
  else if keyIs "response" key then
    field (stringField "response") GenResponse
          (fun v r => {| GenModel := GenModel r; GenResponse := v;
                         Done := Done r; CreatedAt := CreatedAt r |})
  else if keyIs "done" key then
    field (boolField "done") Done
          (fun v r => {| GenModel := GenModel r; GenResponse := GenResponse r;
                         Done := v; CreatedAt := CreatedAt r |})
  else if keyIs "created_at" key then
    field timeField CreatedAt
          (fun v r => {| GenModel := GenModel r; GenResponse := GenResponse r;
                         Done := Done r; CreatedAt := v |})
  else skip.

Definition decodeGenerateResponse : json -> error + GenerateResponse :=
  unmarshal (intoStruct "GenerateResponse" setGenerateResponse) zeroGenerateResponse.

(** One call of [json.NewDecoder(body).Decode(&v)]: the result and the
    rest of the stream. *)
Definition Decode {A} (into : json -> error + A) (body : list chunk)
  : (error + A) * list chunk :=
  match body with
  | [] => (inl EOF, [])
  | Malformed :: _ => (inl SyntaxError, body)
  | Doc j :: rest => (into j, rest)
  end.

(** ** The three request helpers *)

Variable c : Client.

Definition send (method path : string) (header : list (string * string))
           (body : option json) : Wire (error + Response) :=
  fun sent =>
    if validURL (baseURL c ++ path) then
      let req := {| Method := method; URL := baseURL c ++ path;
                    Header := header; ReqBody := body |} in
      (Do c req, (sent ++ [req])%list)
    else (inl (Unreachable "invalid URL"), sent).

Definition get (path : string) : Wire (error + Response) :=
  send "GET" path [] None.

Definition post (path : string) (body : json) : Wire (error + Response) :=
  send "POST" path [("Content-Type", "application/json")] (Some body).

Definition delete (path : string) (body : json) : Wire (error + Response) :=
  send "DELETE" path [("Content-Type", "application/json")] (Some body).

(** ** The operations *)

Definition ListModels : Wire (error + list Model) :=
  r <- get "/api/tags" ;;
  match r with
  | inl err => ret (inl err)
  | inr resp =>
      match fst (Decode decodeListModelsResponse (Body resp)) with
      | inl err => ret (inl (Wrapped "failed to decode response" err))
      | inr models => ret (inr models)
      end
  end.

Section Pull.

(** The progress callback acts on a state [S] of its caller; [None]
    is a [nil] callback. *)
Variable S : Type.
Variable progressCallback : option (PullProgress -> S -> S).

(** The [for] loop of [PullModel] over the decoder: the returned
    error, the caller's state, and what is left of the stream. *)
Fixpoint readLoop (decoder : list chunk) (s : S) : option error * S * list chunk :=
  match decoder with
  | [] => (None, s, [])
  | Malformed :: _ =>
      (Some (Wrapped "failed to decode progress" SyntaxError), s, decoder)
  | Doc j :: rest =>
      match decodePullProgress j with
      | inl err => (Some (Wrapped "failed to decode progress" err), s, rest)
      | inr progress =>
          let s' := match progressCallback with
                    | Some callback => callback progress s
                    | None => s
                    end in
          if (Status progress =? "success")%string then (None, s', rest)
          else readLoop rest s'
      end
  end.

Definition PullModel (name : string) (s : S) : Wire (option error * S) :=
  let body := JObject [("name", JString name); ("stream", JBool true)] in
  r <- post "/api/pull" body ;;
  match r with
  | inl err => ret (Some err, s)
  | inr resp => ret (fst (readLoop (Body resp) s))
  end.

End Pull.

Definition DeleteModel (name : string) : Wire (option error) :=
  let body := JObject [("name", JString name)] in
  r <- delete "/api/delete" body ;;
  match r with
  | inl err => ret (Some err)
  | inr resp =>
      if negb (StatusCode resp =? StatusOK)
      then ret (Some (StatusError "delete request failed with status" (StatusCode resp)))
      else ret None
  end.

(** [options] are the entries of the map; an empty map is omitted. *)
Definition Generate (model prompt : string) (options : list (string * json))
  : Wire (error + GenerateResponse) :=
  let body := JObject ([("model", JString model); ("prompt", JString prompt);
                        ("stream", JBool false)]
                       ++ match options with
                          | [] => []
                          | _ => [("options", JObject options)]
                          end)%list in
  r <- post "/api/generate" body ;;
  match r with
  | inl err => ret (inl err)
  | inr resp =>
      match fst (Decode decodeGenerateResponse (Body resp)) with
      | inl err => ret (inl (Wrapped "failed to decode response" err))
      | inr genResp => ret (inr genResp)
      end
  end.

Definition Health : Wire (option error) :=
  r <- get "/api/version" ;;
  match r with
  | inl err => ret (Some err)
  | inr resp =>
      if negb (StatusCode resp =? StatusOK)
      then ret (Some (StatusError "health check failed with status" (StatusCode resp)))
      else ret None
  end.

End WithTime.

End ollama.

(* ================================================================== *)
(** * Logging                                                         *)
(* ================================================================== *)

(** A call of [logrus]: the level, the message or format string, and the
    operands of the format; the operands are kept as values. *)
Module logrus.

Inductive Level : Type := InfoLevel | WarnLevel | ErrorLevel.

Inductive arg : Type :=
| Str (s : string)
| Int (z : Z)
| Bool (b : bool)
| Float (x : monitor.float64)
| Err (e : ollama.error)
| ExecErr (name : string) (arguments : list string)  (* the error of running the command *)
| SampleErr (e : monitor.error).

Record Entry : Type := {
  level : Level;
  message : string;
  args : list arg
}.

Definition Info (msg : string) : Entry :=
  {| level := InfoLevel; message := msg; args := [] |}.
Definition Infof (format : string) (operands : list arg) : Entry :=
  {| level := InfoLevel; message := format; args := operands |}.
Definition Warn (msg : string) : Entry :=
  {| level := WarnLevel; message := msg; args := [] |}.
Definition Warnf (format : string) (operands : list arg) : Entry :=
  {| level := WarnLevel; message := format; args := operands |}.
Definition Errorf (format : string) (operands : list arg) : Entry :=
  {| level := ErrorLevel; message := format; args := operands |}.

End logrus.

(* ================================================================== *)
(** * Package system, continued: the log, CheckAll, printSystemInfo   *)
(* ================================================================== *)

Module checker.

Import system.

Definition printSystemInfo (info : SystemInfo) : list logrus.Entry :=
  ([logrus.Info "=== System Information ===";
    logrus.Infof "Kernel Version: %s" [logrus.Str (KernelVersion info)];
    logrus.Infof "Docker: %v" [logrus.Bool (HasDocker info)];
    logrus.Infof "GPU Type: %s" [logrus.Str (GPUType info)]]
   ++ (if HasNVIDIA info
       then [logrus.Infof "NVIDIA GPU: %v" [logrus.Bool (HasNVIDIA info)];
             logrus.Infof "GPU Model: %s" [logrus.Str (GPUModel info)];
             logrus.Infof "GPU Memory: %d MB" [logrus.Int (GPUMemory info)]]
       else [])
   ++ (if HasAMDGPU info
       then [logrus.Infof "AMD GPU: %v" [logrus.Bool (HasAMDGPU info)];
             logrus.Infof "GPU Model: %s" [logrus.Str (GPUModel info)];
             logrus.Infof "GPU Memory: %d MB" [logrus.Int (GPUMemory info)];
             logrus.Infof "ROCm: %v" [logrus.Bool (HasROCm info)]]
       else [])
   ++ [logrus.Infof "System Memory: %d MB" [logrus.Int (SystemMemory info)];
       logrus.Info "========================="])%list.

(** What [checkNVIDIAGPU] logs, and likewise [checkAMDGPU], the values
    they return being [system.checkNVIDIAGPU] and [system.checkAMDGPU]:
    the warning of the branch taken when [lspci -v] cannot be run. *)
Definition lspciLog (os : OS) : list logrus.Entry :=
  match Output os "lspci" ["-v"] with
  | None => [logrus.Warnf "Failed to run lspci: %v" [logrus.ExecErr "lspci" ["-v"]]]
  | Some _ => []
  end.

(** What [GetSystemInfo] logs: the log of [checkNVIDIAGPU], then that of
    [checkAMDGPU]; its other checks log nothing. *)
Definition GetSystemInfoLog (os : OS) : list logrus.Entry :=
  (lspciLog os ++ lspciLog os)%list.

(** The log and the returned error. *)
Definition CheckAll (os : OS) : list logrus.Entry * option string :=
  let probed := GetSystemInfoLog os in
  match GetSystemInfo os with
  | (_, Some err) => (probed, Some ("failed to get system info: " ++ err))
  | (info, None) =>
      match validateRequirements os info with
      | (warned, Some err) => ((probed ++ map logrus.Warn warned)%list, Some err)
      | (warned, None) =>
          ((probed ++ map logrus.Warn warned ++ printSystemInfo info)%list, None)
      end
  end.

End checker.

(* ================================================================== *)
(** * Package monitor, continued: the log of a sample                 *)
(* ================================================================== *)

Module sampler.

(** What [GetPerformanceMetrics] logs, the sample it returns being
    [monitor.GetPerformanceMetrics]: a warning for the CPU reading and one
    for the memory reading when they return an error. *)
Definition GetPerformanceMetricsLog (host : monitor.Host) : list logrus.Entry :=
  (match snd (monitor.getCPUUsage host) with
   | Some err => [logrus.Warnf "Failed to get CPU usage: %v" [logrus.SampleErr err]]
   | None => []
   end
   ++ match snd (monitor.getMemoryUsage host) with
      | Some err => [logrus.Warnf "Failed to get memory usage: %v" [logrus.SampleErr err]]
      | None => []
      end)%list.

End sampler.

(* ================================================================== *)
(** * Package web (the chat server's handlers)                        *)
(* ================================================================== *)

Module web.

Record ChatMessage : Type := {
  Role : string;
  Content : string
}.

Record ChatRequest : Type := {
  Model : string;
  Messages : list ChatMessage
}.

Record ChatResponse : Type := {
  Message : ChatMessage;
  Done : bool
}.

Definition StatusBadRequest : Z := 400.
Definition StatusInternalServerError : Z := 500.
Definition StatusServiceUnavailable : Z := 503.

Definition zeroChatMessage : ChatMessage := {| Role := ""; Content := "" |}.

Definition setChatMessage (key : string) : ollama.Store ChatMessage :=
  if ollama.keyIs "role" key then
    ollama.field (ollama.stringField "role") Role
                 (fun v m => {| Role := v; Content := Content m |})
  else if ollama.keyIs "content" key then
    ollama.field (ollama.stringField "content") Content
                 (fun v m => {| Role := Role m; Content := v |})
  else ollama.skip.

(** The request goes with what the backing array of [Messages] holds
    beyond the slice. *)
Definition setChatRequest (key : string)
  : ollama.Store (ChatRequest * list ChatMessage) :=
  if ollama.keyIs "model" key then
    ollama.field (ollama.stringField "model")
                 (fun r => Model (fst r))
                 (fun v r => ({| Model := v; Messages := Messages (fst r) |}, snd r))
  else if ollama.keyIs "messages" key then
    ollama.field
      (ollama.intoSlice "messages"
         (ollama.intoStruct "ChatMessage" setChatMessage) zeroChatMessage)
      (fun r => (Messages (fst r), snd r))
      (fun v r => ({| Model := Model (fst r); Messages := fst v |}, snd v))
  else ollama.skip.

(** The request struct has no [binding] tags, so [c.ShouldBindJSON] is the
    decoding alone. *)
Definition decodeChatRequest (j : ollama.json) : ollama.error + ChatRequest :=
  match ollama.unmarshal (ollama.intoStruct "ChatRequest" setChatRequest)
                         ({| Model := ""; Messages := [] |}, []) j with
  | inl e => inl e
  | inr req => inr (fst req)
  end.

(** One turn of the loop that builds the prompt. *)
Definition promptStep (prompt : string) (msg : ChatMessage) : string :=
  if (Role msg =? "user")%string then prompt ++ "User: " ++ Content msg ++ LF
  else if (Role msg =? "assistant")%string then prompt ++ "Assistant: " ++ Content msg ++ LF
  else prompt.

Definition buildPrompt (messages : list ChatMessage) : string :=
  fold_left promptStep messages "".

Section Handlers.

Variable Time : Type.
Variable zeroTime : Time.
Variable parseRFC3339 : string -> option Time.
Variable validURL : string -> bool.

(** The object a handler gives to [c.JSON]. *)
Inductive reply : Type :=
| ErrorMessage (msg : string)            (* gin.H{"error": msg} *)
| ErrorOf (e : ollama.error)             (* gin.H{"error": err.Error()} *)
| Models (models : list (ollama.Model Time))   (* gin.H{"models": models} *)
| Chat (r : ChatResponse)
| Unhealthy (e : ollama.error)           (* gin.H{"status": "unhealthy", "error": err.Error()} *)
| Healthy.                               (* gin.H{"status": "healthy"} *)

(** The server holds the client of the inference server. *)
Variable s : ollama.Client.

(** A handler returns what it logs, the status code and the reply. *)
Definition handleListModels : ollama.Wire (list logrus.Entry * (Z * reply)) :=
  ollama.bind (ollama.ListModels zeroTime parseRFC3339 validURL s) (fun r =>
  match r with
  | inl err =>
      ollama.ret ([logrus.Errorf "Failed to list models: %v" [logrus.Err err]],
                  (StatusInternalServerError, ErrorMessage "Failed to list models"))
  | inr models => ollama.ret ([], (ollama.StatusOK, Models models))
  end).

(** [body] is the body of the request, read by [c.ShouldBindJSON]. *)
Definition handleChatAPI (body : list ollama.chunk)
  : ollama.Wire (list logrus.Entry * (Z * reply)) :=
  match fst (ollama.Decode decodeChatRequest body) with
  | inl err => ollama.ret ([], (StatusBadRequest, ErrorOf err))
  | inr req =>
      if (List.length (Messages req) =? 0)%nat
      then ollama.ret ([], (StatusBadRequest, ErrorMessage "No messages provided"))
      else
        let prompt := buildPrompt (Messages req) in
        ollama.bind
          (ollama.Generate zeroTime parseRFC3339 validURL s (Model req) prompt [])
          (fun r =>
             match r with
             | inl err =>
                 ollama.ret
                   ([logrus.Errorf "Failed to generate response: %v" [logrus.Err err]],
                    (StatusInternalServerError,
                     ErrorMessage "Failed to generate response"))
             | inr resp =>
                 ollama.ret
                   ([], (ollama.StatusOK,
                         Chat {| Message := {| Role := "assistant";
                                               Content := ollama.GenResponse resp |};
                                 Done := ollama.Done resp |}))
             end)
  end.

Definition handleHealth : ollama.Wire (list logrus.Entry * (Z * reply)) :=
  ollama.bind (ollama.Health validURL s) (fun err =>
  match err with
  | Some e => ollama.ret ([], (StatusServiceUnavailable, Unhealthy e))
  | None => ollama.ret ([], (ollama.StatusOK, Healthy))
  end).

End Handlers.

End web.

(* ================================================================== *)
(** * Package cmd: the model and status commands                      *)
(* ================================================================== *)

Module cmd.

(** The bytes of U+2713 and U+2717. *)
Definition checkMark : string := String (byte 226) (String (byte 156) (String (byte 147) "")).
Definition crossMark : string := String (byte 226) (String (byte 156) (String (byte 151) "")).

Definition formatStatus (status : bool) : string :=
  if status then checkMark ++ " Running" else crossMark ++ " Not Running".

(** [float64(size)/(1024*1024*1024)] *)
Definition gigabytes (size : Z) : monitor.float64 :=
  monitor.Fin (inject_Z size / inject_Z (1024 * 1024 * 1024))%Q.

(** [float64(progress.Completed) / float64(progress.Total) * 100] *)
Definition percentOf (p : ollama.PullProgress) : monitor.float64 :=
  monitor.Fin (inject_Z (ollama.Completed p) / inject_Z (ollama.Total p) * 100)%Q.

(** The three progress callbacks, acting on the log. *)
Definition downloadProgress (p : ollama.PullProgress) (log : list logrus.Entry)
  : list logrus.Entry :=
  if ollama.Total p >? 0
  then (log ++ [logrus.Infof "Progress: %.1f%% (%s)"
                  [logrus.Float (percentOf p); logrus.Str (ollama.Status p)]])%list
  else (log ++ [logrus.Info (ollama.Status p)])%list.

Definition recommendedProgress (p : ollama.PullProgress) (log : list logrus.Entry)
  : list logrus.Entry :=
  if ollama.Total p >? 0
  then (log ++ [logrus.Infof "  Progress: %.1f%% (%s)"
                  [logrus.Float (percentOf p); logrus.Str (ollama.Status p)]])%list
  else log.

Definition recommendedModels : list string :=
  ["llama3.1:8b-instruct-q4_K_M"; "mistral:7b-instruct-q4_K_M"; "gemma2:2b-instruct-q4_K_M"].

Section Commands.

Variable Time : Type.
Variable zeroTime : Time.
Variable parseRFC3339 : string -> option Time.
Variable validURL : string -> bool.

(** The network: what [http.Client.Do] answers to a request. *)
Variable transport : ollama.Request -> ollama.error + ollama.Response.

Definition NewClient (baseURL : string) : ollama.Client :=
  {| ollama.baseURL := baseURL; ollama.Do := transport |}.

(** Each command returns what it logs and its error. *)
Definition runListModels : ollama.Wire (list logrus.Entry * option ollama.error) :=
  let client := NewClient "http://localhost:11434" in
  ollama.bind (ollama.ListModels zeroTime parseRFC3339 validURL client) (fun r =>
  match r with
  | inl err => ollama.ret ([], Some (ollama.Wrapped "failed to list models" err))
  | inr [] =>
      ollama.ret
        ([logrus.Info "No models installed";
          logrus.Info "Use 'lite-llm models recommended' to download recommended models"],
         None)
  | inr models =>
      ollama.ret
        ((logrus.Info "Installed models:"
          :: map (fun model =>
                    logrus.Infof "  - %s (%.1f GB)"
                      [logrus.Str (ollama.Name model);
                       logrus.Float (gigabytes (ollama.Size model))])
                 models),
         None)
  end).

Definition runDownloadModel (modelName : string)
  : ollama.Wire (list logrus.Entry * option ollama.error) :=
  let client := NewClient "http://localhost:11434" in
  let log := [logrus.Infof "Downloading model: %s" [logrus.Str modelName]] in
  ollama.bind (ollama.PullModel validURL client (Some downloadProgress) modelName log)
    (fun r =>
       match r with
       | (Some err, log) =>
           ollama.ret (log, Some (ollama.Wrapped "failed to download model" err))
       | (None, log) =>
           ollama.ret
             ((log ++ [logrus.Infof "Successfully downloaded model: %s"
                         [logrus.Str modelName]])%list,
              None)
       end).

Definition runRemoveModel (modelName : string)
  : ollama.Wire (list logrus.Entry * option ollama.error) :=
  let client := NewClient "http://localhost:11434" in
  let log := [logrus.Infof "Removing model: %s" [logrus.Str modelName]] in
  ollama.bind (ollama.DeleteModel validURL client modelName) (fun r =>
  match r with
  | Some err => ollama.ret (log, Some (ollama.Wrapped "failed to remove model" err))
  | None =>
      ollama.ret
        ((log ++ [logrus.Infof "Successfully removed model: %s" [logrus.Str modelName]])%list,
         None)
  end).

(** The loop of [runDownloadRecommended] over the models left. *)
Fixpoint downloadEach (client : ollama.Client) (models : list string)
         (log : list logrus.Entry) : ollama.Wire (list logrus.Entry) :=
  match models with
  | [] => ollama.ret log
  | model :: rest =>
      let log := (log ++ [logrus.Infof "Downloading %s..." [logrus.Str model]])%list in
      ollama.bind (ollama.PullModel validURL client (Some recommendedProgress) model log)
        (fun r =>
           match r with
           | (Some err, log) =>
               downloadEach client rest
                 (log ++ [logrus.Errorf "Failed to download %s: %v"
                            [logrus.Str model; logrus.Err err]])%list
           | (None, log) =>
               downloadEach client rest
                 (log ++ [logrus.Infof (checkMark ++ " Successfully downloaded %s")
                            [logrus.Str model]])%list
           end)
  end.

Definition runDownloadRecommended : ollama.Wire (list logrus.Entry * option ollama.error) :=
  let client := NewClient "http://localhost:11434" in
  let log := [logrus.Info "Downloading recommended models for AMD RX 570/580..."] in
  ollama.bind (downloadEach client recommendedModels log) (fun log =>
  ollama.ret
    ((log ++ [logrus.Info "Recommended models download complete!";
              logrus.Info "You can now use these models via the web interface at http://localhost:3000"])%list,
     None)).

(** [checkWebInterface] asks with a client of its own, over the same
    network. *)
Definition checkWebInterface (url : string) : ollama.Wire bool :=
  fun sent =>
    if validURL url then
      let req := {| ollama.Method := "GET"; ollama.URL := url;
                    ollama.Header := []; ollama.ReqBody := None |} in
      (match transport req with
       | inl _ => false
       | inr resp => ollama.StatusCode resp =? 200
       end, (sent ++ [req])%list)
    else (false, sent).

(** The host of the status report; [now] is the formatted time. *)
Variable os : system.OS.
Variable host : monitor.Host.
Variable ParseFloat : string -> option monitor.float64.
Variable now : string.

(** [GetSystemInfo] logs before the report of the profile. *)
Definition statusSystem : list logrus.Entry :=
  (checker.GetSystemInfoLog os
   ++ match system.GetSystemInfo os with
      | (_, Some err) => [logrus.Errorf "Failed to get system info: %v" [logrus.Str err]]
      | (sysInfo, None) =>
          [logrus.Infof "Kernel: %s" [logrus.Str (system.KernelVersion sysInfo)];
           logrus.Infof "Docker: %v" [logrus.Str (formatStatus (system.HasDocker sysInfo))];
           logrus.Infof "AMD GPU: %v" [logrus.Str (formatStatus (system.HasAMDGPU sysInfo))]]
          ++ (if system.HasAMDGPU sysInfo
              then [logrus.Infof "  Model: %s" [logrus.Str (system.GPUModel sysInfo)];
                    logrus.Infof "  Memory: %d MB" [logrus.Int (system.GPUMemory sysInfo)]]
              else [])
          ++ [logrus.Infof "ROCm: %v" [logrus.Str (formatStatus (system.HasROCm sysInfo))];
              logrus.Infof "System Memory: %d MB"
                [logrus.Int (system.SystemMemory sysInfo)]]
      end)%list.

Definition statusOllama : ollama.Wire (list logrus.Entry) :=
  let ollamaClient := NewClient "http://localhost:11434" in
  ollama.bind (ollama.Health validURL ollamaClient) (fun err =>
  match err with
  | Some e =>
      ollama.ret [logrus.Errorf "Ollama API: %v" [logrus.Str (formatStatus false)];
                  logrus.Errorf "  Error: %v" [logrus.Err e]]
  | None =>
      ollama.bind (ollama.ListModels zeroTime parseRFC3339 validURL ollamaClient) (fun r =>
      ollama.ret
        ([logrus.Infof "Ollama API: %v" [logrus.Str (formatStatus true)];
          logrus.Info "  Endpoint: http://localhost:11434"]
         ++ match r with
            | inl e => [logrus.Errorf "  Models: Failed to list (%v)" [logrus.Err e]]
            | inr models =>
                logrus.Infof "  Models: %d installed"
                  [logrus.Int (Z.of_nat (List.length models))]
                :: map (fun model =>
                          logrus.Infof "    - %s (%.1f GB)"
                            [logrus.Str (ollama.Name model);
                             logrus.Float (gigabytes (ollama.Size model))])
                       models
            end)%list)
  end).

Definition statusWeb : ollama.Wire (list logrus.Entry) :=
  ollama.bind (checkWebInterface "http://localhost:3000") (fun webUIStatus =>
  ollama.bind (checkWebInterface "http://localhost:8080") (fun customWebStatus =>
  ollama.ret
    ([logrus.Infof "Open WebUI: %v" [logrus.Str (formatStatus webUIStatus)]]
     ++ (if webUIStatus then [logrus.Info "  URL: http://localhost:3000"] else [])
     ++ [logrus.Infof "Custom Web: %v" [logrus.Str (formatStatus customWebStatus)]]
     ++ (if customWebStatus then [logrus.Info "  URL: http://localhost:8080"] else [])
     ++ [logrus.Info ""])%list)).

Definition statusMetrics : list logrus.Entry :=
  let metrics := monitor.GetPerformanceMetrics ParseFloat host in
  (sampler.GetPerformanceMetricsLog host
   ++ [logrus.Infof "CPU Usage: %.1f%%" [logrus.Float (monitor.CPUUsage metrics)];
       logrus.Infof "Memory Usage: %.1f%% (%d MB / %d MB)"
         [logrus.Float (monitor.MemoryUsagePercent metrics);
          logrus.Int (monitor.MemoryUsedMB metrics);
          logrus.Int (monitor.MemoryTotalMB metrics)]]
   ++ (if monitor.geZero (monitor.GPUUsage metrics)
       then [logrus.Infof "GPU Usage: %.1f%%" [logrus.Float (monitor.GPUUsage metrics)]]
       else []))%list.

(** The sections of the report in the order of [printStatus]; the sampler
    returns a non-nil pointer, so the branch for missing metrics is never
    taken. *)
Definition printStatus : ollama.Wire (list logrus.Entry * option ollama.error) :=
  ollama.bind statusOllama (fun ollamaLog =>
  ollama.bind statusWeb (fun webLog =>
  ollama.ret
    (([logrus.Info "=== Lite LLM Status ===";
       logrus.Infof "Timestamp: %s" [logrus.Str now];
       logrus.Info "";
       logrus.Info "=== System Information ==="]
      ++ statusSystem
      ++ [logrus.Info "";
          logrus.Info "=== Container Services ===";
          logrus.Info "Note: Use Portainer to manage Docker containers";
          logrus.Info "Expected containers: ollama-amd, open-webui";
          logrus.Info "";
          logrus.Info "=== Ollama Service ==="]
      ++ ollamaLog
      ++ [logrus.Info "";
          logrus.Info "=== Web Interfaces ==="]
      ++ webLog
      ++ [logrus.Info "=== Performance Metrics ==="]
      ++ statusMetrics)%list,
     None))).

End Commands.

End cmd.

(* ================================================================== *)
(** * Vocabulary of the properties, and hosts to evaluate them on     *)
(* ================================================================== *)

(** ** Hardware prober *)

(** The profile of the validation example; the remaining fields are free. *)
Definition lowProfile (hasROCm : bool) (model kernel : string) : system.SystemInfo :=
  {| system.HasDocker := false;
     system.HasROCm := hasROCm;
     system.HasNVIDIA := false;
     system.HasAMDGPU := false;
     system.GPUMemory := 4096;
     system.SystemMemory := 4096;
     system.GPUModel := model;
     system.GPUType := "unknown";
     system.KernelVersion := kernel |}.

Definition withROCm (b : bool) (info : system.SystemInfo) : system.SystemInfo :=
  {| system.HasDocker := system.HasDocker info;
     system.HasROCm := b;
     system.HasNVIDIA := system.HasNVIDIA info;
     system.HasAMDGPU := system.HasAMDGPU info;
     system.GPUMemory := system.GPUMemory info;
     system.SystemMemory := system.SystemMemory info;
     system.GPUModel := system.GPUModel info;
     system.GPUType := system.GPUType info;
     system.KernelVersion := system.KernelVersion info |}.

(** A host on which every command fails and no file can be read. *)
Definition deadHost : system.OS :=
  {| system.Run := fun _ _ => false;
     system.Output := fun _ _ => None;
     system.ReadDir := fun _ => None;
     system.ReadFile := fun _ => None;
     system.Stat := fun _ => false |}.

(** [lspci -v] of a machine with a Radeon RX 580; no line gives a size
    followed by [MB] or [GB]. *)
Definition lspciRX580 : string :=
  "01:00.0 VGA compatible controller: Advanced Micro Devices, Inc. [AMD/ATI] Ellesmere [Radeon RX 580] (rev e7)"
  ++ LF ++ "	Subsystem: Sapphire Technology Limited Nitro+ Radeon RX 580"
  ++ LF ++ "	Memory at e0000000 (64-bit, prefetchable) [size=256M]"
  ++ LF ++ "	Kernel driver in use: amdgpu"
  ++ LF.

(** The RX 580 machine with [/sys/class/drm] unreadable. *)
Definition amdHostNoDRM : system.OS :=
  {| system.Run := fun _ _ => false;
     system.Output := fun name _ => if (name =? "lspci")%string then Some lspciRX580 else None;
     system.ReadDir := fun _ => None;
     system.ReadFile := fun _ => None;
     system.Stat := fun _ => false |}.

(** The same machine with a readable [/sys/class/drm] whose only card has
    no readable [mem_info_vram_total]. *)
Definition amdHostNoVRAMFile : system.OS :=
  {| system.Run := fun _ _ => false;
     system.Output := fun name _ => if (name =? "lspci")%string then Some lspciRX580 else None;
     system.ReadDir := fun _ => Some ["card0"; "card0-HDMI-A-1"; "renderD128"; "version"];
     system.ReadFile := fun _ => None;
     system.Stat := fun _ => false |}.

(** A directory entry the fallback looks into. *)
Definition isCard (name : string) : bool :=
  strings.HasPrefix name "card" && negb (strings.Contains name "-").

Definition vramPath (name : string) : string :=
  "/sys/class/drm/" ++ name ++ "/device/mem_info_vram_total".

(** The attribute file of card [name] gives no size: it cannot be read, or
    its content is not a 64-bit integer. *)
Definition noSize (os : system.OS) (name : string) : Prop :=
  match system.ReadFile os (vramPath name) with
  | None => True
  | Some data => snd (strconv.ParseInt (strings.TrimSpace data)) <> None
  end.

(** [nvidia-smi] cannot be run. *)
Definition smiFails (os : system.OS) : Prop :=
  system.Output os "nvidia-smi"
    ["--query-gpu=memory.total"; "--format=csv,noheader,nounits"] = None.

(** C9 as stated, for the sub-checks that look for the GPU memory when the
    PCI listing shows a card without a size: for an NVIDIA card a failing
    [nvidia-smi], for an AMD card attribute files that cannot be read,
    leave zero in the profile. *)
Definition smiFailureLeavesZero (os : system.OS) : Prop :=
  forall output model : string,
    system.Output os "lspci" ["-v"] = Some output ->
    system.scanGPU regexp.nvidiaRegex_MatchString (strings.Split output LF)
    = (true, model, 0) ->
    smiFails os ->
    system.GPUMemory (fst (system.GetSystemInfo os)) = 0.

Definition vramFailureLeavesZero (os : system.OS) : Prop :=
  forall output model : string,
    system.Output os "lspci" ["-v"] = Some output ->
    system.HasNVIDIA (fst (system.GetSystemInfo os)) = false ->
    system.scanGPU regexp.amdRegex_MatchString (strings.Split output LF)
    = (true, model, 0) ->
    (forall name, system.ReadFile os (vramPath name) = None) ->
    system.GPUMemory (fst (system.GetSystemInfo os)) = 0.

(** ** Metrics sampler *)

Definition vramTotalPath : string := "/sys/class/drm/card0/device/mem_info_vram_total".
Definition vramUsedPath : string := "/sys/class/drm/card0/device/mem_info_vram_used".
Definition busyPaths : list string :=
  ["/sys/class/drm/card0/device/gpu_busy_percent";
   "/sys/class/drm/card0/device/busy_percent"].

(** A file system given by the list of its readable files. *)
Fixpoint fileOf (files : list (string * string)) (path : string) : option string :=
  match files with
  | [] => None
  | (p, content) :: rest => if (p =? path)%string then Some content else fileOf rest path
  end.

Definition hostOf (files : list (string * string)) : monitor.Host :=
  {| monitor.ReadFile := fileOf files; monitor.Now := 0 |}.

(** [ParseFloat] on the whole percentages the driver prints. *)
Definition parsePercent (s : string) : option monitor.float64 :=
  match strconv.ParseInt s with
  | (v, None) => Some (monitor.Fin (inject_Z v))
  | _ => None
  end.

(** 8 GiB of VRAM of which 1 GiB is used, and no busy-percent file. *)
Definition gpuHostNoBusy : monitor.Host :=
  hostOf [(vramTotalPath, "8589934592" ++ LF); (vramUsedPath, "1073741824" ++ LF)].

(** A VRAM total that reads as zero, next to a busy-percent file. *)
Definition gpuHostZeroVRAM : monitor.Host :=
  hostOf [(vramTotalPath, "0" ++ LF); (vramUsedPath, "1073741824" ++ LF);
          ("/sys/class/drm/card0/device/gpu_busy_percent", "50" ++ LF)].

(** The VRAM total of the host is readable and reads as [total]. *)
Definition vramTotalReads (host : monitor.Host) (total : Z) : Prop :=
  exists data,
    monitor.ReadFile host vramTotalPath = Some data
    /\ strconv.ParseInt (strings.TrimSpace data) = (total, None).

Definition noBusyFile (host : monitor.Host) : Prop :=
  forall path, In path busyPaths -> monitor.ReadFile host path = None.

(** The sample keeps the memory figures read although utilization is
    unavailable. *)
Definition memorySurvivesMissingUsage
           (ParseFloat : string -> option monitor.float64) (host : monitor.Host) : Prop :=
  forall total,
    vramTotalReads host total -> 0 < total -> noBusyFile host ->
    let m := monitor.GetPerformanceMetrics ParseFloat host in
    monitor.GPUUsage m = monitor.Fin (-1)
    /\ monitor.GPUMemoryTotalMB m = Z.quot total (1024 * 1024)
    /\ monitor.GPUMemoryUsedMB m
       = Z.quot (monitor.getAMDGPUMemory host vramUsedPath) (1024 * 1024).

(** The bytes of U+00A0 (no-break space) and U+2003 (em space). *)
Definition NBSP : string := String (byte 194) (String (byte 160) "").
Definition EMSP : string := String (byte 226) (String (byte 128) (String (byte 131) "")).

(** ** Files read line by line *)

(** No newline in [line]. *)
Definition oneLine (line : string) : bool :=
  forallb (fun c => negb (Ascii.eqb c (byte 10))) (list_ascii_of_string line).

(** The file made of [lines], each ended by a newline. *)
Definition unlines (lines : list string) : string :=
  fold_right (fun line rest => line ++ LF ++ rest) "" lines.

(** A line that does not fit the buffer of a scanner. *)
Definition overlong (line : string) : bool :=
  oneLine line && bufio.tooLong line.

(** [n] times the letter x. *)
Fixpoint filler (n : nat) : string :=
  match n with
  | O => ""
  | S k => String "x" (filler k)
  end.

(** A [/proc/meminfo] whose first line has 65536 bytes. *)
Definition longMeminfo : string :=
  filler (Z.to_nat bufio.MaxScanTokenSize) ++ LF ++ "MemTotal:        4194304 kB" ++ LF.

(** A machine on which only the file [/proc/meminfo] can be read. *)
Definition meminfoOnly (content : string) : system.OS :=
  {| system.Run := fun _ _ => false;
     system.Output := fun _ _ => None;
     system.ReadDir := fun _ => None;
     system.ReadFile := fun path =>
       if (path =? "/proc/meminfo")%string then Some content else None;
     system.Stat := fun _ => false |}.

(** The first line a scanner reads from [/proc/stat]. *)
Definition firstStatLine (host : monitor.Host) : option string :=
  match monitor.ReadFile host "/proc/stat" with
  | Some content => hd_error (bufio.ScanLines content)
  | None => None
  end.

(** [line] is a well-formed stat line with the counters [cs]: the marker
    [cpu], then at least seven fields, each an unsigned 64-bit decimal. *)
Definition statCounters (line : string) (cs : list Z) : Prop :=
  exists fs,
    strings.Fields line = "cpu" :: fs
    /\ (7 <= List.length fs)%nat
    /\ map strconv.ParseUint fs = map (fun v => (v, @None strconv.NumError)) cs.

Definition sumZ (cs : list Z) : Z := fold_right Z.add 0 cs.

(** The value [idle] has after the loop of [getCPUUsage] over [cs], the
    index of the first counter being [i]. *)
Fixpoint idleOf (i : Z) (cs : list Z) (idle : Z) : Z :=
  match cs with
  | [] => idle
  | v :: rest => idleOf (i + 1) rest (if i =? 4 then v else idle)
  end.

(** Two stat lines whose counters are 2^62 and 2^63 in the columns user,
    nice and idle. *)
Definition statLineQuarter : string :=
  "cpu 4611686018427387904 4611686018427387904 0 4611686018427387904 0 0 0".
Definition statLineHalf : string :=
  "cpu 9223372036854775808 9223372036854775808 0 9223372036854775808 0 0 0".

(** ** Inference-server client *)

(** A server answering every request with the same status and body. *)
Definition serverAnswering (status : Z) (body : list ollama.chunk) : ollama.Client :=
  {| ollama.baseURL := "http://localhost:11434";
     ollama.Do := fun _ => inr {| ollama.StatusCode := status; ollama.Body := body |} |}.

(** Every URL is accepted; a time is kept as its text. *)
Definition anyURL (url : string) : bool := true.
Definition textTime (s : string) : option string := Some s.

(** The requests of the five operations. *)
Definition jsonHeader : list (string * string) := [("Content-Type", "application/json")].

Definition tagsRequest (c : ollama.Client) : ollama.Request :=
  {| ollama.Method := "GET"; ollama.URL := ollama.baseURL c ++ "/api/tags";
     ollama.Header := []; ollama.ReqBody := None |}.

Definition versionRequest (c : ollama.Client) : ollama.Request :=
  {| ollama.Method := "GET"; ollama.URL := ollama.baseURL c ++ "/api/version";
     ollama.Header := []; ollama.ReqBody := None |}.

Definition pullRequest (c : ollama.Client) (name : string) : ollama.Request :=
  {| ollama.Method := "POST"; ollama.URL := ollama.baseURL c ++ "/api/pull";
     ollama.Header := jsonHeader;
     ollama.ReqBody :=
       Some (ollama.JObject [("name", ollama.JString name); ("stream", ollama.JBool true)]) |}.

Definition deleteRequest (c : ollama.Client) (name : string) : ollama.Request :=
  {| ollama.Method := "DELETE"; ollama.URL := ollama.baseURL c ++ "/api/delete";
     ollama.Header := jsonHeader;
     ollama.ReqBody := Some (ollama.JObject [("name", ollama.JString name)]) |}.

Definition generateRequest (c : ollama.Client) (model prompt : string)
           (options : list (string * ollama.json)) : ollama.Request :=
  {| ollama.Method := "POST"; ollama.URL := ollama.baseURL c ++ "/api/generate";
     ollama.Header := jsonHeader;
     ollama.ReqBody :=
       Some (ollama.JObject
               ([("model", ollama.JString model); ("prompt", ollama.JString prompt);
                 ("stream", ollama.JBool false)]
                ++ match options with
                   | [] => []
                   | _ => [("options", ollama.JObject options)]
                   end)%list) |}.

(** The chunk decodes to the progress event [p]. *)
Definition decodesTo (ch : ollama.chunk) (p : ollama.PullProgress) : Prop :=
  match ch with
  | ollama.Doc j => ollama.decodePullProgress j = inr p
  | ollama.Malformed => False
  end.

(** Decoding the chunk fails with [e], which is not the end of the stream. *)
Definition failsWith (ch : ollama.chunk) (e : ollama.error) : Prop :=
  match ch with
  | ollama.Doc j => ollama.decodePullProgress j = inl e
  | ollama.Malformed => e = ollama.SyntaxError
  end.

Definition isSuccess (p : ollama.PullProgress) : bool :=
  (ollama.Status p =? "success")%string.

(** The state of the caller after the events were delivered in order. *)
Definition deliver {S : Type} (callback : option (ollama.PullProgress -> S -> S))
           (events : list ollama.PullProgress) (s : S) : S :=
  match callback with
  | Some f => fold_left (fun s p => f p s) events s
  | None => s
  end.

(** A sink that records what it is given. *)
Definition record (p : ollama.PullProgress) (log : list ollama.PullProgress)
  : list ollama.PullProgress := (log ++ [p])%list.

Definition progress (status : string) : ollama.PullProgress :=
  {| ollama.Status := status; ollama.Digest := ""; ollama.Total := 0; ollama.Completed := 0 |}.

Definition progressDoc (status : string) : ollama.chunk :=
  ollama.Doc (ollama.JObject [("status", ollama.JString status)]).

(** The delete request goes out with the method POST. *)
Definition deletesWithPOST (validURL : string -> bool) (c : ollama.Client)
           (name : string) : Prop :=
  map ollama.Method (snd (ollama.DeleteModel validURL c name [])) = ["POST"].

(** ** Further vocabulary: hardware prober *)

(** The four requirements of [validateRequirements]. *)
Definition meetsRequirements (info : system.SystemInfo) : Prop :=
  system.HasDocker info = true
  /\ (system.HasNVIDIA info = true \/ system.HasAMDGPU info = true)
  /\ 6144 <= system.GPUMemory info
  /\ 8192 <= system.SystemMemory info.

(** A line of [lspci -v] that names a graphics card of the vendor. *)
Definition isVGA (re : string -> bool) (line : string) : bool :=
  strings.Contains line "VGA compatible controller" && re line.

Definition isBlank (line : string) : bool := (strings.TrimSpace line =? "")%string.

(** The kilobytes a line of [/proc/meminfo] gives for [MemTotal], as
    [getSystemMemory] reads it. *)
Definition memTotalKB (line : string) : option Z :=
  if strings.HasPrefix line "MemTotal:" then
    match strings.Fields line with
    | _ :: f1 :: _ =>
        match strconv.Atoi f1 with
        | (kb, None) => Some kb
        | _ => None
        end
    | _ => None
    end
  else None.

(** [nvidia-smi] fails or prints something that is not an integer. *)
Definition smiGivesNothing (os : system.OS) : Prop :=
  match system.Output os "nvidia-smi"
          ["--query-gpu=memory.total"; "--format=csv,noheader,nounits"] with
  | None => True
  | Some output => snd (strconv.Atoi (strings.TrimSpace output)) <> None
  end.

(** [lspci -v] of a machine with a GeForce card. *)
Definition lspciRTX3070 : string :=
  "01:00.0 VGA compatible controller: NVIDIA Corporation GA104 [GeForce RTX 3070] (rev a1)"
  ++ LF ++ "	Subsystem: Gigabyte Technology Co., Ltd Device 404c"
  ++ LF ++ "	Memory at a0000000 (64-bit, prefetchable) [size=256M]"
  ++ LF.

Definition nvidiaHostNoSMI : system.OS :=
  {| system.Run := fun _ _ => false;
     system.Output := fun name _ => if (name =? "lspci")%string then Some lspciRTX3070 else None;
     system.ReadDir := fun _ => None;
     system.ReadFile := fun _ => None;
     system.Stat := fun _ => false |}.

(** A host that meets every requirement: docker, an RX 580 with a readable
    VRAM size of 8 GiB, 16 GB of memory. *)
Definition goodHost : system.OS :=
  {| system.Run := fun _ _ => true;
     system.Output := fun name _ =>
       if (name =? "lspci")%string then Some lspciRX580
       else if (name =? "uname")%string then Some ("6.8.0-45-generic" ++ LF)
       else None;
     system.ReadDir := fun _ => Some ["card0"; "card0-HDMI-A-1"; "renderD128"];
     system.ReadFile := fun path =>
       if (path =? "/proc/meminfo")%string
       then Some ("MemTotal:       16384000 kB" ++ LF ++ "MemFree:         1024000 kB" ++ LF)
       else if (path =? "/sys/class/drm/card0/device/mem_info_vram_total")%string
       then Some ("8589934592" ++ LF)
       else None;
     system.Stat := fun _ => true |}.

(** ** Further vocabulary: metrics sampler *)

(** A first line of [/proc/stat] from which [getCPUUsage] computes no
    ratio: too few fields, another marker, or a field after the marker that
    is not an unsigned 64-bit decimal. *)
Definition badStatLine (line : string) : Prop :=
  (List.length (strings.Fields line) < 8)%nat
  \/ hd "" (strings.Fields line) <> "cpu"
  \/ Exists (fun f => snd (strconv.ParseUint f) <> None) (tl (strings.Fields line)).

(** The megabytes a line of [/proc/meminfo] gives for [key], as
    [getMemoryUsage] reads it. *)
Definition memValue (key line : string) : option Z :=
  match strings.Fields line with
  | f0 :: f1 :: _ =>
      if (strings.TrimSuffix f0 ":" =? key)%string then
        match strconv.Atoi f1 with
        | (value, None) => Some (Z.quot value 1024)
        | _ => None
        end
      else None
  | _ => None
  end.

(** The value of the last line that gives [key], [init] without one. *)
Definition valueAfter (key : string) (lines : list string) (init : Z) : Z :=
  fold_left (fun acc line => match memValue key line with
                             | Some v => v
                             | None => acc
                             end) lines init.

Definition lastValue (key : string) (lines : list string) : Z := valueAfter key lines 0.

(** The busy-percent file at [path] gives the utilization [u]; it gives
    nothing when it cannot be read or does not parse. *)
Definition busyReads (ParseFloat : string -> option monitor.float64)
           (host : monitor.Host) (path : string) (u : monitor.float64) : Prop :=
  exists data,
    monitor.ReadFile host path = Some data
    /\ ParseFloat (strings.TrimSpace data) = Some u.

Definition busyMissing (ParseFloat : string -> option monitor.float64)
           (host : monitor.Host) (path : string) : Prop :=
  match monitor.ReadFile host path with
  | None => True
  | Some data => ParseFloat (strings.TrimSpace data) = None
  end.

Definition meminfoHost : monitor.Host :=
  hostOf [("/proc/meminfo",
           "MemTotal:       16384000 kB" ++ LF ++ "MemFree:         1024000 kB" ++ LF
           ++ "MemAvailable:   9000000 kB" ++ LF ++ "Buffers:            2048 kB" ++ LF
           ++ "Cached:          4096000 kB" ++ LF ++ "SwapCached:            0 kB" ++ LF);
          ("/proc/stat", "cpu  100 0 100 700 50 0 50 0 0 0" ++ LF ++ "cpu0 1 2 3 4 5 6 7" ++ LF)].

(** Both busy-percent files present; the first one does not parse. *)
Definition gpuHostSecondBusy : monitor.Host :=
  hostOf [(vramTotalPath, "8589934592" ++ LF); (vramUsedPath, "1073741824" ++ LF);
          ("/sys/class/drm/card0/device/gpu_busy_percent", "n/a" ++ LF);
          ("/sys/class/drm/card0/device/busy_percent", "37" ++ LF)].

(** ** Further vocabulary: inference-server client, handlers, commands *)

(** No URL is accepted. *)
Definition noURL (url : string) : bool := false.

(** A server that cannot be reached. *)
Definition serverDown : ollama.Client :=
  {| ollama.baseURL := "http://localhost:11434";
     ollama.Do := fun _ => inl (ollama.Unreachable "connection refused") |}.

(** The tags of the fields of [PullProgress]. *)
Definition progressTags : list string := ["status"; "digest"; "total"; "completed"].

(** The field of a progress event that a member name selects. *)
Definition progressField (key : string) : option string :=
  find (fun tag => ollama.keyIs tag key) progressTags.

(** The value can be stored in the field: [null] in every field, a string
    in [status] and [digest], a number that is an int64 in [total] and
    [completed]. *)
Definition fits (tag : string) (v : ollama.json) : bool :=
  match v with
  | ollama.JNull => true
  | ollama.JString _ => ((tag =? "status") || (tag =? "digest"))%string
  | ollama.JNumber lit =>
      ((tag =? "total") || (tag =? "completed"))%string
      && negb (isSome (snd (strconv.ParseInt lit)))
  | _ => false
  end.

(** The field that the member names and whose type its value is not of. *)
Definition misfit (m : string * ollama.json) : option string :=
  match progressField (fst m) with
  | Some tag => if fits tag (snd m) then None else Some tag
  | None => None
  end.

(** The first such field, in the order of the document. *)
Fixpoint firstMisfit (ms : list (string * ollama.json)) : option string :=
  match ms with
  | [] => None
  | m :: rest =>
      match misfit m with
      | Some tag => Some tag
      | None => firstMisfit rest
      end
  end.

(** The text of the last member that names the field [tag] and holds a
    string, and the number of the last one that holds an int64. *)
Fixpoint lastText (tag : string) (ms : list (string * ollama.json)) : option string :=
  match ms with
  | [] => None
  | (key, v) :: rest =>
      match lastText tag rest with
      | Some s => Some s
      | None =>
          match progressField key, v with
          | Some t, ollama.JString s => if (t =? tag)%string then Some s else None
          | _, _ => None
          end
      end
  end.

Fixpoint lastNumber (tag : string) (ms : list (string * ollama.json)) : option Z :=
  match ms with
  | [] => None
  | (key, v) :: rest =>
      match lastNumber tag rest with
      | Some n => Some n
      | None =>
          match progressField key, v with
          | Some t, ollama.JNumber lit =>
              match strconv.ParseInt lit with
              | (n, None) => if (t =? tag)%string then Some n else None
              | _ => None
              end
          | _, _ => None
          end
      end
  end.

(** The value found, or the one the field had. *)
Definition orKeep {A : Type} (found : option A) (had : A) : A :=
  match found with
  | Some a => a
  | None => had
  end.

(** The body of an error answer of the inference server. *)
Definition errorDoc (msg : string) : ollama.chunk :=
  ollama.Doc (ollama.JObject [("error", ollama.JString msg)]).

(** The roles [handleChatAPI] puts into the prompt. *)
Definition isDialogue (msg : web.ChatMessage) : bool :=
  ((web.Role msg =? "user") || (web.Role msg =? "assistant"))%string.

Definition message (role content : string) : web.ChatMessage :=
  {| web.Role := role; web.Content := content |}.

Definition messageJSON (role content : string) : ollama.json :=
  ollama.JObject [("role", ollama.JString role); ("content", ollama.JString content)].

Definition chatBody (model : string) (messages : list ollama.json) : list ollama.chunk :=
  [ollama.Doc (ollama.JObject [("model", ollama.JString model);
                               ("messages", ollama.JArray messages)])].

(** The request of [checkWebInterface]. *)
Definition webRequest (url : string) : ollama.Request :=
  {| ollama.Method := "GET"; ollama.URL := url; ollama.Header := []; ollama.ReqBody := None |}.

(** The client the commands build. *)
Definition localClient (transport : ollama.Request -> ollama.error + ollama.Response)
  : ollama.Client :=
  {| ollama.baseURL := "http://localhost:11434"; ollama.Do := transport |}.

(** A network on which every request is answered with the same status and
    body, and one on which none is answered. *)
Definition answering (status : Z) (body : list ollama.chunk)
  : ollama.Request -> ollama.error + ollama.Response :=
  fun _ => inr {| ollama.StatusCode := status; ollama.Body := body |}.

Definition unreachable : ollama.Request -> ollama.error + ollama.Response :=
  fun _ => inl (ollama.Unreachable "connection refused").

(* ================================================================== *)
(** * The library functions on typical inputs                         *)
(* ================================================================== *)

Example Split_model_line :
  strings.Split "01:00.0 VGA compatible controller: NVIDIA Corporation GA104 [GeForce RTX 3070]" ": "
  = ["01:00.0 VGA compatible controller"; "NVIDIA Corporation GA104 [GeForce RTX 3070]"].
Proof. vm_compute; reflexivity. Qed.

Example Split_trailing_newline :
  strings.Split ("a" ++ LF ++ "b" ++ LF) LF = ["a"; "b"; ""].
Proof. vm_compute; reflexivity. Qed.

Example Fields_stat_line :
  strings.Fields "cpu  100 0 100 700 50 0 50 0 0 0"
  = ["cpu"; "100"; "0"; "100"; "700"; "50"; "0"; "50"; "0"; "0"; "0"].
Proof. vm_compute; reflexivity. Qed.

Example TrimSpace_newline : strings.TrimSpace ("  8589934592 " ++ LF) = "8589934592".
Proof. vm_compute; reflexivity. Qed.

Example Fields_unicode_space :
  strings.Fields ("MemTotal:" ++ NBSP ++ "16384000" ++ EMSP ++ "kB")
  = ["MemTotal:"; "16384000"; "kB"].
Proof. vm_compute; reflexivity. Qed.

Example TrimSpace_unicode_space :
  strings.TrimSpace (NBSP ++ " 6.8.0" ++ NBSP ++ "rc1" ++ EMSP ++ LF)
  = "6.8.0" ++ NBSP ++ "rc1"
  /\ strings.TrimSpace (String (byte 160) "x" ++ String (byte 194) "")
     = String (byte 160) "x" ++ String (byte 194) "".
Proof. vm_compute; split; reflexivity. Qed.

Example ParseUint_largest :
  strconv.ParseUint "18446744073709551615" = (maxUint64, None)
  /\ strconv.ParseUint "18446744073709551616" = (maxUint64, Some strconv.ErrRange)
  /\ strconv.ParseUint "+1" = (0, Some strconv.ErrSyntax)
  /\ strconv.ParseUint "" = (0, Some strconv.ErrSyntax).
Proof. vm_compute; repeat split; reflexivity. Qed.

Example ParseInt_signs :
  strconv.ParseInt "-9223372036854775808" = (minInt64, None)
  /\ strconv.ParseInt "9223372036854775808" = (maxInt64, Some strconv.ErrRange)
  /\ strconv.ParseInt "+42" = (42, None)
  /\ strconv.ParseInt "4.4e9" = (0, Some strconv.ErrSyntax).
Proof. vm_compute; repeat split; reflexivity. Qed.

Example ScanLines_crlf :
  bufio.ScanLines ("MemTotal: 1 kB" ++ String (byte 13) LF ++ "MemFree: 2 kB")
  = ["MemTotal: 1 kB"; "MemFree: 2 kB"].
Proof. vm_compute; reflexivity. Qed.

Example nvidiaRegex_examples :
  regexp.nvidiaRegex_MatchString "VGA compatible controller: NVIDIA Corporation GA104 [GeForce RTX 3070]" = true
  /\ regexp.nvidiaRegex_MatchString "VGA compatible controller: nvidia corporation [quadro]" = true
  /\ regexp.nvidiaRegex_MatchString "VGA compatible controller: GeForce by NVIDIA" = false.
Proof. vm_compute; repeat split; reflexivity. Qed.

Example amdRegex_examples :
  regexp.amdRegex_MatchString "Advanced Micro Devices, Inc. [AMD/ATI] Ellesmere [Radeon RX 580]" = true
  /\ regexp.amdRegex_MatchString "Intel Corporation UHD Graphics 630" = false.
Proof. vm_compute; repeat split; reflexivity. Qed.

Example memRegex_examples :
  regexp.memRegex_FindStringSubmatch "	Memory: total 8GB" = Some ("8", "G")
  /\ regexp.memRegex_FindStringSubmatch "	memory size 4096mb" = Some ("4096", "m")
  /\ regexp.memRegex_FindStringSubmatch "	Memory at e0000000 (64-bit, prefetchable) [size=256M]" = None.
Proof. vm_compute; repeat split; reflexivity. Qed.

Example getSystemMemory_example :
  system.getSystemMemory
    {| system.Run := fun _ _ => false; system.Output := fun _ _ => None;
       system.ReadDir := fun _ => None;
       system.ReadFile := fun _ => Some ("MemTotal:       16384000 kB" ++ LF ++ "MemFree: 1 kB" ++ LF);
       system.Stat := fun _ => false |}
  = 16000.
Proof. vm_compute; reflexivity. Qed.

Example ListModels_example :
  fst (ollama.ListModels "" textTime anyURL
         (serverAnswering 200
            [ollama.Doc
               (ollama.JObject
                  [("models",
                    ollama.JArray
                      [ollama.JObject
                         [("name", ollama.JString "llama3.1:8b");
                          ("size", ollama.JNumber "4400000000");
                          ("modified_at", ollama.JString "2024-01-01T00:00:00Z")]])])])
         [])
  = inr [{| ollama.Name := "llama3.1:8b"; ollama.Size := 4400000000;
            ollama.Modified := "2024-01-01T00:00:00Z" |}].
Proof. vm_compute; reflexivity. Qed.

(* ================================================================== *)
(** * Properties of the scanner                                       *)
(* ================================================================== *)

Lemma append_nil_r (s : string) : s ++ "" = s.
Proof. induction s as [|c s IH]; cbn; [reflexivity|now rewrite IH]. Qed.

Lemma append_assoc (s t u : string) : (s ++ t) ++ u = s ++ t ++ u.
Proof. induction s as [|c s IH]; cbn; [reflexivity|now rewrite IH]. Qed.

Lemma length_substring_le (s : string) :
  forall m n, (String.length (substring m n s) <= String.length s)%nat.
Proof.
  induction s as [|c s IH]; intros m n.
  - destruct m, n; cbn; lia.
  - destruct m as [|m].
    + destruct n as [|n]; cbn; [lia|]. specialize (IH 0%nat n). lia.
    + cbn. specialize (IH m n). lia.
Qed.

Lemma length_dropCR (s : string) :
  (String.length (bufio.dropCR s) <= String.length s)%nat.
Proof.
  unfold bufio.dropCR, strings.TrimSuffix.
  destruct (strings.HasSuffix s _); [apply length_substring_le|lia].
Qed.

(** Every line a scanner hands out is shorter than its buffer. *)
Lemma scanAux_fits (s : string) :
  forall cur,
    Forall (fun l => Z.of_nat (String.length l) < bufio.MaxScanTokenSize)
           (bufio.scanAux cur s).
Proof.
  induction s as [|c s IH]; intros cur; cbn [bufio.scanAux].
  - destruct cur as [|c0 cur0]; [constructor|].
    unfold bufio.tooLong.
    destruct (Z.leb_spec bufio.MaxScanTokenSize
                         (Z.of_nat (String.length (String c0 cur0)))) as [Hle|Hlt];
      constructor; [|constructor].
    pose proof (length_dropCR (String c0 cur0)). lia.
  - destruct (Ascii.eqb c (byte 10)); [|apply IH].
    unfold bufio.tooLong.
    destruct (Z.leb_spec bufio.MaxScanTokenSize (Z.of_nat (String.length cur)))
      as [Hle|Hlt]; constructor; [|apply IH].
    pose proof (length_dropCR cur). lia.
Qed.

(** A scanner at a line: it hands out the bytes up to the next newline,
    or stops when they do not fit. *)
Lemma scanAux_line (line : string) :
  forall (cur rest : string),
    oneLine line = true ->
    bufio.scanAux cur (line ++ LF ++ rest)
    = if bufio.tooLong (cur ++ line) then []
      else bufio.dropCR (cur ++ line) :: bufio.scanAux "" rest.
Proof.
  induction line as [|c line IH]; intros cur rest Hline.
  - change ("" ++ LF ++ rest) with (String (byte 10) rest).
    cbn [bufio.scanAux]. rewrite Ascii.eqb_refl. now rewrite append_nil_r.
  - change (String c line ++ LF ++ rest) with (String c (line ++ LF ++ rest)).
    unfold oneLine in Hline; cbn [list_ascii_of_string forallb] in Hline.
    apply andb_prop in Hline as [Hc Hline]. apply negb_true_iff in Hc.
    cbn [bufio.scanAux]. rewrite Hc, (IH _ _ Hline).
    now rewrite append_assoc.
Qed.

(** What follows a line that does not fit is not read. *)
Lemma ScanLines_stops (before : list string) (long rest : string) :
  forallb oneLine before = true ->
  overlong long = true ->
  bufio.ScanLines (unlines before ++ long ++ LF ++ rest)
  = bufio.ScanLines (unlines before).
Proof.
  intros Hbefore Hlong. unfold bufio.ScanLines.
  induction before as [|line before IH].
  - apply andb_prop in Hlong as [Hone Htoo].
    change (unlines [] ++ long ++ LF ++ rest) with (long ++ LF ++ rest).
    rewrite (scanAux_line long "" rest Hone).
    change ("" ++ long) with long. now rewrite Htoo.
  - cbn [forallb] in Hbefore. apply andb_prop in Hbefore as [Hline Hbefore].
    change (unlines (line :: before)) with (line ++ LF ++ unlines before).
    rewrite !append_assoc.
    rewrite !(scanAux_line line "" _ Hline).
    destruct (bufio.tooLong ("" ++ line)); [reflexivity|].
    f_equal. now apply IH.
Qed.

Example ScanLines_long_line :
  bufio.ScanLines ("MemFree: 1 kB" ++ LF ++ longMeminfo) = ["MemFree: 1 kB"].
Proof.
  exact (@ScanLines_stops ["MemFree: 1 kB"] (filler (Z.to_nat bufio.MaxScanTokenSize))
           ("MemTotal:        4194304 kB" ++ LF)
           eq_refl ltac:(vm_compute; reflexivity)).
Qed.

(* ================================================================== *)
(** * Properties of the hardware prober                               *)
(* ================================================================== *)

Section ProberProps.

Import system.

Variable os : OS.

Lemma violations_ignore_ROCm (info : SystemInfo) (b : bool) :
  violations (withROCm b info) = violations info.
Proof. reflexivity. Qed.

Lemma validateRequirements_error_ignores_ROCm (info : SystemInfo) (b : bool) :
  snd (validateRequirements os (withROCm b info)) = snd (validateRequirements os info).
Proof. reflexivity. Qed.

Lemma checkNVIDIAGPU_no_lspci :
  Output os "lspci" ["-v"] = None -> checkNVIDIAGPU os = (false, "", 0).
Proof. intros H; unfold checkNVIDIAGPU; now rewrite H. Qed.

Lemma checkAMDGPU_no_lspci :
  Output os "lspci" ["-v"] = None -> checkAMDGPU os = (false, "", 0).
Proof. intros H; unfold checkAMDGPU; now rewrite H. Qed.

Lemma rocminfoAt_all_fail (paths : list string) :
  (forall p, Stat os p = true -> Run os p [] = false) ->
  rocminfoAt os paths = None \/ rocminfoAt os paths = Some false.
Proof.
  intros Hfail; induction paths as [|p rest IH]; simpl.
  - now left.
  - destruct (Stat os p) eqn:Hstat.
    + right; now rewrite (Hfail p Hstat).
    + exact IH.
Qed.

Lemma checkROCm_all_fail :
  (forall p, Stat os p = true -> Run os p [] = false) ->
  Output os "lsmod" [] = None ->
  checkROCm os = false.
Proof.
  intros Hfail Hlsmod; unfold checkROCm.
  destruct (rocminfoAt_all_fail ["/opt/rocm/bin/rocminfo"; "/usr/bin/rocminfo"] Hfail)
    as [-> | ->]; [now rewrite Hlsmod | reflexivity].
Qed.

(** The fallback of the AMD path, case by case. *)

Lemma getGPUMemoryAlternative_unreadable_dir :
  ReadDir os "/sys/class/drm" = None -> getGPUMemoryAlternative os = 0.
Proof. intros H; unfold getGPUMemoryAlternative; now rewrite H. Qed.

Lemma vramOfCards_cons (name : string) (rest : list string) :
  vramOfCards os (name :: rest)
  = if isCard name then
      match ReadFile os (vramPath name) with
      | Some data =>
          match strconv.ParseInt (strings.TrimSpace data) with
          | (size, None) => Z.quot size (1024 * 1024)
          | _ => vramOfCards os rest
          end
      | None => vramOfCards os rest
      end
    else vramOfCards os rest.
Proof. reflexivity. Qed.

Lemma vramOfCards_skip (name : string) (rest : list string) :
  (isCard name = true -> noSize os name) ->
  vramOfCards os (name :: rest) = vramOfCards os rest.
Proof.
  intros Hname; rewrite vramOfCards_cons.
  destruct (isCard name); [|reflexivity].
  specialize (Hname eq_refl); unfold noSize in Hname.
  destruct (ReadFile os (vramPath name)) as [data|]; [|reflexivity].
  destruct (strconv.ParseInt (strings.TrimSpace data)) as [size [e|]]; [reflexivity|].
  now elim Hname.
Qed.

Lemma vramOfCards_default (files : list string) :
  Forall (fun name => isCard name = true -> noSize os name) files ->
  vramOfCards os files = 8192.
Proof.
  induction 1 as [|name rest Hname _ IH]; [reflexivity|].
  now rewrite vramOfCards_skip.
Qed.

Lemma getGPUMemoryAlternative_default (files : list string) :
  ReadDir os "/sys/class/drm" = Some files ->
  Forall (fun name => isCard name = true -> noSize os name) files ->
  getGPUMemoryAlternative os = 8192.
Proof.
  intros Hdir Hfiles; unfold getGPUMemoryAlternative; rewrite Hdir.
  now apply vramOfCards_default.
Qed.

Lemma vramOfCards_reads (before after : list string) (name data : string) (size : Z) :
  Forall (fun n => isCard n = true -> noSize os n) before ->
  isCard name = true ->
  ReadFile os (vramPath name) = Some data ->
  strconv.ParseInt (strings.TrimSpace data) = (size, None) ->
  vramOfCards os (before ++ name :: after) = Z.quot size (1024 * 1024).
Proof.
  intros Hbefore Hcard Hread Hparse.
  induction Hbefore as [|n rest Hn _ IH].
  - change (([] ++ name :: after)%list) with (name :: after).
    now rewrite vramOfCards_cons, Hcard, Hread, Hparse.
  - change (((n :: rest) ++ name :: after)%list) with (n :: (rest ++ name :: after))%list.
    now rewrite vramOfCards_skip.
Qed.

End ProberProps.

(** C5. For the profile with GPUMemory = 4096, SystemMemory = 4096, no
    container runtime and no GPU vendor, [validateRequirements] returns an
    error made of a heading and exactly four violations, one per line, in
    the order runtime, vendor, GPU-memory floor, system-memory floor; nothing
    is logged, and whether the accelerator stack is present changes neither
    this error nor that of any other profile. *)
Theorem validateRequirements_four_violations :
  forall (os : system.OS) (hasROCm : bool) (model kernel : string),
    let info := lowProfile hasROCm model kernel in
    let v1 := "Docker is not installed or not accessible" in
    let v2 := "No supported GPU detected (NVIDIA or AMD)" in
    let v3 := "GPU memory (4096MB) is below recommended minimum (6GB)" in
    let v4 := "System memory (4096MB) is below recommended minimum (8GB)" in
    system.violations info = [v1; v2; v3; v4]
    /\ (exists msg,
          system.validateRequirements os info = ([], Some msg)
          /\ strings.Split msg LF
             = ["system requirements not met:";
                "  - " ++ v1; "  - " ++ v2; "  - " ++ v3; "  - " ++ v4])
    /\ (forall (other : system.SystemInfo) (b : bool),
          snd (system.validateRequirements os (withROCm b other))
          = snd (system.validateRequirements os other)).
Proof.
  intros os hasROCm model kernel info v1 v2 v3 v4.
  split; [reflexivity|split].
  - eexists; split; [reflexivity|]. vm_compute. reflexivity.
  - intros other b. apply validateRequirements_error_ignores_ROCm.
Qed.

(** C6. On a machine whose [lspci -v] shows an AMD card without a memory
    size and whose [/sys/class/drm] cannot be read, the AMD check reports
    0 MB, where the fallback's own default is 8192 MB. *)
Theorem checkAMDGPU_unreadable_drm_reports_zero :
  system.checkAMDGPU amdHostNoDRM
  = (true, "Advanced Micro Devices, Inc. [AMD/ATI] Ellesmere [Radeon RX 580] (rev e7)", 0)
  /\ system.GPUMemory (fst (system.GetSystemInfo amdHostNoDRM)) = 0
  /\ system.checkAMDGPU amdHostNoVRAMFile
     = (true, "Advanced Micro Devices, Inc. [AMD/ATI] Ellesmere [Radeon RX 580] (rev e7)", 8192).
Proof. vm_compute. repeat split; reflexivity. Qed.

(** The profile when only one of the two GPU checks finds a card. *)
Lemma GetSystemInfo_nvidia (os : system.OS) (model : string) (memory : Z) :
  system.checkNVIDIAGPU os = (true, model, memory) ->
  system.GPUMemory (fst (system.GetSystemInfo os)) = memory.
Proof.
  intros H; unfold system.GetSystemInfo; rewrite H.
  destruct (system.checkAMDGPU os) as [[? ?] ?]; reflexivity.
Qed.

Lemma GetSystemInfo_amd (os : system.OS) (model : string) (memory : Z) :
  system.HasNVIDIA (fst (system.GetSystemInfo os)) = false ->
  system.checkAMDGPU os = (true, model, memory) ->
  system.GPUMemory (fst (system.GetSystemInfo os)) = memory.
Proof.
  unfold system.GetSystemInfo; intros Hnv H; rewrite H in *.
  destruct (system.checkNVIDIAGPU os) as [[[] ?] ?]; [discriminate Hnv|reflexivity].
Qed.

Lemma getNVIDIAMemoryFromSMI_default (os : system.OS) :
  smiGivesNothing os -> system.getNVIDIAMemoryFromSMI os = 8192.
Proof.
  unfold system.getNVIDIAMemoryFromSMI, smiGivesNothing.
  destruct (system.Output os "nvidia-smi" _) as [out|]; [|reflexivity].
  destruct (strconv.Atoi (strings.TrimSpace out)) as [mem [e|]]; [reflexivity|].
  intros H; now elim H.
Qed.

(** C9 (as amended). [GetSystemInfo] returns a profile and a nil error on
    every host.  A failing runtime check, PCI enumeration,
    accelerator-stack check, memory file or kernel-version command leaves
    false, zero, the empty model or ["unknown"] in its fields.  The GPU
    memory is the exception: once the PCI listing shows a card without a
    size, an [nvidia-smi] that fails or prints no integer, and AMD
    attribute files none of which gives a size, leave the default of
    8192 MB; only an unreadable DRM directory leaves zero. *)
Theorem GetSystemInfo_never_fails :
  forall os : system.OS,
    let info := fst (system.GetSystemInfo os) in
    snd (system.GetSystemInfo os) = None
    /\ (system.Run os "docker" ["--version"] = false -> system.HasDocker info = false)
    /\ (system.Output os "lspci" ["-v"] = None ->
        system.HasNVIDIA info = false /\ system.HasAMDGPU info = false
        /\ system.GPUType info = "unknown" /\ system.GPUModel info = ""
        /\ system.GPUMemory info = 0)
    /\ ((forall p, system.Stat os p = true -> system.Run os p [] = false) ->
        system.Output os "lsmod" [] = None ->
        system.HasROCm info = false)
    /\ (system.ReadFile os "/proc/meminfo" = None -> system.SystemMemory info = 0)
    /\ (system.Output os "uname" ["-r"] = None -> system.KernelVersion info = "unknown")
    /\ (forall output model : string,
          system.Output os "lspci" ["-v"] = Some output ->
          system.scanGPU regexp.nvidiaRegex_MatchString (strings.Split output LF)
          = (true, model, 0) ->
          smiGivesNothing os ->
          system.GPUMemory info = 8192)
    /\ (forall output model : string,
          system.Output os "lspci" ["-v"] = Some output ->
          system.HasNVIDIA info = false ->
          system.scanGPU regexp.amdRegex_MatchString (strings.Split output LF)
          = (true, model, 0) ->
          match system.ReadDir os "/sys/class/drm" with
          | Some files =>
              Forall (fun name => isCard name = true -> noSize os name) files ->
              system.GPUMemory info = 8192
          | None => system.GPUMemory info = 0
          end).
Proof.
  intros os info; subst info.
  split; [|split; [|split; [|split; [|split; [|split; [|split]]]]]].
  - unfold system.GetSystemInfo.
    destruct (system.checkNVIDIAGPU os) as [[[] ?] ?];
      destruct (system.checkAMDGPU os) as [[[] ?] ?]; reflexivity.
  - intros H. unfold system.GetSystemInfo.
    destruct (system.checkNVIDIAGPU os) as [[[] ?] ?];
      destruct (system.checkAMDGPU os) as [[[] ?] ?]; exact H.
  - intros H. unfold system.GetSystemInfo.
    rewrite (checkNVIDIAGPU_no_lspci os H), (checkAMDGPU_no_lspci os H).
    repeat split.
  - intros Hfail Hlsmod. unfold system.GetSystemInfo.
    destruct (system.checkNVIDIAGPU os) as [[[] ?] ?];
      destruct (system.checkAMDGPU os) as [[[] ?] ?];
      exact (checkROCm_all_fail os Hfail Hlsmod).
  - intros H. unfold system.GetSystemInfo.
    destruct (system.checkNVIDIAGPU os) as [[[] ?] ?];
      destruct (system.checkAMDGPU os) as [[[] ?] ?];
      cbn; unfold system.getSystemMemory; now rewrite H.
  - intros H. unfold system.GetSystemInfo.
    destruct (system.checkNVIDIAGPU os) as [[[] ?] ?];
      destruct (system.checkAMDGPU os) as [[[] ?] ?];
      cbn; unfold system.getKernelVersion; now rewrite H.
  - intros output model Hlspci Hscan Hsmi.
    apply (@GetSystemInfo_nvidia os model).
    unfold system.checkNVIDIAGPU; rewrite Hlspci, Hscan; cbn [andb Z.eqb].
    now rewrite (getNVIDIAMemoryFromSMI_default os Hsmi).
  - intros output model Hlspci Hnv Hscan.
    assert (Hcheck : system.checkAMDGPU os
                     = (true, model, system.getGPUMemoryAlternative os))
      by (unfold system.checkAMDGPU; rewrite Hlspci, Hscan; reflexivity).
    destruct (system.ReadDir os "/sys/class/drm") as [files|] eqn:Hdir.
    + intros Hfiles.
      rewrite (@GetSystemInfo_amd os model _ Hnv Hcheck).
      exact (@getGPUMemoryAlternative_default os files Hdir Hfiles).
    + rewrite (@GetSystemInfo_amd os model _ Hnv Hcheck).
      unfold system.getGPUMemoryAlternative; now rewrite Hdir.
Qed.

Lemma GetSystemInfo_never_fails_witness :
  system.GetSystemInfo deadHost
  = ({| system.HasDocker := false; system.HasROCm := false;
        system.HasNVIDIA := false; system.HasAMDGPU := false;
        system.GPUMemory := 0; system.SystemMemory := 0;
        system.GPUModel := ""; system.GPUType := "unknown";
        system.KernelVersion := "unknown" |}, None)
  /\ system.GPUMemory (fst (system.GetSystemInfo nvidiaHostNoSMI)) = 8192
  /\ system.GPUMemory (fst (system.GetSystemInfo amdHostNoVRAMFile)) = 8192
  /\ system.GPUMemory (fst (system.GetSystemInfo amdHostNoDRM)) = 0.
Proof.
  split; [|split; [|split]].
  - destruct (GetSystemInfo_never_fails deadHost)
      as (Herr & Hdocker & Hgpu & Hrocm & Hmem & Hkernel & _).
    specialize (Hdocker eq_refl).
    destruct (Hgpu eq_refl) as (Hnv & Hamd & Htype & Hmodel & Hgmem).
    specialize (Hrocm (fun p (H : false = true) => eq_refl) eq_refl).
    specialize (Hmem eq_refl). specialize (Hkernel eq_refl).
    destruct (system.GetSystemInfo deadHost) as [info err].
    destruct info; cbn in *. congruence.
  - destruct (GetSystemInfo_never_fails nvidiaHostNoSMI) as (_ & _ & _ & _ & _ & _ & Hsmi & _).
    apply (Hsmi lspciRTX3070 "NVIDIA Corporation GA104 [GeForce RTX 3070] (rev a1)");
      [reflexivity | vm_compute; reflexivity | exact I].
  - destruct (GetSystemInfo_never_fails amdHostNoVRAMFile)
      as (_ & _ & _ & _ & _ & _ & _ & Hvram).
    apply (Hvram lspciRX580
             "Advanced Micro Devices, Inc. [AMD/ATI] Ellesmere [Radeon RX 580] (rev e7)");
      [reflexivity | vm_compute; reflexivity | vm_compute; reflexivity |].
    repeat constructor.
  - destruct (GetSystemInfo_never_fails amdHostNoDRM)
      as (_ & _ & _ & _ & _ & _ & _ & Hvram).
    apply (Hvram lspciRX580
             "Advanced Micro Devices, Inc. [AMD/ATI] Ellesmere [Radeon RX 580] (rev e7)");
      [reflexivity | vm_compute; reflexivity | vm_compute; reflexivity].
Defined.

(** C9 (as stated) fails for the GPU memory: on a machine with a GeForce
    card whose [nvidia-smi] cannot be run, and on one with a Radeon card
    whose attribute files cannot be read, the failing sub-check leaves
    8192 MB in the profile, not zero. *)
Lemma failing_memory_checks_leave_8192 :
  ~ smiFailureLeavesZero nvidiaHostNoSMI
  /\ ~ vramFailureLeavesZero amdHostNoVRAMFile.
Proof.
  split.
  - intros Hclaim.
    specialize (Hclaim lspciRTX3070 "NVIDIA Corporation GA104 [GeForce RTX 3070] (rev a1)"
                       eq_refl ltac:(vm_compute; reflexivity) eq_refl).
    vm_compute in Hclaim. discriminate Hclaim.
  - intros Hclaim.
    specialize (Hclaim lspciRX580
                  "Advanced Micro Devices, Inc. [AMD/ATI] Ellesmere [Radeon RX 580] (rev e7)"
                  eq_refl ltac:(vm_compute; reflexivity) ltac:(vm_compute; reflexivity)
                  (fun _ => eq_refl)).
    vm_compute in Hclaim. discriminate Hclaim.
Qed.

(* ================================================================== *)
(** * Properties of the metrics sampler                               *)
(* ================================================================== *)

Section SamplerProps.

Import monitor.

Variable ParseFloat : string -> option float64.
Variable host : Host.

(** The GPU fields of a sample, from what [getAMDGPUUsage] returns. *)
Lemma GetPerformanceMetrics_gpu (usage : float64) (used total : Z) :
  getAMDGPUUsage ParseFloat host = (usage, used, total) ->
  let m := GetPerformanceMetrics ParseFloat host in
  GPUUsage m = (if geZero usage then usage else Fin (-1))
  /\ GPUMemoryUsedMB m = (if geZero usage then used else 0)
  /\ GPUMemoryTotalMB m = (if geZero usage then total else 0).
Proof.
  intros H; unfold GetPerformanceMetrics; rewrite H.
  destruct (getCPUUsage host) as [cpu cpuErr].
  destruct (getMemoryUsage host) as [[memUsed memTotal] memErr].
  cbn; auto.
Qed.

Lemma getAMDGPUMemory_reads (path data : string) (v : Z) :
  ReadFile host path = Some data ->
  strconv.ParseInt (strings.TrimSpace data) = (v, None) ->
  getAMDGPUMemory host path = v.
Proof. intros Hread Hparse; unfold getAMDGPUMemory; now rewrite Hread, Hparse. Qed.

Lemma getAMDGPUMemory_unreadable (path : string) :
  ReadFile host path = None -> getAMDGPUMemory host path = 0.
Proof. intros Hread; unfold getAMDGPUMemory; now rewrite Hread. Qed.

Lemma firstUsage_unreadable (paths : list string) :
  (forall path, In path paths -> ReadFile host path = None) ->
  firstUsage ParseFloat host paths = Fin (-1).
Proof.
  induction paths as [|p rest IH]; intros Hnone; simpl; [reflexivity|].
  rewrite (Hnone p (or_introl eq_refl)).
  apply IH; intros q Hq; apply Hnone; now right.
Qed.

Lemma getAMDGPUUsagePercent_unreadable :
  noBusyFile host -> getAMDGPUUsagePercent ParseFloat host = Fin (-1).
Proof. intros H; now apply firstUsage_unreadable. Qed.

(** Inside [getAMDGPUUsage] the two halves are independent: without a
    busy-percent file it returns the sentinel together with the memory
    figures. *)
Lemma getAMDGPUUsage_without_busy (total : Z) :
  vramTotalReads host total -> 0 < total -> noBusyFile host ->
  getAMDGPUUsage ParseFloat host
  = (Fin (-1),
     Z.quot (getAMDGPUMemory host vramUsedPath) (1024 * 1024),
     Z.quot total (1024 * 1024)).
Proof.
  intros (data & Hread & Hparse) Hpos Hbusy; unfold getAMDGPUUsage.
  fold vramTotalPath; fold vramUsedPath.
  rewrite (getAMDGPUMemory_reads _ Hread Hparse).
  destruct (Z.gtb_spec total 0) as [_|Hle]; [|lia].
  now rewrite (getAMDGPUUsagePercent_unreadable Hbusy).
Qed.

Lemma getAMDGPUUsage_without_vram :
  getAMDGPUMemory host vramTotalPath <= 0 ->
  getAMDGPUUsage ParseFloat host = (Fin (-1), 0, 0).
Proof.
  intros Hle; unfold getAMDGPUUsage; fold vramTotalPath.
  destruct (Z.gtb_spec (getAMDGPUMemory host vramTotalPath) 0) as [Hgt|_]; [lia|reflexivity].
Qed.

End SamplerProps.

(** C1 (as amended). In every sample in which the VRAM total is readable
    and positive but neither busy-percent file is readable, GPU utilization
    is the sentinel -1 and both GPU memory fields are 0: [getAMDGPUUsage]
    does return the memory figures read (in MB) next to the sentinel, but
    [GetPerformanceMetrics] copies the three values only when utilization
    is at least 0. *)
Theorem sample_without_busy_percent :
  forall (ParseFloat : string -> option monitor.float64) (host : monitor.Host) (total : Z),
    vramTotalReads host total -> 0 < total -> noBusyFile host ->
    let m := monitor.GetPerformanceMetrics ParseFloat host in
    monitor.getAMDGPUUsage ParseFloat host
    = (monitor.Fin (-1),
       Z.quot (monitor.getAMDGPUMemory host vramUsedPath) (1024 * 1024),
       Z.quot total (1024 * 1024))
    /\ monitor.GPUUsage m = monitor.Fin (-1)
    /\ monitor.GPUMemoryUsedMB m = 0
    /\ monitor.GPUMemoryTotalMB m = 0.
Proof.
  intros ParseFloat host total Hreads Hpos Hbusy m.
  pose proof (getAMDGPUUsage_without_busy ParseFloat Hreads Hpos Hbusy) as Hgpu.
  split; [exact Hgpu|].
  exact (GetPerformanceMetrics_gpu ParseFloat host Hgpu).
Qed.

Lemma sample_without_busy_percent_witness :
  monitor.getAMDGPUUsage parsePercent gpuHostNoBusy = (monitor.Fin (-1), 1024, 8192)
  /\ monitor.GPUUsage (monitor.GetPerformanceMetrics parsePercent gpuHostNoBusy)
     = monitor.Fin (-1)
  /\ monitor.GPUMemoryUsedMB (monitor.GetPerformanceMetrics parsePercent gpuHostNoBusy) = 0
  /\ monitor.GPUMemoryTotalMB (monitor.GetPerformanceMetrics parsePercent gpuHostNoBusy) = 0.
Proof.
  apply (@sample_without_busy_percent parsePercent gpuHostNoBusy 8589934592).
  - exists ("8589934592" ++ LF); split; reflexivity.
  - lia.
  - intros path [<- | [<- | []]]; reflexivity.
Defined.

(** C1 (as stated) fails on a host with 8 GiB of VRAM and no busy-percent
    file: the sample reports 0 MB of GPU memory, not the 8192 MB read. *)
Lemma memory_dropped_without_busy_percent :
  ~ memorySurvivesMissingUsage parsePercent gpuHostNoBusy.
Proof.
  intros Hclaim.
  assert (Hreads : vramTotalReads gpuHostNoBusy 8589934592)
    by (exists ("8589934592" ++ LF); split; reflexivity).
  assert (Hbusy : noBusyFile gpuHostNoBusy)
    by (intros path [<- | [<- | []]]; reflexivity).
  destruct (Hclaim 8589934592 Hreads eq_refl Hbusy) as (_ & Htotal & _).
  vm_compute in Htotal. discriminate Htotal.
Qed.

(** C7. In every sample in which the VRAM-total file is absent or
    unreadable, or its content reads as zero, GPU utilization is the
    sentinel -1 and both GPU memory fields are 0, whatever the busy-percent
    files hold and however they parse. *)
Theorem sample_without_vram_total :
  forall (ParseFloat : string -> option monitor.float64) (host : monitor.Host),
    monitor.ReadFile host vramTotalPath = None \/ vramTotalReads host 0 ->
    let m := monitor.GetPerformanceMetrics ParseFloat host in
    monitor.GPUUsage m = monitor.Fin (-1)
    /\ monitor.GPUMemoryUsedMB m = 0
    /\ monitor.GPUMemoryTotalMB m = 0.
Proof.
  intros ParseFloat host Hvram m.
  assert (Hzero : monitor.getAMDGPUMemory host vramTotalPath = 0).
  { destruct Hvram as [Hnone | (data & Hread & Hparse)].
    - now apply getAMDGPUMemory_unreadable.
    - now apply (getAMDGPUMemory_reads host _ Hread). }
  assert (Hgpu : monitor.getAMDGPUUsage ParseFloat host = (monitor.Fin (-1), 0, 0))
    by (apply getAMDGPUUsage_without_vram; lia).
  exact (GetPerformanceMetrics_gpu ParseFloat host Hgpu).
Qed.

Lemma sample_without_vram_total_witness :
  monitor.getAMDGPUUsagePercent parsePercent gpuHostZeroVRAM = monitor.Fin 50
  /\ monitor.GPUUsage (monitor.GetPerformanceMetrics parsePercent gpuHostZeroVRAM)
     = monitor.Fin (-1)
  /\ monitor.GPUMemoryUsedMB (monitor.GetPerformanceMetrics parsePercent gpuHostZeroVRAM) = 0
  /\ monitor.GPUMemoryTotalMB (monitor.GetPerformanceMetrics parsePercent gpuHostZeroVRAM) = 0.
Proof.
  split; [reflexivity|].
  apply (@sample_without_vram_total parsePercent gpuHostZeroVRAM).
  right; exists ("0" ++ LF); split; reflexivity.
Defined.

(** ** The CPU ratio *)

Section CPURatio.

Import monitor.

Lemma digitVal_range (c : ascii) : isDigit c = true -> 0 <= digitVal c <= 9.
Proof.
  unfold isDigit, digitVal; intros H.
  apply andb_prop in H as [Hlo Hhi].
  apply Nat.leb_le in Hlo; apply Nat.leb_le in Hhi. lia.
Qed.

Lemma parseDigits_range (s : string) :
  forall n v, 0 <= n <= maxUint64 ->
              strconv.parseDigits n s = (v, None) -> 0 <= v <= maxUint64.
Proof.
  induction s as [|c s IH]; intros n v Hn H; cbn [strconv.parseDigits] in H.
  - now inversion H; subst.
  - destruct (isDigit c) eqn:Hc; [|discriminate].
    pose proof (digitVal_range c Hc) as Hd.
    destruct (Z.gtb_spec (10 * n + digitVal c) maxUint64) as [Hgt|Hle]; [discriminate|].
    apply (IH (10 * n + digitVal c)); [lia|exact H].
Qed.

Lemma ParseUint_range (s : string) (v : Z) :
  strconv.ParseUint s = (v, None) -> 0 <= v <= maxUint64.
Proof.
  destruct s as [|c s]; [discriminate|].
  apply parseDigits_range; unfold maxUint64; lia.
Qed.

Lemma parsed_counters_range (fs : list string) :
  forall cs, map strconv.ParseUint fs = map (fun v => (v, @None strconv.NumError)) cs ->
             Forall (fun v => 0 <= v <= maxUint64) cs.
Proof.
  induction fs as [|f fs IH]; intros [|v cs] H; try discriminate; constructor.
  - injection H as Hf _. now apply (ParseUint_range f).
  - injection H as _ Hrest. now apply IH.
Qed.

Lemma sumZ_nonneg (cs : list Z) :
  Forall (fun v => 0 <= v <= maxUint64) cs -> 0 <= sumZ cs.
Proof. induction 1; simpl; lia. Qed.

Lemma idleOf_bounds (cs : list Z) :
  Forall (fun v => 0 <= v <= maxUint64) cs ->
  forall i idle, 0 <= idle -> 0 <= idleOf i cs idle <= idle + sumZ cs.
Proof.
  induction 1 as [|v cs Hv Hcs IH]; intros i idle Hidle; simpl; [lia|].
  pose proof (sumZ_nonneg Hcs) as Hsum.
  destruct (i =? 4).
  - specialize (IH (i + 1) v (proj1 Hv)). lia.
  - specialize (IH (i + 1) idle Hidle). lia.
Qed.

Lemma idleOf_scale (k : Z) (cs : list Z) :
  forall i idle, idleOf i (map (Z.mul k) cs) (k * idle) = k * idleOf i cs idle.
Proof.
  induction cs as [|v cs IH]; intros i idle; simpl; [reflexivity|].
  destruct (i =? 4); apply IH.
Qed.

Lemma sumZ_scale (k : Z) (cs : list Z) : sumZ (map (Z.mul k) cs) = k * sumZ cs.
Proof. induction cs as [|v cs IH]; simpl; [lia|rewrite IH; lia]. Qed.

(** The loop of [getCPUUsage] adds the counters up exactly as long as the
    sum fits in 64 bits. *)
Lemma sumFields_exact (fs : list string) :
  forall cs i total idle,
    map strconv.ParseUint fs = map (fun v => (v, @None strconv.NumError)) cs ->
    0 <= total -> total + sumZ cs < 2^64 ->
    sumFields i fs total idle = inr (total + sumZ cs, idleOf i cs idle).
Proof.
  induction fs as [|f fs IH]; intros [|v cs] i total idle Hparse Htotal Hfit;
    try discriminate; simpl.
  - now rewrite Z.add_0_r.
  - pose proof (parsed_counters_range _ _ Hparse) as Hrange.
    inversion Hrange as [|? ? Hv Hcs]; subst.
    pose proof (sumZ_nonneg Hcs) as Hsum.
    injection Hparse as Hf Hrest. rewrite Hf.
    simpl in Hfit.
    assert (Hsmall : wrapU64 (total + v) = total + v)
      by (unfold wrapU64; apply Z.mod_small; lia).
    rewrite Hsmall, (IH cs (i + 1) (total + v) (if i =? 4 then v else idle)); [|exact Hrest|lia|lia].
    f_equal; f_equal; lia.
Qed.

(** What [getCPUUsage] computes from a well-formed line whose counters add
    up to less than 2^64. *)
Lemma cpuUsageOfLine_exact (line : string) (cs : list Z) :
  statCounters line cs -> sumZ cs < 2^64 ->
  cpuUsageOfLine line
  = (if sumZ cs =? 0 then Fin 0
     else Fin (inject_Z (sumZ cs - idleOf 1 cs 0) / inject_Z (sumZ cs) * 100)%Q,
     None).
Proof.
  intros (fs & Hfields & Hlen & Hparse) Hfit.
  unfold cpuUsageOfLine; rewrite Hfields.
  replace (List.length ("cpu" :: fs) <? 8)%nat with false
    by (symmetry; apply Nat.ltb_ge; simpl; lia).
  change (hd "" ("cpu" :: fs)) with "cpu"; change (tl ("cpu" :: fs)) with fs.
  rewrite String.eqb_refl; cbn [negb orb].
  rewrite (@sumFields_exact fs cs 1 0 0 Hparse); [|lia|lia].
  rewrite Z.add_0_l.
  destruct (sumZ cs =? 0); [reflexivity|].
  unfold usageOf.
  pose proof (parsed_counters_range _ _ Hparse) as Hrange.
  pose proof (@idleOf_bounds cs Hrange 1 0 (Z.le_refl 0)) as Hidle.
  replace (wrapU64 (sumZ cs - idleOf 1 cs 0)) with (sumZ cs - idleOf 1 cs 0)
    by (unfold wrapU64; symmetry; apply Z.mod_small; lia).
  reflexivity.
Qed.

Lemma getCPUUsage_first_line (host : Host) (line : string) :
  firstStatLine host = Some line -> getCPUUsage host = cpuUsageOfLine line.
Proof.
  unfold firstStatLine, getCPUUsage; intros H.
  destruct (ReadFile host "/proc/stat") as [content|]; [|discriminate].
  destruct (bufio.ScanLines content) as [|l rest]; [discriminate|].
  now injection H as ->.
Qed.

Lemma ratio_scale (k total idle : Z) :
  k <> 0 -> total <> 0 ->
  (inject_Z (k * total - k * idle) / inject_Z (k * total) * 100
   == inject_Z (total - idle) / inject_Z total * 100)%Q.
Proof.
  intros Hk Htotal.
  replace (k * total - k * idle) with (k * (total - idle)) by lia.
  rewrite !inject_Z_mult.
  assert (Hk' : ~ (inject_Z k == 0)%Q)
    by (intros H; apply Hk; now apply (inject_Z_injective k 0)).
  assert (Ht' : ~ (inject_Z total == 0)%Q)
    by (intros H; apply Htotal; now apply (inject_Z_injective total 0)).
  field. split; assumption.
Qed.

End CPURatio.

(** Settles [statCounters] on a concrete line by evaluation. *)
Ltac stat_counters :=
  eexists; split;
  [ cbv; reflexivity
  | split; [ cbv; lia | vm_compute; reflexivity ] ].

(** The line the sampler reads is shorter than the buffer of its scanner;
    a first line that is not yields 0 and no error, whatever it holds. *)
Lemma firstStatLine_fits (host : monitor.Host) (line : string) :
  firstStatLine host = Some line ->
  Z.of_nat (String.length line) < bufio.MaxScanTokenSize.
Proof.
  unfold firstStatLine, bufio.ScanLines.
  destruct (monitor.ReadFile host "/proc/stat") as [content|]; [|discriminate].
  pose proof (scanAux_fits content "") as Hfits.
  destruct (bufio.scanAux "" content) as [|l rest]; [discriminate|].
  intros [= <-]. now inversion Hfits.
Qed.

Lemma getCPUUsage_overlong_line (host : monitor.Host) (long rest : string) :
  monitor.ReadFile host "/proc/stat" = Some (long ++ LF ++ rest) ->
  overlong long = true ->
  monitor.getCPUUsage host = (monitor.Fin 0, None).
Proof.
  intros Hread Hlong. unfold monitor.getCPUUsage. rewrite Hread.
  change (long ++ LF ++ rest) with (unlines [] ++ long ++ LF ++ rest).
  now rewrite (@ScanLines_stops [] long rest eq_refl Hlong).
Qed.

(** C8 (as amended). For every well-formed stat line that the sampler
    reads, which is one of fewer than 65536 bytes, and every positive
    integer k such that k times the sum of the counters is below 2^64 and
    the line with every counter scaled by k is read as well, the scaled
    line yields the same usage value in exact rational arithmetic (and no
    error on either line). *)
Theorem getCPUUsage_scale_invariant :
  forall (host host' : monitor.Host) (line line' : string) (cs : list Z) (k : Z),
    0 < k ->
    firstStatLine host = Some line ->
    firstStatLine host' = Some line' ->
    statCounters line cs ->
    statCounters line' (map (Z.mul k) cs) ->
    k * sumZ cs < 2^64 ->
    snd (monitor.getCPUUsage host) = None
    /\ snd (monitor.getCPUUsage host') = None
    /\ monitor.sameValue (fst (monitor.getCPUUsage host'))
                         (fst (monitor.getCPUUsage host))
    /\ Z.of_nat (String.length line) < bufio.MaxScanTokenSize
    /\ Z.of_nat (String.length line') < bufio.MaxScanTokenSize.
Proof.
  intros host host' line line' cs k Hk Hline Hline' Hcs Hcs' Hfit.
  pose proof (firstStatLine_fits host Hline) as Hshort.
  pose proof (firstStatLine_fits host' Hline') as Hshort'.
  cut (snd (monitor.getCPUUsage host) = None
       /\ snd (monitor.getCPUUsage host') = None
       /\ monitor.sameValue (fst (monitor.getCPUUsage host'))
                            (fst (monitor.getCPUUsage host))); [tauto|].
  clear Hshort Hshort'.
  assert (Hrange : Forall (fun v => 0 <= v <= maxUint64) cs)
    by (destruct Hcs as (fs & _ & _ & Hparse); exact (parsed_counters_range _ _ Hparse)).
  pose proof (sumZ_nonneg Hrange) as Hsum.
  rewrite (getCPUUsage_first_line host Hline), (getCPUUsage_first_line host' Hline').
  rewrite (cpuUsageOfLine_exact Hcs) by nia.
  rewrite (cpuUsageOfLine_exact Hcs') by (rewrite sumZ_scale; exact Hfit).
  rewrite sumZ_scale.
  replace (idleOf 1 (map (Z.mul k) cs) 0) with (k * idleOf 1 cs 0)
    by (rewrite <- (idleOf_scale k cs 1 0); f_equal; lia).
  cbn [fst snd]. split; [reflexivity|split; [reflexivity|]].
  destruct (Z.eqb_spec (sumZ cs) 0) as [Hz|Hnz].
  - rewrite Hz, Z.mul_0_r; cbn. reflexivity.
  - destruct (Z.eqb_spec (k * sumZ cs) 0) as [Hz'|_]; [nia|].
    cbn. apply ratio_scale; lia.
Qed.

Lemma getCPUUsage_scale_invariant_witness :
  monitor.sameValue
    (fst (monitor.getCPUUsage (hostOf [("/proc/stat", "cpu  300 0 300 2100 150 0 150 0 0 0" ++ LF)])))
    (fst (monitor.getCPUUsage (hostOf [("/proc/stat", "cpu  100 0 100 700 50 0 50 0 0 0" ++ LF)]))).
Proof.
  apply (@getCPUUsage_scale_invariant
           (hostOf [("/proc/stat", "cpu  100 0 100 700 50 0 50 0 0 0" ++ LF)])
           (hostOf [("/proc/stat", "cpu  300 0 300 2100 150 0 150 0 0 0" ++ LF)])
           "cpu  100 0 100 700 50 0 50 0 0 0"
           "cpu  300 0 300 2100 150 0 150 0 0 0"
           [100; 0; 100; 700; 50; 0; 50; 0; 0; 0] 3).
  - lia.
  - vm_compute; reflexivity.
  - vm_compute; reflexivity.
  - stat_counters.
  - stat_counters.
  - vm_compute; reflexivity.
Defined.

(** C8 (as stated) fails when the scaled counters leave the 64-bit sum:
    both lines are well formed, the second is the first scaled by 2, yet
    the first yields 200/3 percent and the second 0. *)
Lemma scaling_overflows_the_sum :
  statCounters statLineQuarter [2^62; 2^62; 0; 2^62; 0; 0; 0]
  /\ statCounters statLineHalf (map (Z.mul 2) [2^62; 2^62; 0; 2^62; 0; 0; 0])
  /\ monitor.getCPUUsage (hostOf [("/proc/stat", statLineQuarter ++ LF)])
     = (monitor.Fin (922337203685477580800 # 13835058055282163712), None)
  /\ monitor.getCPUUsage (hostOf [("/proc/stat", statLineHalf ++ LF)])
     = (monitor.Fin (0 # 9223372036854775808), None)
  /\ ~ monitor.sameValue
         (fst (monitor.getCPUUsage (hostOf [("/proc/stat", statLineHalf ++ LF)])))
         (fst (monitor.getCPUUsage (hostOf [("/proc/stat", statLineQuarter ++ LF)]))).
Proof.
  split; [|split; [|split; [|split]]].
  - stat_counters.
  - stat_counters.
  - vm_compute; reflexivity.
  - vm_compute; reflexivity.
  - vm_compute. discriminate.
Qed.

(* ================================================================== *)
(** * Properties of the inference-server client                       *)
(* ================================================================== *)

Section ClientProps.

Import ollama.

Variable validURL : string -> bool.
Variable c : Client.

Lemma send_valid (method path : string) (header : list (string * string))
      (body : option json) (sent : list Request) :
  validURL (baseURL c ++ path) = true ->
  send validURL c method path header body sent
  = (Do c {| Method := method; URL := baseURL c ++ path;
             Header := header; ReqBody := body |},
     (sent ++ [{| Method := method; URL := baseURL c ++ path;
                  Header := header; ReqBody := body |}])%list).
Proof. intros H; unfold send; now rewrite H. Qed.

Lemma DeleteModel_sent (name : string) (sent : list Request) :
  validURL (baseURL c ++ "/api/delete") = true ->
  DeleteModel validURL c name sent
  = (match Do c (deleteRequest c name) with
     | inl err => Some err
     | inr resp =>
         if StatusCode resp =? StatusOK then None
         else Some (StatusError "delete request failed with status" (StatusCode resp))
     end,
     (sent ++ [deleteRequest c name])%list).
Proof.
  intros H; unfold DeleteModel, bind, delete; rewrite (send_valid _ _ _ _ _ H).
  change {| Method := "DELETE"; URL := baseURL c ++ "/api/delete";
            Header := [("Content-Type", "application/json")];
            ReqBody := Some (JObject [("name", JString name)]) |}
    with (deleteRequest c name).
  destruct (Do c (deleteRequest c name)) as [err|resp]; [reflexivity|].
  destruct (StatusCode resp =? StatusOK); reflexivity.
Qed.

Lemma Health_sent (sent : list Request) :
  validURL (baseURL c ++ "/api/version") = true ->
  Health validURL c sent
  = (match Do c (versionRequest c) with
     | inl err => Some err
     | inr resp =>
         if StatusCode resp =? StatusOK then None
         else Some (StatusError "health check failed with status" (StatusCode resp))
     end,
     (sent ++ [versionRequest c])%list).
Proof.
  intros H; unfold Health, bind, get; rewrite (send_valid _ _ _ _ _ H).
  change {| Method := "GET"; URL := baseURL c ++ "/api/version";
            Header := []; ReqBody := None |}
    with (versionRequest c).
  destruct (Do c (versionRequest c)) as [err|resp]; [reflexivity|].
  destruct (StatusCode resp =? StatusOK); reflexivity.
Qed.

Section Pulling.

Variable S : Type.
Variable callback : option (PullProgress -> S -> S).

Lemma deliver_app (xs ys : list PullProgress) (s : S) :
  deliver callback (xs ++ ys) s = deliver callback ys (deliver callback xs s).
Proof. unfold deliver; destruct callback; [apply fold_left_app|reflexivity]. Qed.

Lemma deliver_one (p : PullProgress) (s : S) :
  deliver callback [p] s = match callback with Some f => f p s | None => s end.
Proof. unfold deliver; now destruct callback. Qed.

(** One turn of the loop on a chunk that decodes. *)
Lemma readLoop_event (ch : chunk) (p : PullProgress) (rest : list chunk) (s : S) :
  decodesTo ch p ->
  readLoop callback (ch :: rest) s
  = if isSuccess p then (None, deliver callback [p] s, rest)
    else readLoop callback rest (deliver callback [p] s).
Proof.
  destruct ch as [j|]; [|contradiction].
  unfold decodesTo; intros H; cbn [readLoop]; rewrite H, deliver_one.
  reflexivity.
Qed.

(** One turn of the loop on a chunk that does not decode. *)
Lemma readLoop_failure (ch : chunk) (e : error) (rest : list chunk) (s : S) :
  failsWith ch e ->
  fst (readLoop callback (ch :: rest) s)
  = (Some (Wrapped "failed to decode progress" e), s).
Proof.
  destruct ch as [j|]; unfold failsWith; intros H; cbn [readLoop].
  - now rewrite H.
  - now subst e.
Qed.

(** The loop runs through events that are not the success marker. *)
Lemma readLoop_through (chunks : list chunk) (events : list PullProgress) :
  Forall2 decodesTo chunks events ->
  forallb (fun p => negb (isSuccess p)) events = true ->
  forall (rest : list chunk) (s : S),
    readLoop callback (chunks ++ rest) s
    = readLoop callback rest (deliver callback events s).
Proof.
  induction 1 as [|ch p chunks events Hch _ IH]; intros Hnone rest s.
  - unfold deliver; now destruct callback.
  - cbn [forallb] in Hnone; apply andb_prop in Hnone as [Hp Hrest].
    apply negb_true_iff in Hp.
    change ((ch :: chunks) ++ rest)%list with (ch :: (chunks ++ rest))%list.
    rewrite (@readLoop_event ch p _ _ Hch), Hp, (IH Hrest).
    change (p :: events) with ([p] ++ events)%list.
    now rewrite deliver_app.
Qed.

Lemma PullModel_sent (name : string) (s : S) (sent : list Request) :
  validURL (baseURL c ++ "/api/pull") = true ->
  PullModel validURL c callback name s sent
  = (match Do c (pullRequest c name) with
     | inl err => (Some err, s)
     | inr resp => fst (readLoop callback (Body resp) s)
     end,
     (sent ++ [pullRequest c name])%list).
Proof.
  intros H; unfold PullModel, bind, post; rewrite (send_valid _ _ _ _ _ H).
  change {| Method := "POST"; URL := baseURL c ++ "/api/pull";
            Header := [("Content-Type", "application/json")];
            ReqBody := Some (JObject [("name", JString name); ("stream", JBool true)]) |}
    with (pullRequest c name).
  destruct (Do c (pullRequest c name)) as [err|resp]; reflexivity.
Qed.

End Pulling.

Section Decoding.

Variable Time : Type.
Variable zeroTime : Time.
Variable parseRFC3339 : string -> option Time.

Lemma ListModels_sent (sent : list Request) :
  validURL (baseURL c ++ "/api/tags") = true ->
  ListModels zeroTime parseRFC3339 validURL c sent
  = (match Do c (tagsRequest c) with
     | inl err => inl err
     | inr resp =>
         match fst (Decode (decodeListModelsResponse zeroTime parseRFC3339) (Body resp)) with
         | inl err => inl (Wrapped "failed to decode response" err)
         | inr models => inr models
         end
     end,
     (sent ++ [tagsRequest c])%list).
Proof.
  intros H; unfold ListModels, bind, get; rewrite (send_valid _ _ _ _ _ H).
  change {| Method := "GET"; URL := baseURL c ++ "/api/tags";
            Header := []; ReqBody := None |}
    with (tagsRequest c).
  destruct (Do c (tagsRequest c)) as [err|resp]; [reflexivity|].
  destruct (fst (Decode (decodeListModelsResponse zeroTime parseRFC3339) (Body resp)));
    reflexivity.
Qed.

Lemma Generate_sent (model prompt : string) (options : list (string * json))
      (sent : list Request) :
  validURL (baseURL c ++ "/api/generate") = true ->
  Generate zeroTime parseRFC3339 validURL c model prompt options sent
  = (match Do c (generateRequest c model prompt options) with
     | inl err => inl err
     | inr resp =>
         match fst (Decode (decodeGenerateResponse zeroTime parseRFC3339) (Body resp)) with
         | inl err => inl (Wrapped "failed to decode response" err)
         | inr genResp => inr genResp
         end
     end,
     (sent ++ [generateRequest c model prompt options])%list).
Proof.
  intros H; unfold Generate, bind, post; rewrite (send_valid _ _ _ _ _ H).
  fold jsonHeader.
  change {| Method := "POST"; URL := baseURL c ++ "/api/generate";
            Header := jsonHeader;
            ReqBody := Some (JObject
                               ([("model", JString model); ("prompt", JString prompt);
                                 ("stream", JBool false)]
                                ++ match options with
                                   | [] => []
                                   | _ => [("options", JObject options)]
                                   end)%list) |}
    with (generateRequest c model prompt options).
  destruct (Do c (generateRequest c model prompt options)) as [err|resp]; [reflexivity|].
  destruct (fst (Decode (decodeGenerateResponse zeroTime parseRFC3339) (Body resp)));
    reflexivity.
Qed.

End Decoding.

End ClientProps.

(** A progress event fails to decode only with a type error of one of its
    fields, never with the end of the stream. *)
Lemma stringField_saves (tag old : string) (j : ollama.json) (saved : option ollama.error) :
  exists v saved',
    ollama.stringField tag old j saved = inr (v, saved')
    /\ (saved' = saved \/ saved' = Some (ollama.UnmarshalError tag)).
Proof.
  unfold ollama.stringField, ollama.saveError.
  destruct j, saved; eauto.
Qed.

Lemma int64Field_saves (tag : string) (old : Z) (j : ollama.json)
      (saved : option ollama.error) :
  exists v saved',
    ollama.int64Field tag old j saved = inr (v, saved')
    /\ (saved' = saved \/ saved' = Some (ollama.UnmarshalError tag)).
Proof.
  unfold ollama.int64Field, ollama.saveError.
  destruct j as [| |lit| | |]; try (destruct saved; eauto; fail).
  destruct (strconv.ParseInt lit) as [n [err|]]; destruct saved; eauto.
Qed.

Lemma setPullProgress_saves (key : string) (p : ollama.PullProgress) (j : ollama.json)
      (saved : option ollama.error) :
  exists p' saved',
    ollama.setPullProgress key p j saved = inr (p', saved')
    /\ (saved' = saved \/ exists tag, saved' = Some (ollama.UnmarshalError tag)).
Proof.
  unfold ollama.setPullProgress.
  destruct (ollama.keyIs "status" key).
  { unfold ollama.field.
    destruct (stringField_saves "status" (ollama.Status p) j saved)
      as (x & saved' & Heq & Hsaved); rewrite Heq.
    eexists _, saved'; split; [reflexivity|].
    destruct Hsaved as [Hsame|Hnew]; [now left|right; eauto]. }
  destruct (ollama.keyIs "digest" key).
  { unfold ollama.field.
    destruct (stringField_saves "digest" (ollama.Digest p) j saved)
      as (x & saved' & Heq & Hsaved); rewrite Heq.
    eexists _, saved'; split; [reflexivity|].
    destruct Hsaved as [Hsame|Hnew]; [now left|right; eauto]. }
  destruct (ollama.keyIs "total" key).
  { unfold ollama.field.
    destruct (int64Field_saves "total" (ollama.Total p) j saved)
      as (x & saved' & Heq & Hsaved); rewrite Heq.
    eexists _, saved'; split; [reflexivity|].
    destruct Hsaved as [Hsame|Hnew]; [now left|right; eauto]. }
  destruct (ollama.keyIs "completed" key).
  { unfold ollama.field.
    destruct (int64Field_saves "completed" (ollama.Completed p) j saved)
      as (x & saved' & Heq & Hsaved); rewrite Heq.
    eexists _, saved'; split; [reflexivity|].
    destruct Hsaved as [Hsame|Hnew]; [now left|right; eauto]. }
  unfold ollama.skip; eauto.
Qed.

Lemma object_setPullProgress_saves (ms : list (string * ollama.json)) :
  forall (p : ollama.PullProgress) (saved : option ollama.error),
  exists p' saved',
    ollama.object ollama.setPullProgress ms p saved = inr (p', saved')
    /\ (saved' = saved \/ exists tag, saved' = Some (ollama.UnmarshalError tag)).
Proof.
  induction ms as [|[key j] ms IH]; intros p saved; cbn [ollama.object]; [eauto|].
  destruct (setPullProgress_saves key p j saved) as (p1 & saved1 & -> & Hsaved1).
  destruct (IH p1 saved1) as (p2 & saved2 & -> & Hsaved2).
  exists p2, saved2; split; [reflexivity|].
  destruct Hsaved2 as [->|Htag]; [exact Hsaved1|now right].
Qed.

Lemma decodePullProgress_error (j : ollama.json) (e : ollama.error) :
  ollama.decodePullProgress j = inl e -> exists tag, e = ollama.UnmarshalError tag.
Proof.
  unfold ollama.decodePullProgress, ollama.unmarshal, ollama.intoStruct, ollama.saveError.
  destruct j as [| | | | |ms]; try (intros [= <-]; eauto; fail); try discriminate.
  destruct (object_setPullProgress_saves ms ollama.zeroPullProgress None)
    as (p & saved & -> & [->|[tag ->]]); [discriminate|].
  intros [= <-]; eauto.
Qed.

Lemma failsWith_not_EOF (ch : ollama.chunk) (e : ollama.error) :
  failsWith ch e -> e <> ollama.EOF.
Proof.
  destruct ch as [j|]; unfold failsWith; [|intros ->; discriminate].
  intros H; destruct (decodePullProgress_error _ H) as [tag ->]; discriminate.
Qed.

(** C2 (as amended). [DeleteModel] sends one request, to [/api/delete] with
    the HTTP method DELETE and the name as JSON body; given a response it
    succeeds if and only if the status is 200 and fails with the status
    otherwise, and a transport error is returned as it is. *)
Theorem DeleteModel_contract :
  forall (validURL : string -> bool) (c : ollama.Client) (name : string)
         (sent : list ollama.Request),
    validURL (ollama.baseURL c ++ "/api/delete") = true ->
    let result := fst (ollama.DeleteModel validURL c name sent) in
    snd (ollama.DeleteModel validURL c name sent) = (sent ++ [deleteRequest c name])%list
    /\ ollama.Method (deleteRequest c name) = "DELETE"
    /\ (forall resp,
          ollama.Do c (deleteRequest c name) = inr resp ->
          (result = None <-> ollama.StatusCode resp = 200)
          /\ (ollama.StatusCode resp <> 200 ->
              result = Some (ollama.StatusError "delete request failed with status"
                                                (ollama.StatusCode resp))))
    /\ (forall err,
          ollama.Do c (deleteRequest c name) = inl err -> result = Some err).
Proof.
  intros validURL c name sent Hurl result; subst result.
  rewrite (@DeleteModel_sent validURL c name sent Hurl); cbn [fst snd].
  split; [reflexivity|split; [reflexivity|split]].
  - intros resp ->. unfold ollama.StatusOK.
    destruct (Z.eqb_spec (ollama.StatusCode resp) 200) as [Heq|Hne].
    + split; [tauto|contradiction].
    + split; [split; [discriminate|contradiction]|reflexivity].
  - now intros err ->.
Qed.

Lemma DeleteModel_contract_witness :
  ollama.DeleteModel anyURL (serverAnswering 200 []) "llama3.1:8b" []
  = (None, [deleteRequest (serverAnswering 200 []) "llama3.1:8b"])
  /\ fst (ollama.DeleteModel anyURL (serverAnswering 404 []) "llama3.1:8b" [])
     = Some (ollama.StatusError "delete request failed with status" 404).
Proof.
  destruct (@DeleteModel_contract anyURL (serverAnswering 200 []) "llama3.1:8b" [] eq_refl)
    as (Hsent & _ & Hresp & _).
  destruct (@DeleteModel_contract anyURL (serverAnswering 404 []) "llama3.1:8b" [] eq_refl)
    as (_ & _ & Hresp' & _).
  split.
  - apply injective_projections; cbn [fst snd].
    + apply (Hresp _ eq_refl); reflexivity.
    + exact Hsent.
  - apply (Hresp' _ eq_refl). discriminate.
Defined.

(** C2 (as stated) fails: the request of [DeleteModel] carries the method
    DELETE, not POST. *)
Lemma DeleteModel_does_not_POST :
  ~ deletesWithPOST anyURL (serverAnswering 200 []) "llama3.1:8b".
Proof. unfold deletesWithPOST; vm_compute; discriminate. Qed.

(** C3. When the response stream decodes to events none of which is the
    success marker, followed by an event whose status is ["success"],
    [PullModel] delivers to the sink exactly these events up to and
    including the success event, in order, returns no error, and leaves the
    rest of the stream undecoded. *)
Theorem PullModel_stops_at_success :
  forall (validURL : string -> bool) (c : ollama.Client) (S : Type)
         (callback : ollama.PullProgress -> S -> S)
         (name : string) (s : S) (sent : list ollama.Request)
         (resp : ollama.Response)
         (chunks : list ollama.chunk) (events : list ollama.PullProgress)
         (last : ollama.chunk) (success : ollama.PullProgress) (rest : list ollama.chunk),
    validURL (ollama.baseURL c ++ "/api/pull") = true ->
    ollama.Do c (pullRequest c name) = inr resp ->
    ollama.Body resp = (chunks ++ last :: rest)%list ->
    Forall2 decodesTo chunks events ->
    forallb (fun p => negb (isSuccess p)) events = true ->
    decodesTo last success ->
    ollama.Status success = "success" ->
    ollama.PullModel validURL c (Some callback) name s sent
    = ((None, deliver (Some callback) (events ++ [success]) s),
       (sent ++ [pullRequest c name])%list)
    /\ snd (ollama.readLoop (Some callback) (ollama.Body resp) s) = rest.
Proof.
  intros validURL c S callback name s sent resp chunks events last success rest
         Hurl Hdo Hbody Hevents Hnone Hlast Hsuccess.
  assert (Hloop : ollama.readLoop (Some callback) (ollama.Body resp) s
                  = (None, deliver (Some callback) (events ++ [success]) s, rest)).
  { rewrite Hbody, (@readLoop_through S (Some callback) chunks events Hevents Hnone).
    rewrite (@readLoop_event S (Some callback) last success rest _ Hlast).
    unfold isSuccess; rewrite Hsuccess, String.eqb_refl.
    now rewrite deliver_app. }
  split.
  - now rewrite (@PullModel_sent validURL c S (Some callback) name s sent Hurl), Hdo, Hloop.
  - now rewrite Hloop.
Qed.

Lemma PullModel_stops_at_success_witness :
  ollama.PullModel anyURL
    (serverAnswering 200
       [progressDoc "pulling manifest"; progressDoc "downloading";
        progressDoc "success"; progressDoc "late"; ollama.Malformed])
    (Some record) "llama3.1:8b" [] []
  = ((None, [progress "pulling manifest"; progress "downloading"; progress "success"]),
     [pullRequest (serverAnswering 200 []) "llama3.1:8b"]).
Proof.
  apply (@PullModel_stops_at_success anyURL
           (serverAnswering 200
              [progressDoc "pulling manifest"; progressDoc "downloading";
               progressDoc "success"; progressDoc "late"; ollama.Malformed])
           _ record "llama3.1:8b" [] []
           {| ollama.StatusCode := 200;
              ollama.Body := [progressDoc "pulling manifest"; progressDoc "downloading";
                              progressDoc "success"; progressDoc "late"; ollama.Malformed] |}
           [progressDoc "pulling manifest"; progressDoc "downloading"]
           [progress "pulling manifest"; progress "downloading"]
           (progressDoc "success") (progress "success")
           [progressDoc "late"; ollama.Malformed]).
  - reflexivity.
  - reflexivity.
  - reflexivity.
  - repeat constructor.
  - reflexivity.
  - reflexivity.
  - reflexivity.
Defined.

(** C4. The read loop of [PullModel] on a stream without success marker:
    if the stream ends after events none of which is the success marker,
    all of them are delivered and [PullModel] returns no error; if a
    chunk fails to decode with an error other than the end of the stream,
    [PullModel] returns that error at once, wrapped as a decode error, and
    the sink has received the events before the chunk and nothing else. *)
Theorem PullModel_read_loop_errors :
  forall (validURL : string -> bool) (c : ollama.Client) (S : Type)
         (callback : option (ollama.PullProgress -> S -> S))
         (name : string) (s : S) (sent : list ollama.Request)
         (resp : ollama.Response)
         (chunks : list ollama.chunk) (events : list ollama.PullProgress),
    validURL (ollama.baseURL c ++ "/api/pull") = true ->
    ollama.Do c (pullRequest c name) = inr resp ->
    Forall2 decodesTo chunks events ->
    forallb (fun p => negb (isSuccess p)) events = true ->
    (ollama.Body resp = chunks ->
     fst (ollama.PullModel validURL c callback name s sent)
     = (None, deliver callback events s))
    /\ (forall (bad : ollama.chunk) (e : ollama.error) (rest : list ollama.chunk),
          ollama.Body resp = (chunks ++ bad :: rest)%list ->
          failsWith bad e ->
          fst (ollama.PullModel validURL c callback name s sent)
          = (Some (ollama.Wrapped "failed to decode progress" e),
             deliver callback events s)).
Proof.
  intros validURL c S callback name s sent resp chunks events Hurl Hdo Hevents Hnone.
  rewrite (@PullModel_sent validURL c S callback name s sent Hurl), Hdo; cbn [fst].
  split.
  - intros Hbody. rewrite Hbody, <- (app_nil_r chunks).
    now rewrite (@readLoop_through S callback chunks events Hevents Hnone).
  - intros bad e rest Hbody Hbad.
    rewrite Hbody, (@readLoop_through S callback chunks events Hevents Hnone).
    now apply readLoop_failure.
Qed.

Lemma PullModel_read_loop_errors_witness :
  fst (ollama.PullModel anyURL
         (serverAnswering 200 [progressDoc "pulling manifest"; progressDoc "downloading"])
         (Some record) "llama3.1:8b" [] [])
  = (None, [progress "pulling manifest"; progress "downloading"])
  /\ fst (ollama.PullModel anyURL
            (serverAnswering 200
               [progressDoc "pulling manifest"; ollama.Malformed; progressDoc "success"])
            (Some record) "llama3.1:8b" [] [])
     = (Some (ollama.Wrapped "failed to decode progress" ollama.SyntaxError),
        [progress "pulling manifest"]).
Proof.
  split.
  - apply (@PullModel_read_loop_errors anyURL
             (serverAnswering 200 [progressDoc "pulling manifest"; progressDoc "downloading"])
             _ (Some record) "llama3.1:8b" [] []
             {| ollama.StatusCode := 200;
                ollama.Body := [progressDoc "pulling manifest"; progressDoc "downloading"] |}
             [progressDoc "pulling manifest"; progressDoc "downloading"]
             [progress "pulling manifest"; progress "downloading"]
             eq_refl eq_refl);
      [repeat constructor | reflexivity | reflexivity].
  - apply (@PullModel_read_loop_errors anyURL
             (serverAnswering 200
                [progressDoc "pulling manifest"; ollama.Malformed; progressDoc "success"])
             _ (Some record) "llama3.1:8b" [] []
             {| ollama.StatusCode := 200;
                ollama.Body := [progressDoc "pulling manifest"; ollama.Malformed;
                                progressDoc "success"] |}
             [progressDoc "pulling manifest"] [progress "pulling manifest"]
             eq_refl eq_refl)
      with (bad := ollama.Malformed) (rest := [progressDoc "success"]);
      [repeat constructor | reflexivity | reflexivity | reflexivity].
Defined.

(** C10. [ListModels] and [Generate] do not look at the status code: given
    any response, whatever its status, they return what its body decodes
    to, so a 500 response with body {} makes [ListModels] return the empty
    list without error; [Health] and [DeleteModel] fail on every status
    other than 200. *)
Theorem status_ignored_by_ListModels_and_Generate :
  forall (Time : Type) (zeroTime : Time) (parseRFC3339 : string -> option Time)
         (validURL : string -> bool) (c : ollama.Client) (sent : list ollama.Request)
         (status : Z) (body : list ollama.chunk),
    (forall path, validURL (ollama.baseURL c ++ path) = true) ->
    (forall req, ollama.Do c req
                 = inr {| ollama.StatusCode := status; ollama.Body := body |}) ->
    (forall models,
        fst (ollama.Decode (ollama.decodeListModelsResponse zeroTime parseRFC3339) body)
        = inr models ->
        fst (ollama.ListModels zeroTime parseRFC3339 validURL c sent) = inr models)
    /\ (forall model prompt options genResp,
           fst (ollama.Decode (ollama.decodeGenerateResponse zeroTime parseRFC3339) body)
           = inr genResp ->
           fst (ollama.Generate zeroTime parseRFC3339 validURL c model prompt options sent)
           = inr genResp)
    /\ (body = [ollama.Doc (ollama.JObject [])] ->
        fst (ollama.ListModels zeroTime parseRFC3339 validURL c sent) = inr [])
    /\ (status <> 200 ->
        fst (ollama.Health validURL c sent)
        = Some (ollama.StatusError "health check failed with status" status)
        /\ forall name,
            fst (ollama.DeleteModel validURL c name sent)
            = Some (ollama.StatusError "delete request failed with status" status)).
Proof.
  intros Time zeroTime parseRFC3339 validURL c sent status body Hurl Hdo.
  assert (Hlist : forall models,
             fst (ollama.Decode (ollama.decodeListModelsResponse zeroTime parseRFC3339) body)
             = inr models ->
             fst (ollama.ListModels zeroTime parseRFC3339 validURL c sent) = inr models).
  { intros models Hdec.
    rewrite (@ListModels_sent validURL c Time zeroTime parseRFC3339 sent (Hurl _)), Hdo; cbn [fst ollama.Body].
    now rewrite Hdec. }
  split; [exact Hlist|split; [|split]].
  - intros model prompt options genResp Hdec.
    rewrite (@Generate_sent validURL c Time zeroTime parseRFC3339 model prompt options sent (Hurl _)), Hdo;
      cbn [fst ollama.Body].
    now rewrite Hdec.
  - intros ->. now apply Hlist.
  - intros Hstatus.
    assert (Hne : (status =? ollama.StatusOK) = false)
      by (apply Z.eqb_neq; exact Hstatus).
    split.
    + rewrite (@Health_sent validURL c sent (Hurl _)), Hdo; cbn [fst ollama.StatusCode].
      now rewrite Hne.
    + intros name.
      rewrite (@DeleteModel_sent validURL c name sent (Hurl _)), Hdo; cbn [fst ollama.StatusCode].
      now rewrite Hne.
Qed.

Lemma status_ignored_by_ListModels_and_Generate_witness :
  fst (ollama.ListModels "" textTime anyURL
         (serverAnswering 500 [ollama.Doc (ollama.JObject [])]) [])
  = inr []
  /\ fst (ollama.Generate "" textTime anyURL
            (serverAnswering 500 [ollama.Doc (ollama.JObject [])]) "llama3.1:8b" "hi" [] [])
     = inr (ollama.zeroGenerateResponse "")
  /\ fst (ollama.Health anyURL (serverAnswering 500 [ollama.Doc (ollama.JObject [])]) [])
     = Some (ollama.StatusError "health check failed with status" 500)
  /\ fst (ollama.DeleteModel anyURL
            (serverAnswering 500 [ollama.Doc (ollama.JObject [])]) "llama3.1:8b" [])
     = Some (ollama.StatusError "delete request failed with status" 500).
Proof.
  destruct (@status_ignored_by_ListModels_and_Generate
              string "" textTime anyURL
              (serverAnswering 500 [ollama.Doc (ollama.JObject [])]) []
              500 [ollama.Doc (ollama.JObject [])]
              (fun _ => eq_refl) (fun _ => eq_refl))
    as (_ & Hgen & Hlist & Hstatus).
  split; [exact (Hlist eq_refl)|].
  split; [exact (Hgen "llama3.1:8b" "hi" [] _ eq_refl)|].
  destruct Hstatus as [Hhealth Hdelete]; [discriminate|].
  split; [exact Hhealth|exact (Hdelete "llama3.1:8b")].
Defined.

(* ================================================================== *)
(** * Further properties of the hardware prober                       *)
(* ================================================================== *)

Lemma GetSystemInfo_error (os : system.OS) : snd (system.GetSystemInfo os) = None.
Proof.
  unfold system.GetSystemInfo.
  destruct (system.checkNVIDIAGPU os) as [[[] ?] ?];
    destruct (system.checkAMDGPU os) as [[[] ?] ?]; reflexivity.
Qed.

Lemma requirements_iff (os : system.OS) (info : system.SystemInfo) :
  snd (system.validateRequirements os info) = None <-> meetsRequirements info.
Proof.
  revert os info.
  intros os info; unfold meetsRequirements, system.validateRequirements, system.violations.
  cbn [snd].
  destruct (system.HasDocker info), (system.HasNVIDIA info), (system.HasAMDGPU info);
    destruct (Z.ltb_spec (system.GPUMemory info) 6144) as [Hg|Hg];
    destruct (Z.ltb_spec (system.SystemMemory info) 8192) as [Hs|Hs];
    cbn;
    (split;
     [ intros Hx; first [discriminate Hx | repeat split; auto; lia]
     | intros (Hd' & Hv' & Hg' & Hs');
       first [ reflexivity | discriminate Hd' | lia
             | destruct Hv' as [Hv'|Hv']; discriminate Hv' ] ]).
Qed.

(** X1. [validateRequirements] returns a nil error exactly when the
    container runtime is present, a GPU of either vendor was detected, the
    GPU has at least 6144 MB and the system at least 8192 MB; the host and
    the accelerator stack play no part. *)
Theorem validateRequirements_accepts_iff :
  forall (os : system.OS) (info : system.SystemInfo),
    snd (system.validateRequirements os info) = None <-> meetsRequirements info.
Proof. exact requirements_iff. Qed.

Lemma validateRequirements_accepts_iff_witness :
  snd (system.validateRequirements goodHost (fst (system.GetSystemInfo goodHost))) = None
  /\ snd (system.validateRequirements deadHost (fst (system.GetSystemInfo deadHost))) <> None.
Proof.
  split.
  - apply (proj2 (validateRequirements_accepts_iff goodHost
                    (fst (system.GetSystemInfo goodHost)))).
    vm_compute. repeat split; solve [auto | discriminate].
  - intros H.
    apply (proj1 (validateRequirements_accepts_iff deadHost
                    (fst (system.GetSystemInfo deadHost)))) in H.
    destruct H as (Hdocker & _). vm_compute in Hdocker. discriminate.
Defined.

Lemma vendor_of_profile (os : system.OS) :
    let info := fst (system.GetSystemInfo os) in
    system.HasNVIDIA info = fst (fst (system.checkNVIDIAGPU os))
    /\ system.HasAMDGPU info = fst (fst (system.checkAMDGPU os))
    /\ (system.GPUType info, system.GPUModel info, system.GPUMemory info)
       = (if system.HasNVIDIA info
          then ("nvidia", snd (fst (system.checkNVIDIAGPU os)), snd (system.checkNVIDIAGPU os))
          else if system.HasAMDGPU info
               then ("amd", snd (fst (system.checkAMDGPU os)), snd (system.checkAMDGPU os))
               else ("unknown", "", 0)).
Proof.
  unfold system.GetSystemInfo.
  destruct (system.checkNVIDIAGPU os) as [[[] ?] ?];
    destruct (system.checkAMDGPU os) as [[[] ?] ?]; cbn; auto.
Qed.

(** X2. The profile [GetSystemInfo] builds is consistent: the vendor is
    "nvidia" whenever an NVIDIA card was detected (also next to an AMD
    card), "amd" when only an AMD card was, "unknown" otherwise; model and
    memory are those of the check of that vendor, and are empty and 0 for
    "unknown". *)
Theorem GetSystemInfo_vendor :
  forall os : system.OS,
    let info := fst (system.GetSystemInfo os) in
    system.HasNVIDIA info = fst (fst (system.checkNVIDIAGPU os))
    /\ system.HasAMDGPU info = fst (fst (system.checkAMDGPU os))
    /\ (system.GPUType info, system.GPUModel info, system.GPUMemory info)
       = (if system.HasNVIDIA info
          then ("nvidia", snd (fst (system.checkNVIDIAGPU os)), snd (system.checkNVIDIAGPU os))
          else if system.HasAMDGPU info
               then ("amd", snd (fst (system.checkAMDGPU os)), snd (system.checkAMDGPU os))
               else ("unknown", "", 0)).
Proof. exact vendor_of_profile. Qed.

(** X3. The scan of the [lspci -v] lines detects a card exactly when some
    line has the VGA marker and matches the vendor pattern, and then
    reports the first such line: its model, and the memory found in the 19
    lines after it; later cards are not looked at. *)
Theorem scanGPU_first_match :
  forall (re : string -> bool) (before : list string),
    forallb (fun l => negb (isVGA re l)) before = true ->
    system.scanGPU re before = (false, "", 0)
    /\ forall (line : string) (after : list string),
        isVGA re line = true ->
        system.scanGPU re (before ++ line :: after)
        = (true, system.modelOf line, system.scanMemory (firstn 19 after)).
Proof.
  intros re before; induction before as [|l before IH]; intros Hnone.
  - split; [reflexivity|]. intros line after Hline.
    cbn [app system.scanGPU]. unfold isVGA in Hline. now rewrite Hline.
  - cbn [forallb] in Hnone. apply andb_prop in Hnone as [Hl Hrest].
    apply negb_true_iff in Hl. unfold isVGA in Hl.
    destruct (IH Hrest) as [IH0 IH1].
    split.
    + cbn [system.scanGPU]. now rewrite Hl.
    + intros line after Hline.
      change ((l :: before) ++ line :: after)%list with (l :: (before ++ line :: after))%list.
      cbn [system.scanGPU]. rewrite Hl. now apply IH1.
Qed.

Lemma scanGPU_first_match_witness :
  system.scanGPU regexp.amdRegex_MatchString
    ["00:02.0 VGA compatible controller: Intel Corporation UHD Graphics 630";
     "01:00.0 VGA compatible controller: Advanced Micro Devices, Inc. [AMD/ATI] Ellesmere [Radeon RX 580]";
     "	Memory: 8GB";
     "02:00.0 VGA compatible controller: Advanced Micro Devices, Inc. [AMD/ATI] Polaris [Radeon RX 560]"]
  = (true, "Advanced Micro Devices, Inc. [AMD/ATI] Ellesmere [Radeon RX 580]", 8192).
Proof.
  apply (proj2 (@scanGPU_first_match regexp.amdRegex_MatchString
                  ["00:02.0 VGA compatible controller: Intel Corporation UHD Graphics 630"]
                  ltac:(vm_compute; reflexivity))
               "01:00.0 VGA compatible controller: Advanced Micro Devices, Inc. [AMD/ATI] Ellesmere [Radeon RX 580]"
               ["	Memory: 8GB";
                "02:00.0 VGA compatible controller: Advanced Micro Devices, Inc. [AMD/ATI] Polaris [Radeon RX 560]"]).
  vm_compute; reflexivity.
Defined.

(** X4. The memory scan after the VGA line takes the first size it finds
    and ends at the first blank line: after lines that are neither blank
    nor give a size, a blank line yields 0 whatever follows, and a line
    with a size yields that size, multiplied by 1024 (in 64 bits) when the
    unit is exactly [G]. *)
Theorem scanMemory_first_size :
  forall before : list string,
    forallb (fun l => negb (isBlank l)
                      && negb (isSome (regexp.memRegex_FindStringSubmatch l))) before = true ->
    system.scanMemory before = 0
    /\ forall (line : string) (after : list string),
        (isBlank line = true -> system.scanMemory (before ++ line :: after) = 0)
        /\ (forall digits unit,
               isBlank line = false ->
               regexp.memRegex_FindStringSubmatch line = Some (digits, unit) ->
               system.scanMemory (before ++ line :: after)
               = if (unit =? "G")%string
                 then wrap64 (fst (strconv.Atoi digits) * 1024)
                 else fst (strconv.Atoi digits)).
Proof.
  intros before; induction before as [|l before IH]; intros Hbefore.
  - split; [reflexivity|]. intros line after; split.
    + unfold isBlank; intros Hblank. cbn [app system.scanMemory]. now rewrite Hblank.
    + unfold isBlank; intros digits unit Hblank Hsize.
      cbn [app system.scanMemory]. now rewrite Hblank, Hsize.
  - cbn [forallb] in Hbefore. apply andb_prop in Hbefore as [Hl Hrest].
    apply andb_prop in Hl as [Hblank Hsize].
    apply negb_true_iff in Hblank. apply negb_true_iff in Hsize.
    unfold isBlank in Hblank.
    destruct (regexp.memRegex_FindStringSubmatch l) as [m|] eqn:Hm; [discriminate|].
    destruct (IH Hrest) as [IH0 IH1].
    split.
    + cbn [system.scanMemory]. now rewrite Hblank, Hm.
    + intros line after.
      change ((l :: before) ++ line :: after)%list with (l :: (before ++ line :: after))%list.
      cbn [system.scanMemory]. rewrite Hblank, Hm. apply IH1.
Qed.

Lemma scanMemory_first_size_witness :
  system.scanMemory ["	Subsystem: Sapphire"; "	Memory: 8GB"; "	Memory: 4096MB"] = 8192
  /\ system.scanMemory ["	Subsystem: Sapphire"; ""; "	Memory: 8GB"] = 0.
Proof.
  destruct (@scanMemory_first_size ["	Subsystem: Sapphire"] ltac:(vm_compute; reflexivity))
    as [_ H].
  split.
  - apply (proj2 (H "	Memory: 8GB" ["	Memory: 4096MB"]) "8" "G");
      vm_compute; reflexivity.
  - apply (proj1 (H "" ["	Memory: 8GB"])); vm_compute; reflexivity.
Defined.

(** X5. When [lspci -v] shows an NVIDIA card without a memory size and
    [nvidia-smi] fails or prints no integer, the profile is that of the
    card with the default of 8192 MB. *)
Theorem GetSystemInfo_nvidia_default :
  forall (os : system.OS) (output model : string),
    system.Output os "lspci" ["-v"] = Some output ->
    system.scanGPU regexp.nvidiaRegex_MatchString (strings.Split output LF) = (true, model, 0) ->
    smiGivesNothing os ->
    let info := fst (system.GetSystemInfo os) in
    system.HasNVIDIA info = true
    /\ system.GPUType info = "nvidia"
    /\ system.GPUModel info = model
    /\ system.GPUMemory info = 8192.
Proof.
  intros os output model Hlspci Hscan Hsmi.
  assert (Hcheck : system.checkNVIDIAGPU os = (true, model, 8192)).
  { unfold system.checkNVIDIAGPU; rewrite Hlspci, Hscan; cbn [andb Z.eqb].
    unfold system.getNVIDIAMemoryFromSMI; unfold smiGivesNothing in Hsmi.
    destruct (system.Output os "nvidia-smi" _) as [out|]; [|reflexivity].
    destruct (strconv.Atoi (strings.TrimSpace out)) as [mem [e|]]; [reflexivity|].
    now elim Hsmi. }
  cbv zeta. unfold system.GetSystemInfo; rewrite Hcheck.
  destruct (system.checkAMDGPU os) as [[? ?] ?]; cbn; auto.
Qed.

Lemma GetSystemInfo_nvidia_default_witness :
  system.GPUType (fst (system.GetSystemInfo nvidiaHostNoSMI)) = "nvidia"
  /\ system.GPUMemory (fst (system.GetSystemInfo nvidiaHostNoSMI)) = 8192.
Proof.
  destruct (@GetSystemInfo_nvidia_default nvidiaHostNoSMI lspciRTX3070
              "NVIDIA Corporation GA104 [GeForce RTX 3070] (rev a1)"
              eq_refl ltac:(vm_compute; reflexivity) I)
    as (_ & Htype & _ & Hmem).
  split; assumption.
Defined.

(** X6. [getSystemMemory] reports the first of the lines it reads from
    [/proc/meminfo] that starts with [MemTotal:] and has an integer second
    field, divided by 1024; without such a line, or without the file, it
    reports 0.  It reads the lines of fewer than 65536 bytes up to the
    first longer one: what follows such a line changes nothing. *)
Theorem getSystemMemory_first_MemTotal :
  forall (os : system.OS),
    (system.ReadFile os "/proc/meminfo" = None -> system.getSystemMemory os = 0)
    /\ (forall (content : string) (before : list string),
          system.ReadFile os "/proc/meminfo" = Some content ->
          forallb (fun l => negb (isSome (memTotalKB l))) before = true ->
          (bufio.ScanLines content = before -> system.getSystemMemory os = 0)
          /\ (forall line after kb,
                 bufio.ScanLines content = (before ++ line :: after)%list ->
                 memTotalKB line = Some kb ->
                 system.getSystemMemory os = Z.quot kb 1024))
    /\ (forall (before : list string) (long rest : string),
          system.ReadFile os "/proc/meminfo"
          = Some (unlines before ++ long ++ LF ++ rest) ->
          forallb oneLine before = true ->
          overlong long = true ->
          system.getSystemMemory os
          = system.getSystemMemory (meminfoOnly (unlines before))).
Proof.
  intros os; split; [|split].
  - intros H; unfold system.getSystemMemory; now rewrite H.
  - intros content before Hread Hbefore.
    unfold system.getSystemMemory; rewrite Hread.
    assert (Hskip : forall rest,
               system.memTotalOf (before ++ rest) = system.memTotalOf rest).
    { induction before as [|l before IH]; intros rest; [reflexivity|].
      cbn [forallb] in Hbefore. apply andb_prop in Hbefore as [Hl Hrest].
      apply negb_true_iff in Hl. unfold memTotalKB in Hl.
      change ((l :: before) ++ rest)%list with (l :: (before ++ rest))%list.
      cbn [system.memTotalOf].
      destruct (strings.HasPrefix l "MemTotal:"); [|now apply IH].
      destruct (strings.Fields l) as [|f0 [|f1 fs]]; try now apply IH.
      destruct (strconv.Atoi f1) as [kb [e|]]; [now apply IH|discriminate]. }
    split.
    + intros ->. rewrite <- (app_nil_r before). now rewrite Hskip.
    + intros line after kb -> Hline. rewrite Hskip.
      unfold memTotalKB in Hline. cbn [system.memTotalOf].
      destruct (strings.HasPrefix line "MemTotal:"); [|discriminate].
      destruct (strings.Fields line) as [|f0 [|f1 fs]]; try discriminate.
      destruct (strconv.Atoi f1) as [k [e|]]; [discriminate|].
      now injection Hline as ->.
  - intros before long rest Hread Hbefore Hlong.
    unfold system.getSystemMemory; rewrite Hread.
    change (system.ReadFile (meminfoOnly (unlines before)) "/proc/meminfo")
      with (Some (unlines before)).
    now rewrite (ScanLines_stops before long rest Hbefore Hlong).
Qed.

Lemma getSystemMemory_first_MemTotal_witness :
  system.getSystemMemory goodHost = 16000
  /\ system.getSystemMemory (meminfoOnly longMeminfo) = 0.
Proof.
  split.
  - destruct (getSystemMemory_first_MemTotal goodHost) as (_ & H & _).
    destruct (H ("MemTotal:       16384000 kB" ++ LF ++ "MemFree:         1024000 kB" ++ LF)
                [] eq_refl eq_refl) as [_ Hline].
    apply (Hline "MemTotal:       16384000 kB" ["MemFree:         1024000 kB"] 16384000);
      vm_compute; reflexivity.
  - destruct (getSystemMemory_first_MemTotal (meminfoOnly longMeminfo)) as (_ & _ & H).
    rewrite (H [] (filler (Z.to_nat bufio.MaxScanTokenSize))
               ("MemTotal:        4194304 kB" ++ LF)
               eq_refl eq_refl ltac:(vm_compute; reflexivity)).
    reflexivity.
Defined.

Lemma CheckAll_error (os : system.OS) :
  snd (checker.CheckAll os)
  = snd (system.validateRequirements os (fst (system.GetSystemInfo os))).
Proof.
  pose proof (GetSystemInfo_error os) as Herr. unfold checker.CheckAll.
  destruct (system.GetSystemInfo os) as [info err]; cbn [fst snd] in *; subst err.
  now destruct (system.validateRequirements os info) as [warned [e|]].
Qed.

(** X7. [CheckAll] returns the error of the validation of the probed
    profile, hence nil exactly when the profile meets the four
    requirements; it never fails to get the system information.  Its log
    is that of the probe, which is two warnings that lspci could not be
    run when it could not and nothing otherwise, then the warnings of the
    validation, then the system information when it succeeds and nothing
    more when it fails. *)
Theorem CheckAll_outcome :
  forall os : system.OS,
    let info := fst (system.GetSystemInfo os) in
    let probed :=
      match system.Output os "lspci" ["-v"] with
      | None => [logrus.Warnf "Failed to run lspci: %v" [logrus.ExecErr "lspci" ["-v"]];
                 logrus.Warnf "Failed to run lspci: %v" [logrus.ExecErr "lspci" ["-v"]]]
      | Some _ => []
      end in
    let warned := map logrus.Warn (fst (system.validateRequirements os info)) in
    (snd (checker.CheckAll os) = None <-> meetsRequirements info)
    /\ snd (checker.CheckAll os) = snd (system.validateRequirements os info)
    /\ fst (checker.CheckAll os)
       = match snd (checker.CheckAll os) with
         | None => (probed ++ warned ++ checker.printSystemInfo info)%list
         | Some _ => (probed ++ warned)%list
         end.
Proof.
  intros os info probed warned; subst info probed warned.
  pose proof (GetSystemInfo_error os) as Herr.
  pose proof (requirements_iff os (fst (system.GetSystemInfo os))) as Hiff.
  unfold checker.CheckAll, checker.GetSystemInfoLog, checker.lspciLog.
  destruct (system.GetSystemInfo os) as [info err]; cbn [fst snd] in *; subst err.
  destruct (system.validateRequirements os info) as [warned [e|]]; cbn [fst snd] in *;
    (split; [exact Hiff | split; [reflexivity|]]);
    destruct (system.Output os "lspci" ["-v"]); reflexivity.
Qed.

Lemma CheckAll_outcome_witness :
  (snd (checker.CheckAll goodHost) = None
   /\ fst (checker.CheckAll goodHost)
      = (map logrus.Warn
             (fst (system.validateRequirements goodHost (fst (system.GetSystemInfo goodHost))))
         ++ checker.printSystemInfo (fst (system.GetSystemInfo goodHost)))%list)
  /\ (snd (checker.CheckAll deadHost) <> None
      /\ fst (checker.CheckAll deadHost)
         = [logrus.Warnf "Failed to run lspci: %v" [logrus.ExecErr "lspci" ["-v"]];
            logrus.Warnf "Failed to run lspci: %v" [logrus.ExecErr "lspci" ["-v"]]]).
Proof.
  split.
  - destruct (CheckAll_outcome goodHost) as (Hiff & _ & Hlog).
    assert (Hnone : snd (checker.CheckAll goodHost) = None).
    { apply (proj2 Hiff). vm_compute. repeat split; solve [auto | discriminate]. }
    split; [exact Hnone|]. rewrite Hlog, Hnone. reflexivity.
  - destruct (CheckAll_outcome deadHost) as (_ & Herr & Hlog).
    assert (Hsome : snd (checker.CheckAll deadHost) <> None)
      by (rewrite Herr; vm_compute; discriminate).
    split; [exact Hsome|]. rewrite Hlog.
    destruct (snd (checker.CheckAll deadHost)); [|now elim Hsome].
    vm_compute; reflexivity.
Defined.

(** X8. On every host where no supported GPU is detected the reported GPU
    memory is 0, so the validation lists both the missing GPU and the GPU
    memory floor, and [CheckAll] fails. *)
Theorem CheckAll_without_GPU :
  forall os : system.OS,
    let info := fst (system.GetSystemInfo os) in
    system.HasNVIDIA info = false ->
    system.HasAMDGPU info = false ->
    system.GPUMemory info = 0
    /\ In "No supported GPU detected (NVIDIA or AMD)" (system.violations info)
    /\ In "GPU memory (0MB) is below recommended minimum (6GB)" (system.violations info)
    /\ snd (checker.CheckAll os) <> None.
Proof.
  intros os info Hnv Hamd.
  destruct (vendor_of_profile os) as (_ & _ & Htriple).
  fold info in Htriple. rewrite Hnv, Hamd in Htriple.
  injection Htriple as _ _ Hmem.
  split; [exact Hmem|].
  assert (Hvendor : In "No supported GPU detected (NVIDIA or AMD)" (system.violations info)).
  { unfold system.violations; rewrite Hnv, Hamd; cbn [negb andb].
    apply in_or_app; right. apply in_or_app; left. now left. }
  assert (Hfloor : In "GPU memory (0MB) is below recommended minimum (6GB)"
                      (system.violations info)).
  { unfold system.violations; rewrite Hmem.
    apply in_or_app; right. apply in_or_app; right. apply in_or_app; left. now left. }
  repeat split; [exact Hvendor|exact Hfloor|].
  rewrite CheckAll_error. fold info.
  intros Hnone. apply requirements_iff in Hnone.
  destruct Hnone as (_ & [H|H] & _); congruence.
Qed.

Lemma CheckAll_without_GPU_witness :
  system.GPUMemory (fst (system.GetSystemInfo deadHost)) = 0
  /\ snd (checker.CheckAll deadHost) <> None.
Proof.
  destruct (CheckAll_without_GPU deadHost eq_refl eq_refl) as (Hmem & _ & _ & Hfail).
  split; assumption.
Defined.

(* ================================================================== *)
(** * Further properties of the metrics sampler                       *)
(* ================================================================== *)

Section SampleProps.

Import monitor.

Variable ParseFloat : string -> option float64.
Variable host : Host.

Lemma GetPerformanceMetrics_cpu :
  CPUUsage (GetPerformanceMetrics ParseFloat host)
  = if isSome (snd (getCPUUsage host)) then Fin 0 else fst (getCPUUsage host).
Proof.
  unfold GetPerformanceMetrics.
  destruct (getCPUUsage host) as [cpu cpuErr].
  destruct (getMemoryUsage host) as [[memUsed memTotal] memErr].
  destruct (getAMDGPUUsage ParseFloat host) as [[usage used] total].
  reflexivity.
Qed.

Lemma GetPerformanceMetrics_memory :
  let m := GetPerformanceMetrics ParseFloat host in
  let '(memUsed, memTotal, memErr) := getMemoryUsage host in
  MemoryUsedMB m = (if isSome memErr then 0 else memUsed)
  /\ MemoryTotalMB m = (if isSome memErr then 0 else memTotal)
  /\ MemoryUsagePercent m
     = (if negb (isSome memErr) && (memTotal >? 0)
        then Fin (inject_Z memUsed / inject_Z memTotal * 100)%Q else Fin 0).
Proof.
  unfold GetPerformanceMetrics.
  destruct (getCPUUsage host) as [cpu cpuErr].
  destruct (getMemoryUsage host) as [[memUsed memTotal] memErr].
  destruct (getAMDGPUUsage ParseFloat host) as [[usage used] total].
  destruct memErr; cbn; auto.
Qed.

Lemma sumFields_bad (fs : list string) :
  Exists (fun f => snd (strconv.ParseUint f) <> None) fs ->
  forall i total idle, exists e, sumFields i fs total idle = inl e.
Proof.
  induction fs as [|f fs IH]; intros Hbad i total idle.
  - inversion Hbad.
  - cbn [sumFields].
    destruct (strconv.ParseUint f) as [val [e|]] eqn:Hf; [now exists e|].
    inversion Hbad as [? ? Hhead|? ? Htail]; subst.
    + rewrite Hf in Hhead. now elim Hhead.
    + now apply IH.
Qed.

Lemma cpuUsageOfLine_bad (line : string) :
  badStatLine line -> fst (cpuUsageOfLine line) = Fin 0.
Proof.
  unfold cpuUsageOfLine; intros Hbad.
  destruct ((List.length (strings.Fields line) <? 8)%nat
            || negb (hd "" (strings.Fields line) =? "cpu")%string)%bool eqn:Hguard;
    [reflexivity|].
  apply orb_false_elim in Hguard as [Hlen Hmarker].
  apply Nat.ltb_ge in Hlen. apply negb_false_iff, String.eqb_eq in Hmarker.
  destruct Hbad as [Hshort | [Hother | Hfield]]; [lia | contradiction |].
  destruct (sumFields_bad Hfield 1 0 0) as [e ->]. reflexivity.
Qed.

Lemma cpuUsageOfLine_silent (line : string) :
  (List.length (strings.Fields line) < 8)%nat \/ hd "" (strings.Fields line) <> "cpu" ->
  cpuUsageOfLine line = (Fin 0, None).
Proof.
  unfold cpuUsageOfLine; intros Hbad.
  destruct ((List.length (strings.Fields line) <? 8)%nat
            || negb (hd "" (strings.Fields line) =? "cpu")%string)%bool eqn:Hguard;
    [reflexivity|].
  apply orb_false_elim in Hguard as [Hlen Hmarker].
  apply Nat.ltb_ge in Hlen. apply negb_false_iff, String.eqb_eq in Hmarker.
  destruct Hbad; [lia | contradiction].
Qed.

(** What one line of [/proc/meminfo] does to the four figures. *)
Lemma memStep_fields (m : meminfo) (line : string) :
  let pick key old := match memValue key line with Some v => v | None => old end in
  memStep m line
  = {| memTotal := pick "MemTotal" (memTotal m);
       memFree := pick "MemFree" (memFree m);
       memBuffers := pick "Buffers" (memBuffers m);
       memCached := pick "Cached" (memCached m) |}.
Proof.
  unfold memStep, memValue; destruct m as [t f b c]; cbn [memTotal memFree memBuffers memCached].
  destruct (strings.Fields line) as [|f0 [|f1 fs]]; try reflexivity.
  generalize (strings.TrimSuffix f0 ":"); intros key.
  destruct (strconv.Atoi f1) as [value [e|]].
  - destruct (key =? "MemTotal")%string, (key =? "MemFree")%string,
      (key =? "Buffers")%string, (key =? "Cached")%string; reflexivity.
  - destruct (String.eqb_spec key "MemTotal") as [->|_]; [reflexivity|].
    destruct (String.eqb_spec key "MemFree") as [->|_]; [reflexivity|].
    destruct (String.eqb_spec key "Buffers") as [->|_]; [reflexivity|].
    destruct (String.eqb_spec key "Cached") as [->|_]; reflexivity.
Qed.

Lemma fold_memStep (lines : list string) :
  forall m,
    fold_left memStep lines m
    = {| memTotal := valueAfter "MemTotal" lines (memTotal m);
         memFree := valueAfter "MemFree" lines (memFree m);
         memBuffers := valueAfter "Buffers" lines (memBuffers m);
         memCached := valueAfter "Cached" lines (memCached m) |}.
Proof.
  induction lines as [|line lines IH]; intros m.
  - now destruct m.
  - cbn [fold_left]. rewrite IH, memStep_fields. reflexivity.
Qed.

Lemma getMemoryUsage_lastValue (content : string) :
  ReadFile host "/proc/meminfo" = Some content ->
  let lines := bufio.ScanLines content in
  getMemoryUsage host
  = (lastValue "MemTotal" lines - lastValue "MemFree" lines
     - lastValue "Buffers" lines - lastValue "Cached" lines,
     lastValue "MemTotal" lines, None).
Proof.
  intros Hread; unfold getMemoryUsage; rewrite Hread, fold_memStep. reflexivity.
Qed.

Lemma firstUsage_missing (paths : list string) :
  Forall (busyMissing ParseFloat host) paths ->
  firstUsage ParseFloat host paths = Fin (-1).
Proof.
  induction 1 as [|p rest Hp _ IH]; [reflexivity|].
  cbn [firstUsage]. unfold busyMissing in Hp.
  destruct (ReadFile host p) as [data|]; [|exact IH].
  now rewrite Hp.
Qed.

Lemma firstUsage_reads (before after : list string) (path : string) (u : float64) :
  Forall (busyMissing ParseFloat host) before ->
  busyReads ParseFloat host path u ->
  firstUsage ParseFloat host (before ++ path :: after) = u.
Proof.
  intros Hbefore (data & Hread & Hparse).
  induction Hbefore as [|p rest Hp _ IH].
  - cbn [app firstUsage]. now rewrite Hread, Hparse.
  - change ((p :: rest) ++ path :: after)%list with (p :: (rest ++ path :: after))%list.
    cbn [firstUsage]. unfold busyMissing in Hp.
    destruct (ReadFile host p) as [d|]; [|exact IH].
    now rewrite Hp.
Qed.

End SampleProps.

Lemma ratio_between_0_and_100 (total idle : Z) :
  0 <= idle <= total -> 0 < total ->
  (0 <= inject_Z (total - idle) / inject_Z total * 100 <= 100)%Q.
Proof.
  intros Hidle Htotal.
  assert (Hpos : (0 < inject_Z total)%Q)
    by (change (inject_Z 0 < inject_Z total)%Q; rewrite <- Zlt_Qlt; exact Htotal).
  assert (Hlow : (0 <= inject_Z (total - idle) / inject_Z total)%Q).
  { apply Qle_shift_div_l; [exact Hpos|].
    rewrite Qmult_0_l. change (inject_Z 0 <= inject_Z (total - idle))%Q.
    rewrite <- Zle_Qle. lia. }
  assert (Hhigh : (inject_Z (total - idle) / inject_Z total <= 1)%Q).
  { apply Qle_shift_div_r; [exact Hpos|].
    rewrite Qmult_1_l, <- Zle_Qle. lia. }
  split.
  - apply Qmult_le_0_compat; [exact Hlow|discriminate].
  - setoid_replace (100 : Q) with (1 * 100)%Q at 2 by reflexivity.
    apply Qmult_le_compat_r; [exact Hhigh|discriminate].
Qed.

(** X9. For every well-formed first line of [/proc/stat] whose counters add
    up to less than 2^64, [getCPUUsage] returns no error and a percentage
    between 0 and 100. *)
Theorem getCPUUsage_between_0_and_100 :
  forall (host : monitor.Host) (line : string) (cs : list Z),
    firstStatLine host = Some line ->
    statCounters line cs ->
    sumZ cs < 2^64 ->
    exists q, monitor.getCPUUsage host = (monitor.Fin q, None) /\ (0 <= q <= 100)%Q.
Proof.
  intros host line cs Hline Hcs Hfit.
  rewrite (getCPUUsage_first_line host Hline), (cpuUsageOfLine_exact Hcs Hfit).
  assert (Hrange : Forall (fun v => 0 <= v <= maxUint64) cs)
    by (destruct Hcs as (fs & _ & _ & Hparse); exact (parsed_counters_range _ _ Hparse)).
  pose proof (sumZ_nonneg Hrange) as Hsum.
  pose proof (@idleOf_bounds cs Hrange 1 0 (Z.le_refl 0)) as Hidle.
  destruct (Z.eqb_spec (sumZ cs) 0) as [Hz|Hnz].
  - exists 0%Q; split; [reflexivity|]. split; discriminate.
  - eexists; split; [reflexivity|]. apply ratio_between_0_and_100; lia.
Qed.

Lemma getCPUUsage_between_0_and_100_witness :
  exists q, monitor.getCPUUsage meminfoHost = (monitor.Fin q, None) /\ (0 <= q <= 100)%Q.
Proof.
  apply (@getCPUUsage_between_0_and_100 meminfoHost "cpu  100 0 100 700 50 0 50 0 0 0"
           [100; 0; 100; 700; 50; 0; 50; 0; 0; 0]).
  - vm_compute; reflexivity.
  - stat_counters.
  - vm_compute; reflexivity.
Defined.

(** X10. The sample reports a CPU usage of 0 whenever [/proc/stat] cannot
    be read or is empty, or its first line has fewer than 8 fields, does
    not start with the field [cpu], or has a field after it that is not an
    unsigned 64-bit decimal; in the cases of an empty file, a short line and
    another marker [getCPUUsage] returns this 0 with a nil error. *)
Theorem CPUUsage_zero_on_bad_stat :
  forall (ParseFloat : string -> option monitor.float64) (host : monitor.Host),
    (firstStatLine host = None
     \/ exists line, firstStatLine host = Some line /\ badStatLine line) ->
    monitor.CPUUsage (monitor.GetPerformanceMetrics ParseFloat host) = monitor.Fin 0
    /\ (forall line,
           firstStatLine host = Some line ->
           (List.length (strings.Fields line) < 8)%nat
           \/ hd "" (strings.Fields line) <> "cpu" ->
           monitor.getCPUUsage host = (monitor.Fin 0, None))
    /\ (forall content,
           monitor.ReadFile host "/proc/stat" = Some content ->
           firstStatLine host = None ->
           monitor.getCPUUsage host = (monitor.Fin 0, None)).
Proof.
  intros ParseFloat host Hbad.
  split; [|split].
  - rewrite GetPerformanceMetrics_cpu.
    destruct (isSome (snd (monitor.getCPUUsage host))); [reflexivity|].
    destruct Hbad as [Hnone | (line & Hline & Hline_bad)].
    + unfold firstStatLine in Hnone; unfold monitor.getCPUUsage.
      destruct (monitor.ReadFile host "/proc/stat") as [content|]; [|reflexivity].
      destruct (bufio.ScanLines content); [reflexivity|discriminate].
    + rewrite (getCPUUsage_first_line host Hline). now apply cpuUsageOfLine_bad.
  - intros line Hline Hshort.
    rewrite (getCPUUsage_first_line host Hline). now apply cpuUsageOfLine_silent.
  - intros content Hread Hnone.
    unfold firstStatLine in Hnone; unfold monitor.getCPUUsage.
    rewrite Hread in *.
    destruct (bufio.ScanLines content); [reflexivity|discriminate].
Qed.

Lemma CPUUsage_zero_on_bad_stat_witness :
  monitor.CPUUsage
    (monitor.GetPerformanceMetrics parsePercent
       (hostOf [("/proc/stat", "cpu 10 20 30 40 x 60 70" ++ LF)]))
  = monitor.Fin 0
  /\ monitor.getCPUUsage (hostOf [("/proc/stat", "cpu 10 20 30" ++ LF)])
     = (monitor.Fin 0, None).
Proof.
  split.
  - apply (@CPUUsage_zero_on_bad_stat parsePercent
             (hostOf [("/proc/stat", "cpu 10 20 30 40 x 60 70" ++ LF)])).
    right; exists "cpu 10 20 30 40 x 60 70"; split; [vm_compute; reflexivity|].
    right; right.
    replace (strings.Fields "cpu 10 20 30 40 x 60 70")
      with ["cpu"; "10"; "20"; "30"; "40"; "x"; "60"; "70"] by (vm_compute; reflexivity).
    cbn [tl]. do 4 apply Exists_cons_tl. apply Exists_cons_hd. discriminate.
  - apply (@CPUUsage_zero_on_bad_stat parsePercent
             (hostOf [("/proc/stat", "cpu 10 20 30" ++ LF)]))
      with (line := "cpu 10 20 30").
    + right; exists "cpu 10 20 30"; split; [vm_compute; reflexivity|].
      left; vm_compute; lia.
    + vm_compute; reflexivity.
    + left; vm_compute; lia.
Defined.

(** X11. The memory figures of a sample: each of MemTotal, MemFree, Buffers
    and Cached is the value of the last of the lines read from
    [/proc/meminfo] with that key and an integer value, divided by 1024,
    and 0 without such a line; used is total - free - buffers - cached;
    the percentage is used/total*100 when the total is positive and 0
    otherwise.  When the file cannot be read the three figures are 0.  The
    lines read are those of fewer than 65536 bytes up to the first longer
    one: what follows such a line changes nothing. *)
Theorem sample_memory :
  forall (ParseFloat : string -> option monitor.float64) (host : monitor.Host),
    let m := monitor.GetPerformanceMetrics ParseFloat host in
    (monitor.ReadFile host "/proc/meminfo" = None ->
     monitor.MemoryUsedMB m = 0 /\ monitor.MemoryTotalMB m = 0
     /\ monitor.MemoryUsagePercent m = monitor.Fin 0)
    /\ (forall content,
           monitor.ReadFile host "/proc/meminfo" = Some content ->
           let lines := bufio.ScanLines content in
           let total := lastValue "MemTotal" lines in
           let used := total - lastValue "MemFree" lines
                       - lastValue "Buffers" lines - lastValue "Cached" lines in
           monitor.MemoryTotalMB m = total
           /\ monitor.MemoryUsedMB m = used
           /\ monitor.MemoryUsagePercent m
              = if total >? 0
                then monitor.Fin (inject_Z used / inject_Z total * 100)%Q
                else monitor.Fin 0)
    /\ (forall (before : list string) (long rest : string),
           monitor.ReadFile host "/proc/meminfo"
           = Some (unlines before ++ long ++ LF ++ rest) ->
           forallb oneLine before = true ->
           overlong long = true ->
           let m' := monitor.GetPerformanceMetrics ParseFloat
                       (hostOf [("/proc/meminfo", unlines before)]) in
           monitor.MemoryTotalMB m = monitor.MemoryTotalMB m'
           /\ monitor.MemoryUsedMB m = monitor.MemoryUsedMB m'
           /\ monitor.MemoryUsagePercent m = monitor.MemoryUsagePercent m').
Proof.
  intros ParseFloat host m; subst m.
  pose proof (GetPerformanceMetrics_memory ParseFloat host) as Hm.
  split; [|split].
  - intros Hread. unfold monitor.getMemoryUsage in Hm. rewrite Hread in Hm.
    cbn in Hm. tauto.
  - intros content Hread lines total used.
    rewrite (getMemoryUsage_lastValue host Hread) in Hm.
    cbn [isSome negb andb] in Hm. fold lines in Hm. fold total in Hm. fold used in Hm.
    tauto.
  - intros before long rest Hread Hbefore Hlong m'; subst m'.
    pose proof (GetPerformanceMetrics_memory ParseFloat
                  (hostOf [("/proc/meminfo", unlines before)])) as Hm'.
    assert (Hread' : monitor.ReadFile (hostOf [("/proc/meminfo", unlines before)])
                                      "/proc/meminfo" = Some (unlines before))
      by reflexivity.
    rewrite (getMemoryUsage_lastValue host Hread) in Hm.
    rewrite (getMemoryUsage_lastValue _ Hread') in Hm'.
    rewrite (ScanLines_stops before long rest Hbefore Hlong) in Hm.
    destruct Hm as (Hused & Htotal & Hpercent).
    destruct Hm' as (Hused' & Htotal' & Hpercent').
    rewrite Hused, Htotal, Hpercent, Hused', Htotal', Hpercent'.
    repeat split.
Qed.

Lemma sample_memory_witness :
  (monitor.MemoryTotalMB (monitor.GetPerformanceMetrics parsePercent meminfoHost) = 16000
   /\ monitor.MemoryUsedMB (monitor.GetPerformanceMetrics parsePercent meminfoHost) = 10998)
  /\ monitor.MemoryTotalMB
       (monitor.GetPerformanceMetrics parsePercent (hostOf [("/proc/meminfo", longMeminfo)]))
     = 0.
Proof.
  split.
  - destruct (sample_memory parsePercent meminfoHost) as (_ & H & _).
    destruct (H _ eq_refl) as (Htotal & Hused & _).
    split; [exact Htotal|exact Hused].
  - destruct (sample_memory parsePercent (hostOf [("/proc/meminfo", longMeminfo)]))
      as (_ & _ & H).
    destruct (H [] (filler (Z.to_nat bufio.MaxScanTokenSize))
                ("MemTotal:        4194304 kB" ++ LF)
                eq_refl eq_refl ltac:(vm_compute; reflexivity)) as (Htotal & _).
    rewrite Htotal. reflexivity.
Defined.

(** X12. The utilization is read from [gpu_busy_percent] when that file
    can be read and parses, whatever [busy_percent] holds; from
    [busy_percent] when only that one does; it is -1 when neither does. *)
Theorem getAMDGPUUsagePercent_order :
  forall (ParseFloat : string -> option monitor.float64) (host : monitor.Host),
    let first := "/sys/class/drm/card0/device/gpu_busy_percent" in
    let second := "/sys/class/drm/card0/device/busy_percent" in
    (forall u, busyReads ParseFloat host first u ->
               monitor.getAMDGPUUsagePercent ParseFloat host = u)
    /\ (forall u, busyMissing ParseFloat host first ->
                  busyReads ParseFloat host second u ->
                  monitor.getAMDGPUUsagePercent ParseFloat host = u)
    /\ (busyMissing ParseFloat host first ->
        busyMissing ParseFloat host second ->
        monitor.getAMDGPUUsagePercent ParseFloat host = monitor.Fin (-1)).
Proof.
  intros ParseFloat host first second; unfold monitor.getAMDGPUUsagePercent.
  split; [|split].
  - intros u Hu. exact (@firstUsage_reads ParseFloat host [] [second] first u (Forall_nil _) Hu).
  - intros u Hfirst Hu.
    exact (@firstUsage_reads ParseFloat host [first] [] second u
             (Forall_cons _ Hfirst (Forall_nil _)) Hu).
  - intros Hfirst Hsecond. apply firstUsage_missing. repeat constructor; assumption.
Qed.

Lemma getAMDGPUUsagePercent_order_witness :
  monitor.getAMDGPUUsagePercent parsePercent gpuHostSecondBusy = monitor.Fin 37
  /\ monitor.getAMDGPUUsagePercent parsePercent gpuHostZeroVRAM = monitor.Fin 50.
Proof.
  destruct (getAMDGPUUsagePercent_order parsePercent gpuHostSecondBusy) as (_ & Hsecond & _).
  destruct (getAMDGPUUsagePercent_order parsePercent gpuHostZeroVRAM) as (Hfirst & _ & _).
  split.
  - apply Hsecond; [reflexivity|]. exists ("37" ++ LF); split; reflexivity.
  - apply Hfirst. exists ("50" ++ LF); split; reflexivity.
Defined.

(** X13. The GPU part of a sample is all or nothing: when the VRAM total
    read is positive and the utilization read is at least 0, the sample
    carries that utilization and the used and total VRAM in MB; in every
    other case it carries -1, 0 and 0. *)
Theorem sample_gpu_all_or_nothing :
  forall (ParseFloat : string -> option monitor.float64) (host : monitor.Host),
    let m := monitor.GetPerformanceMetrics ParseFloat host in
    let total := monitor.getAMDGPUMemory host vramTotalPath in
    let used := monitor.getAMDGPUMemory host vramUsedPath in
    let usage := monitor.getAMDGPUUsagePercent ParseFloat host in
    (monitor.GPUUsage m, monitor.GPUMemoryUsedMB m, monitor.GPUMemoryTotalMB m)
    = if (total >? 0) && monitor.geZero usage
      then (usage, Z.quot used (1024 * 1024), Z.quot total (1024 * 1024))
      else (monitor.Fin (-1), 0, 0).
Proof.
  intros ParseFloat host m total used usage; subst m.
  assert (Hgpu : monitor.getAMDGPUUsage ParseFloat host
                 = if total >? 0
                   then (usage, Z.quot used (1024 * 1024), Z.quot total (1024 * 1024))
                   else (monitor.Fin (-1), 0, 0)) by reflexivity.
  destruct (total >? 0).
  - destruct (GetPerformanceMetrics_gpu ParseFloat host Hgpu) as (Hu & Hused & Htotal).
    rewrite Hu, Hused, Htotal. cbn [andb]. now destruct (monitor.geZero usage).
  - destruct (GetPerformanceMetrics_gpu ParseFloat host Hgpu) as (Hu & Hused & Htotal).
    rewrite Hu, Hused, Htotal. reflexivity.
Qed.

(* ================================================================== *)
(** * Further properties of the inference-server client               *)
(* ================================================================== *)

Section MoreClientProps.

Import ollama.

Variable validURL : string -> bool.
Variable c : Client.

Lemma send_invalid (method path : string) (header : list (string * string))
      (body : option json) (sent : list Request) :
  validURL (baseURL c ++ path) = false ->
  send validURL c method path header body sent = (inl (Unreachable "invalid URL"), sent).
Proof. intros H; unfold send; now rewrite H. Qed.

End MoreClientProps.

(** X14. With acceptable URLs each operation sends exactly one request:
    [Health] a GET of /api/version and [ListModels] a GET of /api/tags,
    both without body; [PullModel] a POST of /api/pull with the body
    {name, stream: true}; [Generate] a POST of /api/generate with the body
    {model, prompt, stream: false} and the options when there are any; the
    two POSTs carry the JSON content type. *)
Theorem operations_send_one_request :
  forall (Time : Type) (zeroTime : Time) (parseRFC3339 : string -> option Time)
         (validURL : string -> bool) (c : ollama.Client) (sent : list ollama.Request)
         (S : Type) (callback : option (ollama.PullProgress -> S -> S)) (s : S)
         (name model prompt : string) (options : list (string * ollama.json)),
    (forall path, validURL (ollama.baseURL c ++ path) = true) ->
    snd (ollama.Health validURL c sent) = (sent ++ [versionRequest c])%list
    /\ snd (ollama.ListModels zeroTime parseRFC3339 validURL c sent)
       = (sent ++ [tagsRequest c])%list
    /\ snd (ollama.PullModel validURL c callback name s sent)
       = (sent ++ [pullRequest c name])%list
    /\ snd (ollama.Generate zeroTime parseRFC3339 validURL c model prompt options sent)
       = (sent ++ [generateRequest c model prompt options])%list.
Proof.
  intros Time zeroTime parseRFC3339 validURL c sent S callback s name model prompt options Hurl.
  rewrite (@Health_sent validURL c sent (Hurl _)).
  rewrite (@ListModels_sent validURL c Time zeroTime parseRFC3339 sent (Hurl _)).
  rewrite (@PullModel_sent validURL c S callback name s sent (Hurl _)).
  rewrite (@Generate_sent validURL c Time zeroTime parseRFC3339 model prompt options sent (Hurl _)).
  repeat split.
Qed.

Lemma operations_send_one_request_witness :
  map ollama.Method
      (snd (ollama.PullModel anyURL (serverAnswering 200 []) (Some record) "llama3.1:8b" [] []))
  = ["POST"]
  /\ map ollama.URL (snd (ollama.Health anyURL (serverAnswering 200 []) []))
     = ["http://localhost:11434/api/version"].
Proof.
  destruct (@operations_send_one_request string "" textTime anyURL (serverAnswering 200 []) []
              _ (Some record) [] "llama3.1:8b" "" "" [] (fun _ => eq_refl))
    as (Hhealth & _ & Hpull & _).
  rewrite Hhealth, Hpull. split; reflexivity.
Defined.

(** X15. When the request cannot be built, every operation fails and
    nothing is sent; [PullModel] leaves the state of its sink as it was. *)
Theorem nothing_sent_without_request :
  forall (Time : Type) (zeroTime : Time) (parseRFC3339 : string -> option Time)
         (validURL : string -> bool) (c : ollama.Client) (sent : list ollama.Request)
         (S : Type) (callback : option (ollama.PullProgress -> S -> S)) (s : S)
         (name model prompt : string) (options : list (string * ollama.json)),
    (forall path, validURL (ollama.baseURL c ++ path) = false) ->
    (exists e, ollama.Health validURL c sent = (Some e, sent))
    /\ (exists e, ollama.ListModels zeroTime parseRFC3339 validURL c sent = (inl e, sent))
    /\ (exists e, ollama.PullModel validURL c callback name s sent = ((Some e, s), sent))
    /\ (exists e, ollama.DeleteModel validURL c name sent = (Some e, sent))
    /\ (exists e, ollama.Generate zeroTime parseRFC3339 validURL c model prompt options sent
                  = (inl e, sent)).
Proof.
  intros Time zeroTime parseRFC3339 validURL c sent S callback s name model prompt options Hurl.
  unfold ollama.Health, ollama.ListModels, ollama.PullModel, ollama.DeleteModel,
    ollama.Generate, ollama.bind, ollama.get, ollama.post, ollama.delete.
  rewrite !(@send_invalid validURL c _ _ _ _ sent (Hurl _)).
  repeat split; eexists; reflexivity.
Qed.

Lemma nothing_sent_without_request_witness :
  snd (ollama.DeleteModel noURL (serverAnswering 200 [progressDoc "success"]) "llama3.1:8b" [])
  = []
  /\ snd (fst (ollama.PullModel noURL (serverAnswering 200 [progressDoc "success"])
                 (Some record) "llama3.1:8b" [] []))
     = [].
Proof.
  destruct (@nothing_sent_without_request string "" textTime noURL
              (serverAnswering 200 [progressDoc "success"]) []
              _ (Some record) [] "llama3.1:8b" "" "" [] (fun _ => eq_refl))
    as (_ & _ & (e & Hpull) & (e' & Hdelete) & _).
  split.
  - now rewrite Hdelete.
  - now rewrite Hpull.
Defined.

(** X16. When the transport fails, every operation returns the error of
    the transport as it is, not wrapped; [PullModel] delivers nothing. *)
Theorem transport_error_returned :
  forall (Time : Type) (zeroTime : Time) (parseRFC3339 : string -> option Time)
         (validURL : string -> bool) (c : ollama.Client) (sent : list ollama.Request)
         (S : Type) (callback : option (ollama.PullProgress -> S -> S)) (s : S)
         (name model prompt : string) (options : list (string * ollama.json))
         (err : ollama.error),
    (forall path, validURL (ollama.baseURL c ++ path) = true) ->
    (forall req, ollama.Do c req = inl err) ->
    fst (ollama.Health validURL c sent) = Some err
    /\ fst (ollama.ListModels zeroTime parseRFC3339 validURL c sent) = inl err
    /\ fst (ollama.PullModel validURL c callback name s sent) = (Some err, s)
    /\ fst (ollama.DeleteModel validURL c name sent) = Some err
    /\ fst (ollama.Generate zeroTime parseRFC3339 validURL c model prompt options sent)
       = inl err.
Proof.
  intros Time zeroTime parseRFC3339 validURL c sent S callback s name model prompt options
         err Hurl Hdo.
  rewrite (@Health_sent validURL c sent (Hurl _)).
  rewrite (@ListModels_sent validURL c Time zeroTime parseRFC3339 sent (Hurl _)).
  rewrite (@PullModel_sent validURL c S callback name s sent (Hurl _)).
  rewrite (@DeleteModel_sent validURL c name sent (Hurl _)).
  rewrite (@Generate_sent validURL c Time zeroTime parseRFC3339 model prompt options sent (Hurl _)).
  rewrite !Hdo. repeat split.
Qed.

Lemma transport_error_returned_witness :
  fst (ollama.PullModel anyURL serverDown (Some record) "llama3.1:8b" [] [])
  = (Some (ollama.Unreachable "connection refused"), [])
  /\ fst (ollama.ListModels "" textTime anyURL serverDown [])
     = inl (ollama.Unreachable "connection refused").
Proof.
  destruct (@transport_error_returned string "" textTime anyURL serverDown []
              _ (Some record) [] "llama3.1:8b" "" "" []
              (ollama.Unreachable "connection refused")
              (fun _ => eq_refl) (fun _ => eq_refl))
    as (_ & Hlist & Hpull & _).
  split; assumption.
Defined.

(** X17. [ListModels] and [Generate] read one JSON value from the body and
    nothing after it: an empty body is a decode error (the end of the
    stream is an error here), so is a body that does not start with a JSON
    value, and otherwise the result is what the first value decodes to. *)
Theorem one_value_decoded :
  forall (Time : Type) (zeroTime : Time) (parseRFC3339 : string -> option Time)
         (validURL : string -> bool) (c : ollama.Client) (sent : list ollama.Request)
         (model prompt : string) (options : list (string * ollama.json))
         (status : Z) (body : list ollama.chunk),
    (forall path, validURL (ollama.baseURL c ++ path) = true) ->
    (forall req, ollama.Do c req
                 = inr {| ollama.StatusCode := status; ollama.Body := body |}) ->
    let listed := fst (ollama.ListModels zeroTime parseRFC3339 validURL c sent) in
    let generated :=
      fst (ollama.Generate zeroTime parseRFC3339 validURL c model prompt options sent) in
    match body with
    | [] =>
        listed = inl (ollama.Wrapped "failed to decode response" ollama.EOF)
        /\ generated = inl (ollama.Wrapped "failed to decode response" ollama.EOF)
    | ollama.Malformed :: _ =>
        listed = inl (ollama.Wrapped "failed to decode response" ollama.SyntaxError)
        /\ generated = inl (ollama.Wrapped "failed to decode response" ollama.SyntaxError)
    | ollama.Doc j :: _ =>
        listed = match ollama.decodeListModelsResponse zeroTime parseRFC3339 j with
                 | inl e => inl (ollama.Wrapped "failed to decode response" e)
                 | inr models => inr models
                 end
        /\ generated = match ollama.decodeGenerateResponse zeroTime parseRFC3339 j with
                       | inl e => inl (ollama.Wrapped "failed to decode response" e)
                       | inr genResp => inr genResp
                       end
    end.
Proof.
  intros Time zeroTime parseRFC3339 validURL c sent model prompt options status body
         Hurl Hdo listed generated; subst listed generated.
  rewrite (@ListModels_sent validURL c Time zeroTime parseRFC3339 sent (Hurl _)).
  rewrite (@Generate_sent validURL c Time zeroTime parseRFC3339 model prompt options sent (Hurl _)).
  rewrite !Hdo. cbn [fst ollama.Body].
  destruct body as [|[j|] rest]; cbn [ollama.Decode fst]; split; reflexivity.
Qed.

Lemma one_value_decoded_witness :
  fst (ollama.ListModels "" textTime anyURL (serverAnswering 200 []) [])
  = inl (ollama.Wrapped "failed to decode response" ollama.EOF).
Proof.
  exact (proj1 (@one_value_decoded string "" textTime anyURL (serverAnswering 200 []) []
                  "" "" [] 200 [] (fun _ => eq_refl) (fun _ => eq_refl))).
Defined.

(** X18. Given a response, [Health] succeeds if and only if its status is
    200 and fails with that status otherwise; the body plays no part. *)
Theorem Health_contract :
  forall (validURL : string -> bool) (c : ollama.Client) (sent : list ollama.Request)
         (resp : ollama.Response),
    validURL (ollama.baseURL c ++ "/api/version") = true ->
    ollama.Do c (versionRequest c) = inr resp ->
    (fst (ollama.Health validURL c sent) = None <-> ollama.StatusCode resp = 200)
    /\ (ollama.StatusCode resp <> 200 ->
        fst (ollama.Health validURL c sent)
        = Some (ollama.StatusError "health check failed with status"
                                   (ollama.StatusCode resp))).
Proof.
  intros validURL c sent resp Hurl Hdo.
  rewrite (@Health_sent validURL c sent Hurl), Hdo; cbn [fst]. unfold ollama.StatusOK.
  destruct (Z.eqb_spec (ollama.StatusCode resp) 200) as [Heq|Hne].
  - split; [tauto|contradiction].
  - split; [split; [discriminate|contradiction]|reflexivity].
Qed.

Lemma Health_contract_witness :
  fst (ollama.Health anyURL (serverAnswering 200 [ollama.Malformed]) []) = None
  /\ fst (ollama.Health anyURL (serverAnswering 204 []) [])
     = Some (ollama.StatusError "health check failed with status" 204).
Proof.
  split.
  - apply (proj1 (@Health_contract anyURL (serverAnswering 200 [ollama.Malformed]) []
                    _ eq_refl eq_refl)).
    reflexivity.
  - apply (proj2 (@Health_contract anyURL (serverAnswering 204 []) [] _ eq_refl eq_refl)).
    discriminate.
Defined.

(** X20. [PullModel] does not look at the status code: two responses with
    the same body give the same error and the same deliveries.  So an
    error answer of the server, such as a 404 whose body is a JSON object
    with an [error] member, is delivered as one progress event with an
    empty status and [PullModel] returns no error. *)
Theorem PullModel_ignores_status :
  forall (validURL : string -> bool) (c c' : ollama.Client)
         (S : Type) (callback : option (ollama.PullProgress -> S -> S))
         (name : string) (s : S) (sent sent' : list ollama.Request)
         (resp resp' : ollama.Response),
    validURL (ollama.baseURL c ++ "/api/pull") = true ->
    validURL (ollama.baseURL c' ++ "/api/pull") = true ->
    ollama.Do c (pullRequest c name) = inr resp ->
    ollama.Do c' (pullRequest c' name) = inr resp' ->
    ollama.Body resp = ollama.Body resp' ->
    fst (ollama.PullModel validURL c callback name s sent)
    = fst (ollama.PullModel validURL c' callback name s sent').
Proof.
  intros validURL c c' S callback name s sent sent' resp resp' Hurl Hurl' Hdo Hdo' Hbody.
  rewrite (@PullModel_sent validURL c S callback name s sent Hurl), Hdo.
  rewrite (@PullModel_sent validURL c' S callback name s sent' Hurl'), Hdo'.
  cbn [fst]. now rewrite Hbody.
Qed.

Lemma PullModel_ignores_status_witness :
  fst (ollama.PullModel anyURL (serverAnswering 404 [errorDoc "model not found"])
         (Some record) "no-such-model" [] [])
  = (None, [progress ""]).
Proof.
  rewrite (@PullModel_ignores_status anyURL
             (serverAnswering 404 [errorDoc "model not found"])
             (serverAnswering 200 [errorDoc "model not found"])
             _ (Some record) "no-such-model" [] [] []
             {| ollama.StatusCode := 404; ollama.Body := [errorDoc "model not found"] |}
             {| ollama.StatusCode := 200; ollama.Body := [errorDoc "model not found"] |}
             eq_refl eq_refl eq_refl eq_refl eq_refl).
  reflexivity.
Defined.

(** What the members of an object leave in a progress event that held [p],
    and the error recorded after them. *)
Lemma object_setPullProgress (ms : list (string * ollama.json)) :
  forall (p : ollama.PullProgress) (saved : option ollama.error),
    ollama.object ollama.setPullProgress ms p saved
    = inr ({| ollama.Status := orKeep (lastText "status" ms) (ollama.Status p);
              ollama.Digest := orKeep (lastText "digest" ms) (ollama.Digest p);
              ollama.Total := orKeep (lastNumber "total" ms) (ollama.Total p);
              ollama.Completed := orKeep (lastNumber "completed" ms) (ollama.Completed p) |},
           match saved with
           | Some e => Some e
           | None => option_map ollama.UnmarshalError (firstMisfit ms)
           end).
Proof.
  induction ms as [|[key j] ms IH]; intros p saved.
  - destruct p, saved; reflexivity.
  - cbn [ollama.object firstMisfit lastText lastNumber].
    unfold misfit, fits, progressField, progressTags; cbn [find fst snd].
    unfold ollama.setPullProgress.
    destruct (ollama.keyIs "status" key);
      [|destruct (ollama.keyIs "digest" key);
        [|destruct (ollama.keyIs "total" key);
          [|destruct (ollama.keyIs "completed" key)]]];
      unfold ollama.field, ollama.skip, ollama.stringField, ollama.int64Field,
        ollama.saveError;
      destruct j as [|b|lit|s|items|members];
      try (destruct (strconv.ParseInt lit) as [n [err|]]);
      rewrite IH; cbn;
      destruct (lastText "status" ms), (lastText "digest" ms),
        (lastNumber "total" ms), (lastNumber "completed" ms), saved;
      reflexivity.
Qed.

(** X21. A progress event is decoded member by member in the order of the
    document.  The decoding fails with the type error of the first member
    whose value does not fit the field it names (status and digest take a
    string, total and completed an int64, and [null] fits everywhere and
    changes nothing), whatever comes before or after it.  Without such a
    member it succeeds, and each field holds the value of the last member
    naming it with a value other than [null], or its zero value; members
    naming no field are ignored wherever they stand. *)
Theorem decodePullProgress_members :
  forall (ms : list (string * ollama.json)),
    ollama.decodePullProgress (ollama.JObject ms)
    = match firstMisfit ms with
      | Some tag => inl (ollama.UnmarshalError tag)
      | None =>
          inr {| ollama.Status := orKeep (lastText "status" ms) "";
                 ollama.Digest := orKeep (lastText "digest" ms) "";
                 ollama.Total := orKeep (lastNumber "total" ms) 0;
                 ollama.Completed := orKeep (lastNumber "completed" ms) 0 |}
      end.
Proof.
  intros ms.
  unfold ollama.decodePullProgress, ollama.unmarshal, ollama.intoStruct.
  rewrite object_setPullProgress.
  destruct (firstMisfit ms); reflexivity.
Qed.

Lemma decodePullProgress_members_witness :
  ollama.decodePullProgress
    (ollama.JObject [("total", ollama.JString "x"); ("status", ollama.JNumber "5")])
  = inl (ollama.UnmarshalError "total")
  /\ ollama.decodePullProgress
       (ollama.JObject [("status", ollama.JString "pulling");
                        ("error", ollama.JNumber "7");
                        ("STATUS", ollama.JString "verifying");
                        ("status", ollama.JNull);
                        ("completed", ollama.JNumber "12")])
     = inr {| ollama.Status := "verifying"; ollama.Digest := "";
              ollama.Total := 0; ollama.Completed := 12 |}.
Proof.
  split.
  - rewrite (decodePullProgress_members
               [("total", ollama.JString "x"); ("status", ollama.JNumber "5")]).
    reflexivity.
  - rewrite (decodePullProgress_members
               [("status", ollama.JString "pulling");
                ("error", ollama.JNumber "7");
                ("STATUS", ollama.JString "verifying");
                ("status", ollama.JNull);
                ("completed", ollama.JNumber "12")]).
    vm_compute; reflexivity.
Defined.

(* ================================================================== *)
(** * Properties of the chat handlers                                 *)
(* ================================================================== *)

Lemma promptStep_append (acc : string) (msg : web.ChatMessage) :
  web.promptStep acc msg = acc ++ web.promptStep "" msg.
Proof.
  unfold web.promptStep.
  destruct (web.Role msg =? "user")%string; [reflexivity|].
  destruct (web.Role msg =? "assistant")%string; [reflexivity|].
  now rewrite append_nil_r.
Qed.

Lemma fold_promptStep (msgs : list web.ChatMessage) :
  forall acc, fold_left web.promptStep msgs acc = acc ++ web.buildPrompt msgs.
Proof.
  unfold web.buildPrompt.
  induction msgs as [|msg msgs IH]; intros acc; cbn [fold_left].
  - now rewrite append_nil_r.
  - rewrite (IH (web.promptStep acc msg)), (IH (web.promptStep "" msg)).
    now rewrite (promptStep_append acc msg), append_assoc.
Qed.

(** X22. The prompt is built message by message: the prompt of two lists
    one after the other is the two prompts one after the other, and only
    the messages whose role is exactly [user] or [assistant] contribute;
    every other role, a system message included, is left out. *)
Theorem buildPrompt_dialogue_only :
  forall (msgs more : list web.ChatMessage),
    web.buildPrompt (msgs ++ more) = web.buildPrompt msgs ++ web.buildPrompt more
    /\ web.buildPrompt msgs = web.buildPrompt (filter isDialogue msgs).
Proof.
  intros msgs more; split.
  - unfold web.buildPrompt at 1. rewrite fold_left_app. apply fold_promptStep.
  - induction msgs as [|msg msgs IH]; [reflexivity|].
    cbn [filter]. unfold web.buildPrompt at 1. cbn [fold_left]. rewrite fold_promptStep.
    unfold isDialogue at 1.
    destruct (web.Role msg =? "user")%string eqn:Huser.
    + cbn [orb]. unfold web.buildPrompt at 2. cbn [fold_left].
      rewrite fold_promptStep. now rewrite IH.
    + destruct (web.Role msg =? "assistant")%string eqn:Hassistant.
      * cbn [orb]. unfold web.buildPrompt at 2. cbn [fold_left].
        rewrite fold_promptStep. now rewrite IH.
      * cbn [orb]. unfold web.promptStep. rewrite Huser, Hassistant. exact IH.
Qed.

Section HandlerProps.

Variable Time : Type.
Variable zeroTime : Time.
Variable parseRFC3339 : string -> option Time.
Variable validURL : string -> bool.
Variable s : ollama.Client.

Hypothesis Hurl : forall path, validURL (ollama.baseURL s ++ path) = true.

(** What [handleChatAPI] does with a request that has messages. *)
Lemma handleChatAPI_forward (body : list ollama.chunk) (req : web.ChatRequest)
      (sent : list ollama.Request) :
  fst (ollama.Decode web.decodeChatRequest body) = inr req ->
  web.Messages req <> [] ->
  let generate := generateRequest s (web.Model req) (web.buildPrompt (web.Messages req)) [] in
  web.handleChatAPI zeroTime parseRFC3339 validURL s body sent
  = (match ollama.Do s generate with
     | inl err =>
         ([logrus.Errorf "Failed to generate response: %v" [logrus.Err err]],
          (500, web.ErrorMessage Time "Failed to generate response"))
     | inr resp =>
         match fst (ollama.Decode (ollama.decodeGenerateResponse zeroTime parseRFC3339)
                      (ollama.Body resp)) with
         | inl err =>
             ([logrus.Errorf "Failed to generate response: %v"
                 [logrus.Err (ollama.Wrapped "failed to decode response" err)]],
              (500, web.ErrorMessage Time "Failed to generate response"))
         | inr g =>
             ([], (200, web.Chat Time
                          {| web.Message := message "assistant" (ollama.GenResponse g);
                             web.Done := ollama.Done g |}))
         end
     end,
     (sent ++ [generate])%list).
Proof.
  intros Hreq Hmessages generate; subst generate.
  unfold web.handleChatAPI; rewrite Hreq.
  destruct (web.Messages req) as [|m ms] eqn:Hm; [now elim Hmessages|].
  cbn [List.length Nat.eqb]. rewrite <- Hm.
  unfold ollama.bind.
  rewrite (@Generate_sent validURL s Time zeroTime parseRFC3339 _ _ _ sent (Hurl _)).
  destruct (ollama.Do s _) as [err|resp]; [reflexivity|].
  destruct (fst (ollama.Decode _ (ollama.Body resp))); reflexivity.
Qed.

End HandlerProps.

(** X23. [handleChatAPI] contacts the inference server only for a body
    that decodes to a request with at least one message, and then with one
    generate request for the model of the request, the prompt built from
    its messages and no options; a body that does not decode and a request
    without messages are answered with 400 and nothing is sent. *)
Theorem handleChatAPI_requests :
  forall (Time : Type) (zeroTime : Time) (parseRFC3339 : string -> option Time)
         (validURL : string -> bool) (s : ollama.Client)
         (body : list ollama.chunk) (sent : list ollama.Request),
    (forall path, validURL (ollama.baseURL s ++ path) = true) ->
    let result := web.handleChatAPI zeroTime parseRFC3339 validURL s body sent in
    match fst (ollama.Decode web.decodeChatRequest body) with
    | inl err => result = (([], (400, web.ErrorOf Time err)), sent)
    | inr req =>
        match web.Messages req with
        | [] => result = (([], (400, web.ErrorMessage Time "No messages provided")), sent)
        | _ =>
            snd result
            = (sent ++ [generateRequest s (web.Model req)
                          (web.buildPrompt (web.Messages req)) []])%list
        end
    end.
Proof.
  intros Time zeroTime parseRFC3339 validURL s body sent Hurl result; subst result.
  destruct (fst (ollama.Decode web.decodeChatRequest body)) as [err|req] eqn:Hreq.
  - unfold web.handleChatAPI; now rewrite Hreq.
  - destruct (web.Messages req) as [|m ms] eqn:Hm.
    + unfold web.handleChatAPI; now rewrite Hreq, Hm.
    + rewrite <- Hm.
      rewrite (@handleChatAPI_forward Time zeroTime parseRFC3339 validURL s Hurl body req sent Hreq)
        by (rewrite Hm; discriminate).
      reflexivity.
Qed.

Lemma handleChatAPI_requests_witness :
  snd (web.handleChatAPI "" textTime anyURL (serverAnswering 200 [])
         (chatBody "llama3.1:8b"
            [messageJSON "system" "Be brief."; messageJSON "user" "Hi";
             messageJSON "assistant" "Hello"; messageJSON "user" "Bye"]) [])
  = [generateRequest (serverAnswering 200 []) "llama3.1:8b"
       ("User: Hi" ++ LF ++ "Assistant: Hello" ++ LF ++ "User: Bye" ++ LF) []]
  /\ web.handleChatAPI "" textTime anyURL (serverAnswering 200 [])
       (chatBody "llama3.1:8b" []) []
     = (([], (400, web.ErrorMessage string "No messages provided")), []).
Proof.
  split.
  - exact (@handleChatAPI_requests string "" textTime anyURL (serverAnswering 200 [])
             (chatBody "llama3.1:8b"
                [messageJSON "system" "Be brief."; messageJSON "user" "Hi";
                 messageJSON "assistant" "Hello"; messageJSON "user" "Bye"]) []
             (fun _ => eq_refl)).
  - exact (@handleChatAPI_requests string "" textTime anyURL (serverAnswering 200 [])
             (chatBody "llama3.1:8b" []) [] (fun _ => eq_refl)).
Defined.

(** X24. For a request with messages, [handleChatAPI] answers 200 with an
    assistant message holding the response text and the done flag exactly
    when the generate request is answered with a body whose first value
    decodes, whatever the status of that answer; on a transport or decode
    failure it answers 500 with the fixed text "Failed to generate
    response" and logs the error, which the reply does not carry. *)
Theorem handleChatAPI_replies :
  forall (Time : Type) (zeroTime : Time) (parseRFC3339 : string -> option Time)
         (validURL : string -> bool) (s : ollama.Client)
         (body : list ollama.chunk) (req : web.ChatRequest) (sent : list ollama.Request),
    (forall path, validURL (ollama.baseURL s ++ path) = true) ->
    fst (ollama.Decode web.decodeChatRequest body) = inr req ->
    web.Messages req <> [] ->
    let reply := snd (fst (web.handleChatAPI zeroTime parseRFC3339 validURL s body sent)) in
    let upstream :=
      ollama.Do s (generateRequest s (web.Model req)
                     (web.buildPrompt (web.Messages req)) []) in
    (forall resp g,
        upstream = inr resp ->
        fst (ollama.Decode (ollama.decodeGenerateResponse zeroTime parseRFC3339)
               (ollama.Body resp)) = inr g ->
        reply = (200, web.Chat Time
                        {| web.Message := message "assistant" (ollama.GenResponse g);
                           web.Done := ollama.Done g |}))
    /\ ((exists err, upstream = inl err)
        \/ (exists resp err,
               upstream = inr resp
               /\ fst (ollama.Decode (ollama.decodeGenerateResponse zeroTime parseRFC3339)
                         (ollama.Body resp)) = inl err) ->
        reply = (500, web.ErrorMessage Time "Failed to generate response")).
Proof.
  intros Time zeroTime parseRFC3339 validURL s body req sent Hurl Hreq Hmessages reply upstream;
    subst reply upstream.
  rewrite (@handleChatAPI_forward Time zeroTime parseRFC3339 validURL s Hurl body req sent
             Hreq Hmessages).
  cbn [fst snd]. split.
  - intros resp g -> ->. reflexivity.
  - intros [(err & ->) | (resp & err & -> & ->)]; reflexivity.
Qed.

Lemma handleChatAPI_replies_witness :
  snd (fst (web.handleChatAPI "" textTime anyURL
              (serverAnswering 500
                 [ollama.Doc (ollama.JObject [("response", ollama.JString "Hello!");
                                              ("done", ollama.JBool true)])])
              (chatBody "llama3.1:8b" [messageJSON "user" "Hi"]) []))
  = (200, web.Chat string {| web.Message := message "assistant" "Hello!"; web.Done := true |})
  /\ snd (fst (web.handleChatAPI "" textTime anyURL serverDown
                 (chatBody "llama3.1:8b" [messageJSON "user" "Hi"]) []))
     = (500, web.ErrorMessage string "Failed to generate response").
Proof.
  split.
  - apply (proj1 (@handleChatAPI_replies string "" textTime anyURL
                    (serverAnswering 500
                       [ollama.Doc (ollama.JObject [("response", ollama.JString "Hello!");
                                                    ("done", ollama.JBool true)])])
                    (chatBody "llama3.1:8b" [messageJSON "user" "Hi"])
                    {| web.Model := "llama3.1:8b"; web.Messages := [message "user" "Hi"] |}
                    [] (fun _ => eq_refl) eq_refl ltac:(discriminate))
                 {| ollama.StatusCode := 500;
                    ollama.Body :=
                      [ollama.Doc (ollama.JObject [("response", ollama.JString "Hello!");
                                                   ("done", ollama.JBool true)])] |}
                 {| ollama.GenModel := ""; ollama.GenResponse := "Hello!";
                    ollama.Done := true; ollama.CreatedAt := "" |});
      reflexivity.
  - apply (proj2 (@handleChatAPI_replies string "" textTime anyURL serverDown
                    (chatBody "llama3.1:8b" [messageJSON "user" "Hi"])
                    {| web.Model := "llama3.1:8b"; web.Messages := [message "user" "Hi"] |}
                    [] (fun _ => eq_refl) eq_refl ltac:(discriminate))).
    left; eexists; reflexivity.
Defined.

(** X25. [handleHealth] answers 200 "healthy" exactly when the inference
    server answers the version request with status 200, and 503
    "unhealthy" with the error in every other case. *)
Theorem handleHealth_status :
  forall (Time : Type) (validURL : string -> bool) (s : ollama.Client)
         (sent : list ollama.Request),
    validURL (ollama.baseURL s ++ "/api/version") = true ->
    let reply := snd (fst (web.handleHealth Time validURL s sent)) in
    match ollama.Do s (versionRequest s) with
    | inr resp =>
        if ollama.StatusCode resp =? 200
        then reply = (200, web.Healthy Time)
        else reply = (503, web.Unhealthy Time
                             (ollama.StatusError "health check failed with status"
                                                 (ollama.StatusCode resp)))
    | inl err => reply = (503, web.Unhealthy Time err)
    end.
Proof.
  intros Time validURL s sent Hurl reply; subst reply.
  unfold web.handleHealth, ollama.bind.
  rewrite (@Health_sent validURL s sent Hurl).
  destruct (ollama.Do s (versionRequest s)) as [err|resp]; [reflexivity|].
  unfold ollama.StatusOK. destruct (ollama.StatusCode resp =? 200); reflexivity.
Qed.

Lemma handleHealth_status_witness :
  snd (fst (web.handleHealth string anyURL (serverAnswering 500 []) []))
  = (503, web.Unhealthy string (ollama.StatusError "health check failed with status" 500)).
Proof.
  exact (@handleHealth_status string anyURL (serverAnswering 500 []) [] eq_refl).
Defined.

(* ================================================================== *)
(** * Properties of the commands                                      *)
(* ================================================================== *)

Section CommandProps.

Variable Time : Type.
Variable zeroTime : Time.
Variable parseRFC3339 : string -> option Time.
Variable validURL : string -> bool.
Variable transport : ollama.Request -> ollama.error + ollama.Response.

Hypothesis Hurl : forall url, validURL url = true.

Lemma NewClient_local :
  cmd.NewClient transport "http://localhost:11434" = localClient transport.
Proof. reflexivity. Qed.

(** The loop over the models sends one pull request for each. *)
Lemma downloadEach_sent (models : list string) :
  forall (log : list logrus.Entry) (sent : list ollama.Request),
    snd (cmd.downloadEach validURL (localClient transport) models log sent)
    = (sent ++ map (pullRequest (localClient transport)) models)%list.
Proof.
  induction models as [|model rest IH]; intros log sent; cbn [cmd.downloadEach map].
  - unfold ollama.ret; cbn [snd]. now rewrite app_nil_r.
  - unfold ollama.bind.
    rewrite (@PullModel_sent validURL (localClient transport) _ _ model _ sent (Hurl _)).
    destruct (ollama.Do (localClient transport) (pullRequest (localClient transport) model))
      as [err|resp].
    + rewrite IH, <- app_assoc. reflexivity.
    + destruct (fst (ollama.readLoop _ (ollama.Body resp) _)) as [[err|] log'];
        rewrite IH, <- app_assoc; reflexivity.
Qed.

Lemma checkWebInterface_sent (url : string) (sent : list ollama.Request) :
  cmd.checkWebInterface validURL transport url sent
  = (match transport (webRequest url) with
     | inl _ => false
     | inr resp => ollama.StatusCode resp =? 200
     end, (sent ++ [webRequest url])%list).
Proof. unfold cmd.checkWebInterface; now rewrite Hurl. Qed.

End CommandProps.

(** X26. [runDownloadRecommended] always returns a nil error and asks for
    each of the three recommended models in turn, one pull request each,
    whether or not an earlier download failed. *)
Theorem runDownloadRecommended_tries_all :
  forall (validURL : string -> bool)
         (transport : ollama.Request -> ollama.error + ollama.Response)
         (sent : list ollama.Request),
    (forall url, validURL url = true) ->
    snd (fst (cmd.runDownloadRecommended validURL transport sent)) = None
    /\ snd (cmd.runDownloadRecommended validURL transport sent)
       = (sent ++ [pullRequest (localClient transport) "llama3.1:8b-instruct-q4_K_M";
                   pullRequest (localClient transport) "mistral:7b-instruct-q4_K_M";
                   pullRequest (localClient transport) "gemma2:2b-instruct-q4_K_M"])%list.
Proof.
  intros validURL transport sent Hurl.
  unfold cmd.runDownloadRecommended, ollama.bind, ollama.ret.
  rewrite NewClient_local.
  pose proof (@downloadEach_sent validURL transport Hurl cmd.recommendedModels
                [logrus.Info "Downloading recommended models for AMD RX 570/580..."] sent)
    as Hsent.
  destruct (cmd.downloadEach validURL (localClient transport) cmd.recommendedModels _ sent)
    as [log sent'].
  cbn [fst snd] in *. split; [reflexivity|exact Hsent].
Qed.

Lemma runDownloadRecommended_tries_all_witness :
  snd (fst (cmd.runDownloadRecommended anyURL unreachable [])) = None
  /\ map ollama.ReqBody (snd (cmd.runDownloadRecommended anyURL unreachable []))
     = map (fun name => Some (ollama.JObject [("name", ollama.JString name);
                                              ("stream", ollama.JBool true)]))
           cmd.recommendedModels.
Proof.
  destruct (@runDownloadRecommended_tries_all anyURL unreachable [] (fun _ => eq_refl))
    as [Herr Hsent].
  split; [exact Herr|]. rewrite Hsent. reflexivity.
Defined.

(** X27. [runDownloadModel] reports success whenever the stream ends
    without a decode error, also when no success marker was seen: after
    events none of which is the success marker and the end of the stream,
    it returns nil and its last log line is the success message.  A chunk
    that does not decode makes it return the error wrapped twice, without
    the success message. *)
Theorem runDownloadModel_outcome :
  forall (validURL : string -> bool)
         (transport : ollama.Request -> ollama.error + ollama.Response)
         (modelName : string) (sent : list ollama.Request) (resp : ollama.Response)
         (chunks : list ollama.chunk) (events : list ollama.PullProgress),
    (forall url, validURL url = true) ->
    transport (pullRequest (localClient transport) modelName) = inr resp ->
    Forall2 decodesTo chunks events ->
    forallb (fun p => negb (isSuccess p)) events = true ->
    let started := [logrus.Infof "Downloading model: %s" [logrus.Str modelName]] in
    let progressed := deliver (Some cmd.downloadProgress) events started in
    (ollama.Body resp = chunks ->
     fst (cmd.runDownloadModel validURL transport modelName sent)
     = ((progressed ++ [logrus.Infof "Successfully downloaded model: %s"
                          [logrus.Str modelName]])%list, None))
    /\ (forall bad e rest,
           ollama.Body resp = (chunks ++ bad :: rest)%list ->
           failsWith bad e ->
           fst (cmd.runDownloadModel validURL transport modelName sent)
           = (progressed,
              Some (ollama.Wrapped "failed to download model"
                      (ollama.Wrapped "failed to decode progress" e)))).
Proof.
  intros validURL transport modelName sent resp chunks events Hurl Hdo Hevents Hnone
         started progressed; subst started progressed.
  unfold cmd.runDownloadModel, ollama.bind, ollama.ret. rewrite NewClient_local.
  rewrite (@PullModel_sent validURL (localClient transport) _ _ modelName _ sent (Hurl _)).
  change (ollama.Do (localClient transport)) with transport. rewrite Hdo.
  split.
  - intros Hbody. rewrite Hbody, <- (app_nil_r chunks).
    rewrite (@readLoop_through _ (Some cmd.downloadProgress) chunks events Hevents Hnone).
    reflexivity.
  - intros bad e rest Hbody Hbad. rewrite Hbody.
    rewrite (@readLoop_through _ (Some cmd.downloadProgress) chunks events Hevents Hnone).
    rewrite (@readLoop_failure _ (Some cmd.downloadProgress) bad e rest _ Hbad).
    reflexivity.
Qed.

Lemma runDownloadModel_outcome_witness :
  snd (fst (cmd.runDownloadModel anyURL
              (answering 200 [progressDoc "pulling manifest"; progressDoc "downloading"])
              "llama3.1:8b" []))
  = None
  /\ snd (fst (cmd.runDownloadModel anyURL
                 (answering 200 [progressDoc "pulling manifest"; ollama.Malformed])
                 "llama3.1:8b" []))
     = Some (ollama.Wrapped "failed to download model"
               (ollama.Wrapped "failed to decode progress" ollama.SyntaxError)).
Proof.
  split.
  - rewrite (proj1 (@runDownloadModel_outcome anyURL
                      (answering 200 [progressDoc "pulling manifest"; progressDoc "downloading"])
                      "llama3.1:8b" []
                      {| ollama.StatusCode := 200;
                         ollama.Body := [progressDoc "pulling manifest";
                                         progressDoc "downloading"] |}
                      [progressDoc "pulling manifest"; progressDoc "downloading"]
                      [progress "pulling manifest"; progress "downloading"]
                      (fun _ => eq_refl) eq_refl
                      ltac:(repeat constructor) eq_refl) eq_refl).
    reflexivity.
  - rewrite (proj2 (@runDownloadModel_outcome anyURL
                      (answering 200 [progressDoc "pulling manifest"; ollama.Malformed])
                      "llama3.1:8b" []
                      {| ollama.StatusCode := 200;
                         ollama.Body := [progressDoc "pulling manifest"; ollama.Malformed] |}
                      [progressDoc "pulling manifest"] [progress "pulling manifest"]
                      (fun _ => eq_refl) eq_refl
                      ltac:(repeat constructor) eq_refl)
                   ollama.Malformed ollama.SyntaxError [] eq_refl eq_refl).
    reflexivity.
Defined.

(** X28. [printStatus] always returns a nil error and asks the network in
    a fixed order: the version of the inference server, its models only
    when the version request was answered with status 200, then the two
    web interfaces on ports 3000 and 8080. *)
Theorem printStatus_requests :
  forall (Time : Type) (zeroTime : Time) (parseRFC3339 : string -> option Time)
         (validURL : string -> bool)
         (transport : ollama.Request -> ollama.error + ollama.Response)
         (os : system.OS) (host : monitor.Host)
         (ParseFloat : string -> option monitor.float64) (now : string)
         (sent : list ollama.Request),
    (forall url, validURL url = true) ->
    let result :=
      cmd.printStatus zeroTime parseRFC3339 validURL transport os host ParseFloat now sent in
    let healthy :=
      match transport (versionRequest (localClient transport)) with
      | inr resp => ollama.StatusCode resp =? 200
      | inl _ => false
      end in
    snd (fst result) = None
    /\ snd result
       = (sent ++ [versionRequest (localClient transport)]
               ++ (if healthy then [tagsRequest (localClient transport)] else [])
               ++ [webRequest "http://localhost:3000"; webRequest "http://localhost:8080"])%list.
Proof.
  intros Time zeroTime parseRFC3339 validURL transport os host ParseFloat now sent Hurl
         result healthy; subst result healthy.
  unfold cmd.printStatus, cmd.statusOllama, cmd.statusWeb, ollama.bind, ollama.ret.
  rewrite NewClient_local.
  rewrite (@Health_sent validURL (localClient transport) sent (Hurl _)).
  change (ollama.Do (localClient transport)) with transport.
  destruct (transport (versionRequest (localClient transport))) as [err|resp].
  - rewrite !(@checkWebInterface_sent validURL transport Hurl). cbn [fst snd].
    split; [reflexivity|]. now rewrite <- !app_assoc.
  - unfold ollama.StatusOK. destruct (ollama.StatusCode resp =? 200).
    + rewrite (@ListModels_sent validURL (localClient transport) Time zeroTime parseRFC3339
                 _ (Hurl _)).
      rewrite !(@checkWebInterface_sent validURL transport Hurl). cbn [fst snd].
      split; [reflexivity|]. now rewrite <- !app_assoc.
    + rewrite !(@checkWebInterface_sent validURL transport Hurl). cbn [fst snd].
      split; [reflexivity|]. now rewrite <- !app_assoc.
Qed.

Lemma printStatus_requests_witness :
  map ollama.URL
      (snd (cmd.printStatus "" textTime anyURL (answering 503 []) deadHost
              (hostOf []) parsePercent "2024-01-01 00:00:00" []))
  = ["http://localhost:11434/api/version"; "http://localhost:3000"; "http://localhost:8080"].
Proof.
  rewrite (proj2 (@printStatus_requests string "" textTime anyURL (answering 503 []) deadHost
                    (hostOf []) parsePercent "2024-01-01 00:00:00" [] (fun _ => eq_refl))).
  reflexivity.
Defined.
